(** * Attendance comparator: a shallow embedding of [comparede.py]

    The development follows the Python source top-down: the text helpers the
    code relies on ([str.strip], [str.upper], [str.lower], [in], the three
    [re.sub] calls), the utility functions [clean_id], [to_time] and
    [find_emp_col], the data-frame operations used by [compare_files], and the
    per-row classification loop.

    Modelling conventions.
    - Text is ASCII: [string] from the standard library.  Python's case
      mapping and white-space classes coincide with the ones below on ASCII
      text, and only there: characters above 127 are left alone by
      [upper]/[lower] and are not white space, where Python maps some of
      them to ASCII letters or treats them as white space.
    - A cell of a spreadsheet is a [scalar]: missing ([None], [NaN], [NaT]), a
      [str], an [int], or any other object carried with the text that
      Python's [str] gives for it (floats, [datetime.time], [Timestamp]).
    - A data frame is a header list and a list of rows; headers are texts.
      The frames that [pd.read_excel] yields are rectangular.  Their
      headers need not stay distinct once trimmed; the accessors below
      ([cell], [get_column], [get_punch_times]) read the first column of a
      name, which is what pandas does on frames with pairwise distinct
      headers only (with a repeated header [df[c]] is a frame and [r[c]] a
      series, and the code raises).  Statements about the driver therefore
      assume [wf_frame] for the roster, [wf_source] for a biometric frame
      (distinct trimmed headers once duplicates are dropped), [wf_table] or
      [wf_context] for the frames in hand when the loop starts.
    - A column converted by [astype(str)] is converted cell by cell with
      [str]; this is what pandas does on columns of texts, integers and
      missing values, not on a column of timestamps.
    - Exceptions are explicit: a computation that can raise has type [exc A].
    - File handling, workbook decoding and cell formatting of the result are
      outside the embedding: [compare_files] starts from the three frames
      that [pd.read_excel] returns and ends with the annotated frame. *)

From Stdlib Require Import Bool Arith ZArith QArith Lia List.
From Stdlib Require Import Ascii String.
From Stdlib Require Import DecimalString.
From Stdlib Require Import Sorted Permutation.
Import ListNotations.

Local Open Scope string_scope.
Local Open Scope list_scope.
Local Open Scope nat_scope.
Local Open Scope bool_scope.

(* ================================================================== *)
(** * Text helpers *)
(* ================================================================== *)

Module Text.

Definition code (c : ascii) : nat := nat_of_ascii c.

Definition in_range (lo hi : nat) (c : ascii) : bool :=
  (lo <=? code c) && (code c <=? hi).

(** [str.isspace] on ASCII: TAB..CR, FS..US and the blank. *)
Definition is_space (c : ascii) : bool :=
  in_range 9 13 c || in_range 28 32 c.

Definition is_digit (c : ascii) : bool := in_range 48 57 c.
Definition is_upper (c : ascii) : bool := in_range 65 90 c.
Definition is_lower (c : ascii) : bool := in_range 97 122 c.

Definition upper_char (c : ascii) : ascii :=
  if is_lower c then ascii_of_nat (code c - 32) else c.

Definition lower_char (c : ascii) : ascii :=
  if is_upper c then ascii_of_nat (code c + 32) else c.

Fixpoint map_str (f : ascii -> ascii) (s : string) : string :=
  match s with
  | EmptyString => EmptyString
  | String c t => String (f c) (map_str f t)
  end.

(** [s.upper()] and [s.lower()] on ASCII text. *)
Definition upper : string -> string := map_str upper_char.
Definition lower : string -> string := map_str lower_char.

Fixpoint lstrip (s : string) : string :=
  match s with
  | EmptyString => EmptyString
  | String c t => if is_space c then lstrip t else s
  end.

Fixpoint rstrip (s : string) : string :=
  match s with
  | EmptyString => EmptyString
  | String c t =>
      match rstrip t with
      | EmptyString => if is_space c then EmptyString else String c EmptyString
      | t' => String c t'
      end
  end.

(** [s.strip()]. *)
Definition strip (s : string) : string := rstrip (lstrip s).

(** [re.sub("[^...]", "", s)] for a character class given by [keep]. *)
Fixpoint keep_chars (keep : ascii -> bool) (s : string) : string :=
  match s with
  | EmptyString => EmptyString
  | String c t =>
      if keep c then String c (keep_chars keep t) else keep_chars keep t
  end.

Fixpoint all_chars (p : ascii -> bool) (s : string) : bool :=
  match s with
  | EmptyString => true
  | String c t => p c && all_chars p t
  end.

(** [needle in hay]. *)
Fixpoint contains (needle hay : string) : bool :=
  prefix needle hay ||
  match hay with
  | EmptyString => false
  | String _ t => contains needle t
  end.

Definition LF : ascii := ascii_of_nat 10.

End Text.

Import Text.

(* ================================================================== *)
(** * Scalars and exceptions *)
(* ================================================================== *)

Inductive scalar : Type :=
| SNone                      (* None *)
| SNaN                       (* float('nan'), np.nan *)
| SNaT                       (* pd.NaT *)
| SStr (s : string)          (* a str *)
| SInt (z : Z)               (* an int *)
| SOther (text : string).    (* any other object, with its str() text *)

(** [str(x)]. *)
Definition py_str (x : scalar) : string :=
  match x with
  | SNone => "None"
  | SNaN => "nan"
  | SNaT => "NaT"
  | SStr s => s
  | SInt z => NilZero.string_of_int (Z.to_int z)
  | SOther t => t
  end.

(** [pd.isna(x)] and [pd.notna(x)] on a scalar. *)
Definition isna (x : scalar) : bool :=
  match x with
  | SNone | SNaN | SNaT => true
  | _ => false
  end.

Definition notna (x : scalar) : bool := negb (isna x).

Inductive exn : Type := ValueError | KeyError | IndexError.

Inductive exc (A : Type) : Type :=
| Ok (a : A)
| Raise (e : exn).

Arguments Ok {A} a.
Arguments Raise {A} e.

Definition bind {A B : Type} (m : exc A) (k : A -> exc B) : exc B :=
  match m with
  | Ok a => k a
  | Raise e => Raise e
  end.

Notation "x <- m ;; k" := (bind m (fun x => k))
  (at level 61, m at next level, right associativity).

(* ================================================================== *)
(** * Utility functions *)
(* ================================================================== *)

(** [re.sub(r"\.0$", "", s)]: [$] matches at the end of the text and also
    just before a final line feed. *)
Fixpoint sub_dot0 (s : string) : string :=
  match s with
  | EmptyString => EmptyString
  | String c t =>
      if (s =? ".0")%string then EmptyString
      else if (s =? String "." (String "0" (String LF EmptyString)))%string
           then String LF EmptyString
      else String c (sub_dot0 t)
  end.

Definition is_AZ09 (c : ascii) : bool := is_upper c || is_digit c.

(** [clean_id], lines 13-17. *)
Definition clean_id (x : scalar) : string :=
  let s := upper (strip (py_str x)) in
  let s := sub_dot0 s in
  let s := keep_chars is_AZ09 s in
  s.

(** ** Times and [datetime.strptime]

    [strptime] with the formats ["%H:%M:%S"] and ["%H:%M"] yields a datetime
    on 1900-01-01; only the time of day is kept. *)

Record datetime : Type := mk_dt { hour : nat; minute : nat; second : nat }.

Definition digit_val (c : ascii) : option nat :=
  if is_digit c then Some (code c - 48) else None.

(** One alternative of a directive's pattern made of two digits [x y] with
    [p x y], and the alternative [\d]; each returns the value read and the
    text left, or nothing. *)
Definition alt2 (p : nat -> nat -> bool) (s : string) : list (nat * string) :=
  match s with
  | String a (String b t) =>
      match digit_val a, digit_val b with
      | Some x, Some y => if p x y then [(10 * x + y, t)] else []
      | _, _ => []
      end
  | _ => []
  end.

Definition alt1 (s : string) : list (nat * string) :=
  match s with
  | String a t =>
      match digit_val a with
      | Some x => [(x, t)]
      | None => []
      end
  | EmptyString => []
  end.

(** The patterns of [_strptime.TimeRE], alternatives in the order the regex
    engine tries them:
    [%H] is [2[0-3]|[0-1]\d|\d], [%M] is [[0-5]\d|\d],
    [%S] is [6[0-1]|[0-5]\d|\d]. *)
Definition re_H (s : string) : list (nat * string) :=
  alt2 (fun x y => (x =? 2) && (y <=? 3)) s ++ alt2 (fun x _ => x <=? 1) s ++ alt1 s.

Definition re_M (s : string) : list (nat * string) :=
  alt2 (fun x _ => x <=? 5) s ++ alt1 s.

Definition re_S (s : string) : list (nat * string) :=
  alt2 (fun x y => (x =? 6) && (y <=? 1)) s ++ alt2 (fun x _ => x <=? 5) s ++ alt1 s.

Definition re_colon (s : string) : list string :=
  match s with
  | String c t => if (c =? ":")%char then [t] else []
  | EmptyString => []
  end.

Inductive format : Type := HMS | HM.

(** All the ways the compiled format matches a prefix of [s], in
    backtracking order: the fields read and the text left over. *)
Definition re_match (f : format) (s : string) : list (nat * nat * nat * string) :=
  flat_map (fun hr1 =>
    flat_map (fun r2 =>
      flat_map (fun mr3 =>
        match f with
        | HM => [(fst hr1, fst mr3, 0, snd mr3)]
        | HMS =>
            flat_map (fun r4 =>
              map (fun sr5 => (fst hr1, fst mr3, fst sr5, snd sr5)) (re_S r4))
              (re_colon (snd mr3))
        end) (re_M r2)) (re_colon (snd hr1))) (re_H s).

(** [datetime.strptime(s, fmt)]: the first match is taken; text left over,
    no match, or a second outside 0..59 raise [ValueError]. *)
Definition strptime (s : string) (f : format) : exc datetime :=
  match re_match f s with
  | [] => Raise ValueError
  | (h, m, sec, rest) :: _ =>
      if negb (rest =? "")%string then Raise ValueError
      else if 59 <? sec then Raise ValueError
      else Ok (mk_dt h m sec)
  end.

Definition is_digit_or_colon (c : ascii) : bool := is_digit c || (c =? ":")%char.

(** The loop of lines 25-30: the first format that parses wins, every
    exception is swallowed. *)
Fixpoint to_time_loop (s : string) (fmts : list format) : option datetime :=
  match fmts with
  | [] => None
  | fmt :: rest =>
      match strptime s fmt with
      | Ok d => Some d
      | Raise _ => to_time_loop s rest
      end
  end.

(** [to_time], lines 19-30. *)
Definition to_time (v : scalar) : option datetime :=
  if isna v then None
  else
    let s := py_str v in
    let s := strip (keep_chars is_digit_or_colon s) in
    to_time_loop s [HMS; HM].

(** ** Column resolution *)

Definition possible : list string :=
  ["pay code"; "emp code"; "employee code"; "empid"; "emp id"; "code"].

(** The inner loop of [find_emp_col]: the header at the first position whose
    trimmed, lowercased text contains [name]. *)
Definition scan_cols (name : string) (cols : list string) : option string :=
  find (fun c => contains name (lower (strip c))) cols.

Fixpoint find_emp_col_loop (names cols : list string) : option string :=
  match names with
  | [] => None
  | name :: rest =>
      match scan_cols name cols with
      | Some c => Some c
      | None => find_emp_col_loop rest cols
      end
  end.

(** [find_emp_col], lines 32-39, on the header list of the frame;
    [df.columns[0]] raises [IndexError] on a frame without columns. *)
Definition find_emp_col (cols : list string) : exc string :=
  match find_emp_col_loop possible cols with
  | Some c => Ok c
  | None =>
      match cols with
      | c :: _ => Ok c
      | [] => Raise IndexError
      end
  end.

(** [next((c for c in cols if phrase in c.lower()), default)]. *)
Definition find_col (phrase : string) (cols : list string) : option string :=
  find (fun c => contains phrase (lower c)) cols.

(* ================================================================== *)
(** * Data frames *)
(* ================================================================== *)

Record DataFrame : Type := mk_df {
  columns : list string;
  rows : list (list scalar)
}.

(** Position of the first header equal to [c]. *)
Fixpoint col_index (c : string) (cols : list string) : option nat :=
  match cols with
  | [] => None
  | h :: t => if (h =? c)%string then Some 0 else option_map S (col_index c t)
  end.

(** [r[c]] for a row [r] of a frame with headers [cols], which are pairwise
    distinct. *)
Definition cell (cols : list string) (r : list scalar) (c : string) : option scalar :=
  match col_index c cols with
  | Some i => nth_error r i
  | None => None
  end.

Fixpoint set_nth {A : Type} (i : nat) (v : A) (l : list A) : list A :=
  match l, i with
  | [], _ => []
  | _ :: t, 0 => v :: t
  | x :: t, S j => x :: set_nth j v t
  end.

Fixpoint map2 {A B C : Type} (f : A -> B -> C) (l : list A) (m : list B) : list C :=
  match l, m with
  | a :: l', b :: m' => f a b :: map2 f l' m'
  | _, _ => []
  end.

(** [df[c]] on a frame whose headers are pairwise distinct. *)
Definition get_column (df : DataFrame) (c : string) : exc (list scalar) :=
  match col_index c (columns df) with
  | Some i => Ok (map (fun r => nth i r SNaN) (rows df))
  | None => Raise KeyError
  end.

(** [df[c] = vals]: an existing column is overwritten in place, a new one is
    appended; a List.length mismatch raises [ValueError]. *)
Definition set_column (df : DataFrame) (c : string) (vals : list scalar) : exc DataFrame :=
  if negb (List.length vals =? List.length (rows df)) then Raise ValueError
  else
    match col_index c (columns df) with
    | Some i => Ok (mk_df (columns df) (map2 (fun r v => set_nth i v r) (rows df) vals))
    | None => Ok (mk_df (columns df ++ [c]) (map2 (fun r v => r ++ [v]) (rows df) vals))
    end.

(** [df.columns = df.columns.str.strip()], all headers being texts. *)
Definition strip_columns (df : DataFrame) : DataFrame :=
  mk_df (map strip (columns df)) (rows df).

(** [~pd.Index(cols).duplicated(keep="first")]. *)
Fixpoint first_mask (seen cols : list string) : list bool :=
  match cols with
  | [] => []
  | c :: t => negb (existsb (String.eqb c) seen) :: first_mask (c :: seen) t
  end.

Fixpoint select {A : Type} (mask : list bool) (l : list A) : list A :=
  match mask, l with
  | b :: mask', x :: l' => if b then x :: select mask' l' else select mask' l'
  | _, _ => []
  end.

(** [dedupe_columns_inplace], lines 41-44. *)
Definition dedupe_columns_inplace (df : DataFrame) : DataFrame :=
  let mask := first_mask [] (columns df) in
  mk_df (select mask (columns df)) (map (select mask) (rows df)).

(** [col.astype(str)] on one cell of a column of texts, integers and
    missing values. *)
Definition astype_str (x : scalar) : scalar := SStr (py_str x).

(** [df[c] = df[c].astype(str).map(clean_id)], lines 80-82. *)
Definition normalize_ids (df : DataFrame) (c : string) : exc DataFrame :=
  vals <- get_column df c ;;
  set_column df c (map (fun x => SStr (clean_id (astype_str x))) vals).

(** The pattern [^\s*$|^-$] searched in a text. *)
Definition is_blank (s : string) : bool :=
  all_chars is_space s || (s =? "-")%string
  || (s =? String "-" (String LF EmptyString))%string.

(** [df.replace(r"^\s*$|^-$", np.nan, regex=True)], lines 84-85. *)
Definition replace_cell (x : scalar) : scalar :=
  match x with
  | SStr s => if is_blank s then SNaN else x
  | _ => x
  end.

Definition replace_blanks (df : DataFrame) : DataFrame :=
  mk_df (columns df) (map (map replace_cell) (rows df)).

(** Frames as [pd.read_excel] gives them: as many cells in a row as headers,
    and no two headers equal once trimmed. *)
Fixpoint nodupb (l : list string) : bool :=
  match l with
  | [] => true
  | x :: t => negb (existsb (String.eqb x) t) && nodupb t
  end.

Definition rectangular (df : DataFrame) : bool :=
  forallb (fun r => List.length r =? List.length (columns df)) (rows df).

Definition wf_frame (df : DataFrame) : bool :=
  rectangular df && nodupb (map strip (columns df)).

(** A biometric frame goes through [dedupe_columns_inplace] first. *)
Definition wf_source (df : DataFrame) : bool :=
  rectangular df && nodupb (map strip (columns (dedupe_columns_inplace df))).

(* ================================================================== *)
(** * Punch collection and classification *)
(* ================================================================== *)

(** Order of datetimes (same date): by hour, minute, second. *)
Definition dt_leb (a b : datetime) : bool :=
  (hour a <? hour b)
  || ((hour a =? hour b)
      && ((minute a <? minute b)
          || ((minute a =? minute b) && (second a <=? second b)))).

Definition dt_ltb (a b : datetime) : bool := negb (dt_leb b a).

Fixpoint insert_sorted (x : datetime) (l : list datetime) : list datetime :=
  match l with
  | [] => [x]
  | y :: t => if dt_leb x y then x :: l else y :: insert_sorted x t
  end.

(** [punches.sort()]. *)
Fixpoint sort (l : list datetime) : list datetime :=
  match l with
  | [] => []
  | x :: t => insert_sorted x (sort t)
  end.

(** [a == emp] for a cell and a key that is a [str]. *)
Definition cell_eqb (a emp : scalar) : bool :=
  match a, emp with
  | SStr s, SStr e => (s =? e)%string
  | _, _ => false
  end.

(** [get_punch_times], lines 88-100, on a frame whose headers are pairwise
    distinct and contain [id_col]. *)
Definition get_punch_times (df : DataFrame) (emp : scalar) (id_col : string) : list datetime :=
  let sub :=
    filter (fun r =>
      match cell (columns df) r id_col with
      | Some a => cell_eqb a emp
      | None => false
      end) (rows df) in
  match sub with
  | [] => []
  | r :: _ =>
      let punches :=
        flat_map (fun c =>
          match cell (columns df) r c with
          | Some x =>
              if contains "PUNCH" (upper c) && notna x then
                match to_time x with
                | Some t => [t]
                | None => []
                end
              else []
          | None => []
          end) (columns df) in
      sort punches
  end.

Definition in_start : datetime := mk_dt 6 45 0.
Definition in_end : datetime := mk_dt 7 30 0.
Definition out_start : datetime := mk_dt 15 15 0.
Definition out_end : datetime := mk_dt 15 20 0.

Definition midnight : datetime := mk_dt 0 0 0.

(** [(b - a).total_seconds()]. *)
Definition seconds_of (d : datetime) : Z :=
  Z.of_nat (3600 * hour d + 60 * minute d + second d).

Definition total_seconds (a b : datetime) : Z := (seconds_of b - seconds_of a)%Z.

(** [diff_mins], line 157: minutes between two punches.  Both arguments
    are datetimes, hence true, so the branch returning 9999 is never taken.
    The quotient of a whole number of seconds by 60 is kept exact; the test
    against 10 gives the same answer on Python's floats, since 600 / 60 is
    exactly 10 and division by 60 is monotone. *)
Definition diff_mins (a b : datetime) : Q :=
  Qmake (Z.abs (total_seconds a b)) 60.

(** Truth value of [punches[0] if punches else None]. *)
Definition truthy (p : option datetime) : bool :=
  match p with
  | Some _ => true
  | None => false
  end.

(** The body of the loop after the punches are collected, lines 121-172.
    List indices are within bounds at every use, by the tests on [n]. *)
Definition classify (shift : string) (punches_day1 punches_day2 : list datetime) : string :=
  if contains "full" shift || contains "fn" shift then
    let p1_day1 := hd_error punches_day1 in
    let p1_day2 := hd_error punches_day2 in
    if truthy p1_day1 && truthy p1_day2 then "Match"
    else if truthy p1_day1 && negb (truthy p1_day2) then "Match"
    else if negb (truthy p1_day1) && truthy p1_day2 then "Single Out Punch"
    else "No Punch"
  else if contains "day" shift || contains "morning" shift then
    if List.length punches_day1 <? 2 then "No Punch"
    else
      let in_time := nth 0 punches_day1 midnight in
      let out_time := last punches_day1 midnight in
      if negb (dt_leb in_start in_time && dt_leb in_time in_end) then "No Punch"
      else if dt_ltb out_time out_start then "Early"
      else if dt_leb out_start out_time && dt_leb out_time out_end then "Match"
      else "No Punch"
  else
    let n := List.length punches_day1 in
    if n =? 0 then "No Punch"
    else if 4 <=? n then
      let t1 := nth 0 punches_day1 midnight in
      let t4 := nth 3 punches_day1 midnight in
      if Qle_bool (diff_mins t1 t4) (10 # 1) then "Single In Punch" else "Match"
    else if n =? 3 then
      let t1 := nth 0 punches_day1 midnight in
      let t3 := nth 2 punches_day1 midnight in
      if Qle_bool (diff_mins t1 t3) (10 # 1) then "Single In Punch" else "Match"
    else if n =? 2 then
      let t1 := nth 0 punches_day1 midnight in
      let t2 := nth 1 punches_day1 midnight in
      if Qle_bool (diff_mins t1 t2) (10 # 1) then "Single In Punch" else "Match"
    else if n =? 1 then "Single In Punch"
    else "Mismatch".

(** [emp in all_bio1_ids]. *)
Definition emp_in (emp : scalar) (ids : list scalar) : bool :=
  existsb (fun a => cell_eqb a emp) ids.

(** What the driver has in hand when the loop starts (line 112). *)
Record context : Type := mk_context {
  manual_df : DataFrame;
  bio1 : DataFrame;
  bio2 : DataFrame;
  m_emp : string;
  b_emp1 : string;
  b_emp2 : string;
  shift_col : string;
  all_bio1_ids : list scalar
}.

(** [str(row.get(shift_col, "")).strip().lower()]. *)
Definition shift_of (cx : context) (row : list scalar) : string :=
  let v :=
    match cell (columns (manual_df cx)) row (shift_col cx) with
    | Some x => x
    | None => SStr ""
    end in
  lower (strip (py_str v)).

(** Lines 115-172 for a key [emp] and a shift label [shift]. *)
Definition row_status (cx : context) (emp : scalar) (shift : string) : string :=
  if negb (emp_in emp (all_bio1_ids cx)) then "No Punch"
  else
    let punches_day1 := get_punch_times (bio1 cx) emp (b_emp1 cx) in
    let punches_day2 := get_punch_times (bio2 cx) emp (b_emp2 cx) in
    classify shift punches_day1 punches_day2.

(** The body of the loop for one row of the roster. *)
Definition status_of_row (cx : context) (row : list scalar) : exc string :=
  match cell (columns (manual_df cx)) row (m_emp cx) with
  | None => Raise KeyError
  | Some emp =>
      let shift := shift_of cx row in
      Ok (row_status cx emp shift)
  end.

(** The loop of lines 112-174: the list [statuses] it builds. *)
Fixpoint statuses_loop (cx : context) (rs : list (list scalar)) : exc (list string) :=
  match rs with
  | [] => Ok []
  | row :: rest =>
      status <- status_of_row cx row ;;
      statuses <- statuses_loop cx rest ;;
      Ok (status :: statuses)
  end.

(* ================================================================== *)
(** * The driver *)
(* ================================================================== *)

Section Driver.

(** [pd.to_datetime(col, errors="coerce")], which keeps the List.length of the
    column. *)
Variable to_datetime : list scalar -> list scalar.

Definition default (d : string) (o : option string) : string :=
  match o with
  | Some c => c
  | None => d
  end.

(** Lines 64-66: the column whose header contains "date", if any, goes
    through [pd.to_datetime]. *)
Definition coerce_dates (manual_df : DataFrame) : exc DataFrame :=
  match find_col "date" (columns manual_df) with
  | Some date_col =>
      vals <- get_column manual_df date_col ;;
      set_column manual_df date_col (to_datetime vals)
  | None => Ok manual_df
  end.

(** Lines 62-110 of [compare_files], from the three frames read. *)
Definition prepare (attendance bio1 bio2 : DataFrame) : exc context :=
  let manual_df := strip_columns attendance in
  manual_df <- coerce_dates manual_df ;;
  let bio1 := dedupe_columns_inplace bio1 in
  let bio2 := dedupe_columns_inplace bio2 in
  let bio1 := strip_columns bio1 in
  let bio2 := strip_columns bio2 in
  let m_emp := default "EMP ID" (find_col "emp id" (columns manual_df)) in
  b_emp1 <- find_emp_col (columns bio1) ;;
  b_emp2 <- find_emp_col (columns bio2) ;;
  manual_df <- normalize_ids manual_df m_emp ;;
  bio1 <- normalize_ids bio1 b_emp1 ;;
  bio2 <- normalize_ids bio2 b_emp2 ;;
  let bio1 := replace_blanks bio1 in
  let bio2 := replace_blanks bio2 in
  let shift_col := default "SHIFT" (find_col "shift" (columns manual_df)) in
  all_bio1_ids <- get_column bio1 b_emp1 ;;
  Ok (mk_context manual_df bio1 bio2 m_emp b_emp1 b_emp2 shift_col all_bio1_ids).

(** [compare_files], lines 49-190: the annotated frame it returns. *)
Definition compare_files (attendance bio1 bio2 : DataFrame) : exc DataFrame :=
  cx <- prepare attendance bio1 bio2 ;;
  statuses <- statuses_loop cx (rows (manual_df cx)) ;;
  set_column (manual_df cx) "Status" (map SStr statuses).

End Driver.


(* ================================================================== *)
(** * Vocabulary of the specification *)
(* ================================================================== *)

(** A field of one or two decimal digits whose value is at most [max]. *)
Definition number (max : nat) (s : string) : option nat :=
  match s with
  | String a EmptyString => digit_val a
  | String a (String b EmptyString) =>
      match digit_val a, digit_val b with
      | Some x, Some y => if 10 * x + y <=? max then Some (10 * x + y) else None
      | _, _ => None
      end
  | _ => None
  end.

(** [s] reads as hour:minute:second, giving [d]. *)
Definition reads_hms (s : string) (d : datetime) : Prop :=
  exists hs ms ss : string,
    s = (hs ++ ":" ++ ms ++ ":" ++ ss)%string
    /\ number 23 hs = Some (hour d)
    /\ number 59 ms = Some (minute d)
    /\ number 59 ss = Some (second d).

(** [s] reads as hour:minute, giving [d] with second 0. *)
Definition reads_hm (s : string) (d : datetime) : Prop :=
  exists hs ms : string,
    s = (hs ++ ":" ++ ms)%string
    /\ number 23 hs = Some (hour d)
    /\ number 59 ms = Some (minute d)
    /\ second d = 0.

(** The text left of a cell once everything but digits and colons is
    stripped. *)
Definition digits_and_colons (v : scalar) : string :=
  keep_chars is_digit_or_colon (py_str v).

(** Case-insensitive substring match of a lowercase phrase in a header. *)
Definition header_matches (phrase header : string) : bool :=
  contains phrase (lower header).

(** The phrase neither starts nor ends with white space. *)
Definition starts_solid (p : string) : bool :=
  match p with
  | EmptyString => false
  | String a _ => negb (is_space a)
  end.

Fixpoint ends_solid (p : string) : bool :=
  match p with
  | EmptyString => false
  | String a EmptyString => negb (is_space a)
  | String _ t => ends_solid t
  end.

(** The frames of a context are rectangular with distinct headers. *)
Definition wf_table (df : DataFrame) : bool :=
  rectangular df && nodupb (columns df).

Definition wf_context (cx : context) : bool :=
  wf_table (manual_df cx) && wf_table (bio1 cx) && wf_table (bio2 cx).

(** The same context with another Source 2. *)
Definition with_source2 (cx : context) (b2 : DataFrame) (e2 : string) : context :=
  mk_context (manual_df cx) (bio1 cx) b2 (m_emp cx) (b_emp1 cx) e2
    (shift_col cx) (all_bio1_ids cx).

(** The Source-1 and Source-2 punches collected for a key. *)
Definition source1_punches (cx : context) (emp : scalar) : list datetime :=
  get_punch_times (bio1 cx) emp (b_emp1 cx).

Definition source2_punches (cx : context) (emp : scalar) : list datetime :=
  get_punch_times (bio2 cx) emp (b_emp2 cx).

Definition earliest (t : datetime) (l : list datetime) : Prop :=
  In t l /\ forall u, In u l -> dt_leb t u = true.

Definition latest (t : datetime) (l : list datetime) : Prop :=
  In t l /\ forall u, In u l -> dt_leb u t = true.

(** [t] lies in the inclusive window from [lo] to [hi]. *)
Definition within (lo hi t : datetime) : bool := dt_leb lo t && dt_leb t hi.

(** The ten-minute rule on two punches. *)
Definition ten_minute_rule (a b : datetime) : string :=
  if (Z.abs (seconds_of a - seconds_of b) <=? 10 * 60)%Z
  then "Single In Punch" else "Match".

(** Category C by the number of Source-1 punches. *)
Definition other_rule (p : list datetime) : string :=
  match p with
  | [] => "No Punch"
  | [_] => "Single In Punch"
  | [a; b] => ten_minute_rule a b
  | [a; _; c] => ten_minute_rule a c
  | a :: _ :: _ :: d :: _ => ten_minute_rule a d
  end.

Definition ascending (l : list datetime) : Prop :=
  StronglySorted (fun a b => dt_leb a b = true) l.


(** A biometric frame after lines 71-74. *)
Definition clean_source (df : DataFrame) : DataFrame :=
  strip_columns (dedupe_columns_inplace df).

(** A row with the status [st] assigned under the header "Status": in place
    when the header exists, as a new last field otherwise. *)
Definition assign_status (cols : list string) (row : list scalar) (st : string) : list scalar :=
  match col_index "Status" cols with
  | Some k => set_nth k (SStr st) row
  | None => row ++ [SStr st]
  end.

Definition with_status_header (cols : list string) : list string :=
  match col_index "Status" cols with
  | Some _ => cols
  | None => cols ++ ["Status"]
  end.


(* ================================================================== *)
(** * A worked example *)
(* ================================================================== *)

(** Dates already read as timestamps are left as they are. *)
Definition to_datetime_id (col : list scalar) : list scalar := col.

Definition roster_ex : DataFrame :=
  mk_df [" EMP ID "; "Shift"; "Date"]
    [ [SStr "a-1"; SStr "Day Shift"; SOther "2024-01-05 00:00:00"];
      [SInt 2; SStr "Full Night"; SOther "2024-01-05 00:00:00"];
      [SStr "3.0"; SStr "HF"; SNaT];
      [SStr "9"; SStr "Day Shift"; SNaT] ].

Definition source1_ex : DataFrame :=
  mk_df ["Emp Code"; "Name"; "Punch 1"; "Punch 2"]
    [ [SStr "A1"; SStr "Asha"; SStr "15:18:00 - O"; SStr "07:00:00 - I"];
      [SInt 2; SStr "Bala"; SStr "22:00"; SStr "-"];
      [SStr "3"; SStr "Chitra"; SStr "09:00"; SStr "09:05"] ].

Definition source2_ex : DataFrame :=
  mk_df ["Emp Code"; "Punch 1"]
    [ [SStr "A1"; SStr "06:00"];
      [SStr "9"; SStr "06:10"] ].

Definition source2_alt_ex : DataFrame :=
  mk_df ["Pay Code"; "Punch 1"; "Punch 2"]
    [ [SStr "9"; SStr "07:00"; SStr "15:16"] ].

Definition empty_context : context :=
  mk_context (mk_df [] []) (mk_df [] []) (mk_df [] []) "" "" "" "" [].

Definition context_ex : context :=
  Eval vm_compute in
    match prepare to_datetime_id roster_ex source1_ex source2_ex with
    | Ok cx => cx
    | Raise _ => empty_context
    end.

Definition output_ex : DataFrame :=
  Eval vm_compute in
    match compare_files to_datetime_id roster_ex source1_ex source2_ex with
    | Ok out => out
    | Raise _ => mk_df [] []
    end.

Definition row_day_ex : list scalar :=
  [SStr "A1"; SStr "Day Shift"; SOther "2024-01-05 00:00:00"].

Definition row_night_ex : list scalar :=
  [SStr "2"; SStr "Full Night"; SOther "2024-01-05 00:00:00"].

Definition row_half_ex : list scalar := [SStr "3"; SStr "HF"; SNaT].

Definition row_absent_ex : list scalar := [SStr "9"; SStr "Day Shift"; SNaT].


(** Characters of the decimal text of an integer: digits and the sign. *)
Definition is_digit_or_minus (c : ascii) : bool := is_digit c || (c =? "-")%char.

(** The row [r] of [df] carries the key [emp] in the column [id_col]. *)
Definition has_key (df : DataFrame) (id_col : string) (emp : scalar) (r : list scalar) : bool :=
  match cell (columns df) r id_col with
  | Some a => cell_eqb a emp
  | None => false
  end.

(** The headers of the punch columns. *)
Definition punch_headers (df : DataFrame) : list string :=
  filter (fun h => contains "PUNCH" (upper h)) (columns df).

(** A roster and a Source 1 that both hold a dash for an identifier. *)
Definition roster_dash : DataFrame :=
  mk_df ["EMP ID"; "SHIFT"] [ [SStr "-"; SStr "HF"] ].

Definition source1_dash : DataFrame :=
  mk_df ["Emp Code"; "Punch 1"; "Punch 2"] [ [SStr "-"; SStr "09:00"; SStr "17:00"] ].

Definition context_dash : context :=
  Eval vm_compute in
    match prepare to_datetime_id roster_dash source1_dash source2_ex with
    | Ok cx => cx
    | Raise _ => empty_context
    end.

(** A roster that names its shift column "Roster". *)
Definition roster_noshift : DataFrame :=
  mk_df ["EMP ID"; "Roster"] [ [SStr "A1"; SStr "Day"] ].

Definition context_noshift : context :=
  Eval vm_compute in
    match prepare to_datetime_id roster_noshift source1_ex source2_ex with
    | Ok cx => cx
    | Raise _ => empty_context
    end.

(** A Source 1 in which employee 2 has no readable punch, and a Source 2 in
    which that employee has one. *)
Definition source1_nopunch : DataFrame :=
  mk_df ["Emp Code"; "Punch 1"] [ [SInt 2; SStr "-"] ].

Definition source2_punch : DataFrame :=
  mk_df ["Emp Code"; "Punch 1"] [ [SInt 2; SStr "06:00"] ].

Definition context_out : context :=
  Eval vm_compute in
    match prepare to_datetime_id roster_ex source1_nopunch source2_punch with
    | Ok cx => cx
    | Raise _ => empty_context
    end.

(** The same context with another roster frame. *)
Definition with_roster (cx : context) (m : DataFrame) : context :=
  mk_context m (bio1 cx) (bio2 cx) (m_emp cx) (b_emp1 cx) (b_emp2 cx)
    (shift_col cx) (all_bio1_ids cx).

(** A roster row and a Source-1 row that both lack an identifier. *)
Definition roster_noid : DataFrame :=
  mk_df ["EMP ID"; "SHIFT"] [ [SNaN; SStr "HF"] ].

Definition source1_noid : DataFrame :=
  mk_df ["Emp Code"; "Punch 1"; "Punch 2"] [ [SNaN; SStr "09:00"; SStr "17:00"] ].

Definition context_noid : context :=
  Eval vm_compute in
    match prepare to_datetime_id roster_noid source1_noid source2_ex with
    | Ok cx => cx
    | Raise _ => empty_context
    end.


(** An ASCII character. *)
Definition is_ascii (c : ascii) : bool := code c <? 128.

(** The times read in the cells of the row [r] under the punch headers, from
    left to right. *)
Definition read_punches (df : DataFrame) (r : list scalar) : list datetime :=
  flat_map (fun h =>
    match cell (columns df) r h with
    | Some x =>
        match to_time x with
        | Some t => [t]
        | None => []
        end
    | None => []
    end) (punch_headers df).
(* ================================================================== *)
(** * Properties of the text helpers *)
(* ================================================================== *)

Ltac by_cases_on_char c :=
  destruct c as [[] [] [] [] [] [] [] []]; vm_compute; intros;
  try reflexivity; try discriminate; try congruence.

Lemma AZ09_not_space (c : ascii) : is_AZ09 c = true -> is_space c = false.
Proof. by_cases_on_char c. Qed.

Lemma AZ09_upper_char (c : ascii) : is_AZ09 c = true -> upper_char c = c.
Proof. by_cases_on_char c. Qed.

Lemma AZ09_not_dot (c : ascii) : is_AZ09 c = true -> (c =? ".")%char = false.
Proof. by_cases_on_char c. Qed.

Lemma keep_chars_all (p : ascii -> bool) (s : string) :
  all_chars p (keep_chars p s) = true.
Proof.
  induction s as [|c t IH]; simpl; [reflexivity|].
  destruct (p c) eqn:E; simpl; [rewrite E|]; exact IH.
Qed.

Lemma keep_chars_id (p : ascii -> bool) (s : string) :
  all_chars p s = true -> keep_chars p s = s.
Proof.
  induction s as [|c t IH]; simpl; [reflexivity|].
  intros H. apply andb_prop in H as [Hc Ht]. rewrite Hc, (IH Ht). reflexivity.
Qed.

Lemma lstrip_blank (s : string) : all_chars is_space s = true -> lstrip s = "".
Proof.
  induction s as [|c t IH]; simpl; [reflexivity|].
  intros H. apply andb_prop in H as [Hc Ht]. rewrite Hc. exact (IH Ht).
Qed.

Section NoSpaceText.

Variable p : ascii -> bool.
Hypothesis p_not_space : forall c, p c = true -> is_space c = false.

Lemma lstrip_no_space (s : string) : all_chars p s = true -> lstrip s = s.
Proof.
  destruct s as [|c t]; simpl; [reflexivity|].
  intros H. apply andb_prop in H as [Hc _]. rewrite (p_not_space _ Hc). reflexivity.
Qed.

Lemma rstrip_no_space (s : string) : all_chars p s = true -> rstrip s = s.
Proof.
  induction s as [|c t IH]; simpl; [reflexivity|].
  intros H. apply andb_prop in H as [Hc Ht].
  rewrite (IH Ht), (p_not_space _ Hc). destruct t; reflexivity.
Qed.

Lemma strip_no_space (s : string) : all_chars p s = true -> strip s = s.
Proof.
  intros H. unfold strip. rewrite (lstrip_no_space s H). apply rstrip_no_space, H.
Qed.

End NoSpaceText.

Lemma alnum_upper (s : string) : all_chars is_AZ09 s = true -> upper s = s.
Proof.
  unfold upper. induction s as [|c t IH]; simpl; [reflexivity|].
  intros H. apply andb_prop in H as [Hc Ht].
  rewrite (IH Ht), (AZ09_upper_char _ Hc). reflexivity.
Qed.

Lemma alnum_sub_dot0 (s : string) : all_chars is_AZ09 s = true -> sub_dot0 s = s.
Proof.
  induction s as [|c t IH]; [reflexivity|].
  intros H. simpl in H. apply andb_prop in H as [Hc Ht].
  cbn [sub_dot0]. cbn [String.eqb]. rewrite (AZ09_not_dot _ Hc).
  rewrite (IH Ht). reflexivity.
Qed.

(* ================================================================== *)
(** * The identifier normalizer *)
(* ================================================================== *)

Lemma clean_id_alnum (x : scalar) : all_chars is_AZ09 (clean_id x) = true.
Proof. unfold clean_id. apply keep_chars_all. Qed.

Lemma clean_id_fixes_alnum (s : string) :
  all_chars is_AZ09 s = true -> clean_id (SStr s) = s.
Proof.
  intros H. unfold clean_id. simpl py_str.
  rewrite (strip_no_space is_AZ09 AZ09_not_space s H), (alnum_upper s H),
    (alnum_sub_dot0 s H).
  apply keep_chars_id, H.
Qed.

(** C6. [clean_id] is idempotent, and it sends both ["A-123.0"] and ["a123"]
    to ["A123"]. *)
Theorem clean_id_idempotent :
  (forall x : scalar, clean_id (SStr (clean_id x)) = clean_id x)
  /\ clean_id (SStr "A-123.0") = "A123"
  /\ clean_id (SStr "a123") = "A123".
Proof.
  split; [|split; reflexivity].
  intros x. apply clean_id_fixes_alnum, clean_id_alnum.
Qed.

(** C7, as stated, fails: [None] is a missing input, and [clean_id] turns
    it into the text ["NONE"], not into the empty text. *)
Lemma clean_id_missing_not_empty :
  isna SNone = true /\ clean_id SNone = "NONE" /\ clean_id SNone <> "".
Proof. repeat split; discriminate. Qed.

(** C7, amended. [clean_id] is defined on every scalar and its result is
    made of the characters A-Z and 0-9 only; on the empty text, and on any
    text of white space, it returns the empty text; a missing input is
    normalized through its string form: [None] gives ["NONE"], [NaN] gives
    ["NAN"] and [NaT] gives ["NAT"]. *)
Theorem clean_id_total :
  (forall x : scalar, all_chars is_AZ09 (clean_id x) = true)
  /\ clean_id (SStr "") = ""
  /\ (forall s : string, all_chars is_space s = true -> clean_id (SStr s) = "")
  /\ clean_id SNone = "NONE"
  /\ clean_id SNaN = "NAN"
  /\ clean_id SNaT = "NAT".
Proof.
  split; [exact clean_id_alnum|].
  split; [reflexivity|].
  split; [|repeat split].
  intros s H. unfold clean_id, strip. simpl py_str.
  rewrite (lstrip_blank s H). reflexivity.
Qed.

(* ================================================================== *)
(** * The punch-time parser *)
(* ================================================================== *)

Lemma digit_val_bound (c : ascii) (x : nat) : digit_val c = Some x -> x <= 9.
Proof.
  destruct c as [[] [] [] [] [] [] [] []]; vm_compute; intros H;
    try discriminate; injection H as <-; repeat constructor.
Qed.

Lemma digit_val_not_colon (c : ascii) (x : nat) :
  digit_val c = Some x -> (c =? ":")%char = false.
Proof.
  destruct c as [[] [] [] [] [] [] [] []]; vm_compute; intros H;
    try discriminate; reflexivity.
Qed.

Lemma digit_or_colon_not_space (c : ascii) :
  is_digit_or_colon c = true -> is_space c = false.
Proof. by_cases_on_char c. Qed.

Lemma not_digit_or_colon_of_space (c : ascii) :
  is_space c = true -> is_digit_or_colon c = false.
Proof. by_cases_on_char c. Qed.

Lemma digit_val_colon : digit_val ":" = None.
Proof. reflexivity. Qed.

(** *** What a directive can read *)

Lemma alt2_in (p : nat -> nat -> bool) (s r : string) (v : nat) :
  In (v, r) (alt2 p s) ->
  exists a b x y, s = String a (String b r) /\ digit_val a = Some x
    /\ digit_val b = Some y /\ p x y = true /\ v = 10 * x + y.
Proof.
  unfold alt2. destruct s as [|a [|b t]]; try (intros []).
  destruct (digit_val a) as [x|] eqn:Ha; [|intros []].
  destruct (digit_val b) as [y|] eqn:Hb; [|intros []].
  destruct (p x y) eqn:Hp; [|intros []].
  intros [H|[]]. injection H as <- <-. exists a, b, x, y. auto.
Qed.

Lemma alt1_in (s r : string) (v : nat) :
  In (v, r) (alt1 s) -> exists a, s = String a r /\ digit_val a = Some v.
Proof.
  unfold alt1. destruct s as [|a t]; [intros []|].
  destruct (digit_val a) as [x|] eqn:Ha; [|intros []].
  intros [H|[]]. injection H as <- <-. exists a. auto.
Qed.

Lemma number_two (max : nat) (a b : ascii) (x y : nat) :
  digit_val a = Some x -> digit_val b = Some y -> 10 * x + y <= max ->
  number max (String a (String b "")) = Some (10 * x + y).
Proof.
  intros Ha Hb Hle. unfold number. rewrite Ha, Hb.
  apply Nat.leb_le in Hle. rewrite Hle. reflexivity.
Qed.

Lemma re_H_in (s r : string) (v : nat) :
  In (v, r) (re_H s) -> exists f, s = (f ++ r)%string /\ number 23 f = Some v.
Proof.
  unfold re_H. rewrite !in_app_iff. intros [H|[H|H]].
  - apply alt2_in in H as (a & b & x & y & -> & Ha & Hb & Hp & ->).
    apply andb_prop in Hp as [Hx Hy].
    apply Nat.eqb_eq in Hx. apply Nat.leb_le in Hy.
    exists (String a (String b "")). split; [reflexivity|].
    apply number_two; auto; lia.
  - apply alt2_in in H as (a & b & x & y & -> & Ha & Hb & Hp & ->).
    apply Nat.leb_le in Hp. pose proof (digit_val_bound _ _ Hb).
    exists (String a (String b "")). split; [reflexivity|].
    apply number_two; auto; lia.
  - apply alt1_in in H as (a & -> & Ha).
    exists (String a ""). split; [reflexivity|exact Ha].
Qed.

Lemma re_M_in (s r : string) (v : nat) :
  In (v, r) (re_M s) -> exists f, s = (f ++ r)%string /\ number 59 f = Some v.
Proof.
  unfold re_M. rewrite !in_app_iff. intros [H|H].
  - apply alt2_in in H as (a & b & x & y & -> & Ha & Hb & Hp & ->).
    apply Nat.leb_le in Hp. pose proof (digit_val_bound _ _ Hb).
    exists (String a (String b "")). split; [reflexivity|].
    apply number_two; auto; lia.
  - apply alt1_in in H as (a & -> & Ha).
    exists (String a ""). split; [reflexivity|exact Ha].
Qed.

Lemma re_S_in (s r : string) (v : nat) :
  In (v, r) (re_S s) -> v <= 59 ->
  exists f, s = (f ++ r)%string /\ number 59 f = Some v.
Proof.
  unfold re_S. rewrite !in_app_iff. intros [H|[H|H]] Hv.
  - apply alt2_in in H as (a & b & x & y & -> & Ha & Hb & Hp & ->).
    apply andb_prop in Hp as [Hx Hy]. apply Nat.eqb_eq in Hx. lia.
  - apply alt2_in in H as (a & b & x & y & -> & Ha & Hb & Hp & ->).
    exists (String a (String b "")). split; [reflexivity|].
    apply number_two; auto.
  - apply alt1_in in H as (a & -> & Ha).
    exists (String a ""). split; [reflexivity|exact Ha].
Qed.

Lemma re_colon_in (s r : string) : In r (re_colon s) -> s = String ":" r.
Proof.
  unfold re_colon. destruct s as [|c t]; [intros []|].
  destruct (Ascii.eqb_spec c ":") as [->|]; [|intros []].
  intros [->|[]]. reflexivity.
Qed.

Lemma number_inv (max : nat) (f : string) (v : nat) :
  number max f = Some v ->
  (exists a, f = String a "" /\ digit_val a = Some v)
  \/ (exists a b x y, f = String a (String b "") /\ digit_val a = Some x
        /\ digit_val b = Some y /\ v = 10 * x + y /\ v <= max).
Proof.
  unfold number. destruct f as [|a [|b [|c t]]]; try discriminate.
  - intros H. left. exists a. auto.
  - destruct (digit_val a) as [x|] eqn:Ha; [|discriminate].
    destruct (digit_val b) as [y|] eqn:Hb; [|discriminate].
    destruct (10 * x + y <=? max) eqn:Hle; [|discriminate].
    intros H. injection H as <-. apply Nat.leb_le in Hle.
    right. exists a, b, x, y. auto.
Qed.

Lemma number_le (max : nat) (f : string) (v : nat) :
  9 <= max -> number max f = Some v -> v <= max.
Proof.
  intros Hm H. apply number_inv in H as [(a & _ & Ha)|(a & b & x & y & _ & _ & _ & _ & Hle)].
  - apply digit_val_bound in Ha. lia.
  - exact Hle.
Qed.

(** *** Every match of the compiled format splits the text into fields *)

Lemma re_match_HMS_in (s rest : string) (h m sec : nat) :
  In (h, m, sec, rest) (re_match HMS s) -> sec <= 59 ->
  exists hs ms ss,
    s = (hs ++ ":" ++ ms ++ ":" ++ ss ++ rest)%string
    /\ number 23 hs = Some h /\ number 59 ms = Some m /\ number 59 ss = Some sec.
Proof.
  unfold re_match. intros H Hsec.
  apply in_flat_map in H as ([h' r1] & H1 & H).
  apply in_flat_map in H as (r2 & H2 & H).
  apply in_flat_map in H as ([m' r3] & H3 & H).
  apply in_flat_map in H as (r4 & H4 & H).
  apply in_map_iff in H as ([s' r5] & E & H5).
  cbn [fst snd] in *. injection E as E1 E2 E3 E4. subst h' m' s' r5.
  apply re_H_in in H1 as (hs & -> & Hh).
  apply re_colon_in in H2 as ->.
  apply re_M_in in H3 as (ms & -> & Hm).
  apply re_colon_in in H4 as ->.
  apply (re_S_in _ _ _ H5) in Hsec as (ss & -> & Hs).
  exists hs, ms, ss. auto.
Qed.

Lemma re_match_HM_in (s rest : string) (h m sec : nat) :
  In (h, m, sec, rest) (re_match HM s) ->
  sec = 0 /\ exists hs ms,
    s = (hs ++ ":" ++ ms ++ rest)%string
    /\ number 23 hs = Some h /\ number 59 ms = Some m.
Proof.
  unfold re_match. intros H.
  apply in_flat_map in H as ([h' r1] & H1 & H).
  apply in_flat_map in H as (r2 & H2 & H).
  apply in_flat_map in H as ([m' r3] & H3 & H).
  cbn [fst snd] in *. destruct H as [E|[]].
  injection E as E1 E2 E3 E4. subst h' m' sec r3.
  apply re_H_in in H1 as (hs & -> & Hh).
  apply re_colon_in in H2 as ->.
  apply re_M_in in H3 as (ms & -> & Hm).
  split; [reflexivity|]. exists hs, ms. auto.
Qed.

(** *** A well-formed field is read whole *)

Lemma re_colon_digit (b : ascii) (y : nat) (t : string) :
  digit_val b = Some y -> re_colon (String b t) = [].
Proof.
  intros Hb. unfold re_colon. rewrite (digit_val_not_colon _ _ Hb). reflexivity.
Qed.

Lemma re_H_then_colon {A : Type} (hs rest : string) (h : nat)
    (k : nat -> string -> list A) :
  number 23 hs = Some h ->
  flat_map (fun hr1 => flat_map (k (fst hr1)) (re_colon (snd hr1)))
    (re_H (hs ++ String ":" rest)) = k h rest.
Proof.
  intros H.
  apply number_inv in H as [(a & -> & Ha)|(a & b & x & y & -> & Ha & Hb & -> & Hle)].
  - unfold re_H, alt2, alt1. cbn [append]. rewrite Ha, digit_val_colon.
    cbn. rewrite !app_nil_r. reflexivity.
  - pose proof (digit_val_bound _ _ Ha). pose proof (digit_val_bound _ _ Hb).
    unfold re_H, alt2, alt1. cbn [append]. rewrite Ha, Hb.
    rewrite !flat_map_app.
    assert (Hlast : flat_map (fun hr1 => flat_map (k (fst hr1)) (re_colon (snd hr1)))
                      [(x, String b (String ":" rest))] = []).
    { cbn [flat_map fst snd]. rewrite (re_colon_digit _ _ _ Hb). reflexivity. }
    rewrite Hlast, app_nil_r.
    destruct (x =? 2) eqn:E2; destruct (y <=? 3) eqn:E3;
      destruct (x <=? 1) eqn:E1; cbn;
      rewrite ?app_nil_r; try reflexivity;
      apply Nat.eqb_eq in E2 || apply Nat.eqb_neq in E2;
      apply Nat.leb_le in E3 || apply Nat.leb_gt in E3;
      apply Nat.leb_le in E1 || apply Nat.leb_gt in E1; lia.
Qed.

Lemma re_M_then_colon {A : Type} (ms rest : string) (m : nat)
    (k : nat -> string -> list A) :
  number 59 ms = Some m ->
  flat_map (fun mr3 => flat_map (k (fst mr3)) (re_colon (snd mr3)))
    (re_M (ms ++ String ":" rest)) = k m rest.
Proof.
  intros H.
  apply number_inv in H as [(a & -> & Ha)|(a & b & x & y & -> & Ha & Hb & -> & Hle)].
  - unfold re_M, alt2, alt1. cbn [append]. rewrite Ha, digit_val_colon.
    cbn. rewrite !app_nil_r. reflexivity.
  - pose proof (digit_val_bound _ _ Hb).
    unfold re_M, alt2, alt1. cbn [append]. rewrite Ha, Hb.
    rewrite !flat_map_app.
    assert (Hlast : flat_map (fun mr3 => flat_map (k (fst mr3)) (re_colon (snd mr3)))
                      [(x, String b (String ":" rest))] = []).
    { cbn [flat_map fst snd]. rewrite (re_colon_digit _ _ _ Hb). reflexivity. }
    rewrite Hlast, app_nil_r.
    destruct (x <=? 5) eqn:E1; cbn; rewrite ?app_nil_r; try reflexivity.
    apply Nat.leb_gt in E1. lia.
Qed.

Lemma re_M_at_end (ms : string) (m : nat) :
  number 59 ms = Some m -> exists l, re_M ms = (m, "") :: l.
Proof.
  intros H.
  apply number_inv in H as [(a & -> & Ha)|(a & b & x & y & -> & Ha & Hb & -> & Hle)].
  - unfold re_M, alt2, alt1. rewrite Ha. eexists. reflexivity.
  - pose proof (digit_val_bound _ _ Hb).
    unfold re_M, alt2, alt1. rewrite Ha, Hb.
    destruct (x <=? 5) eqn:E1; [eexists; reflexivity|].
    apply Nat.leb_gt in E1. lia.
Qed.

Lemma re_S_at_end (ss : string) (sec : nat) :
  number 59 ss = Some sec -> exists l, re_S ss = (sec, "") :: l.
Proof.
  intros H.
  apply number_inv in H as [(a & -> & Ha)|(a & b & x & y & -> & Ha & Hb & -> & Hle)].
  - unfold re_S, alt2, alt1. rewrite Ha. eexists. reflexivity.
  - pose proof (digit_val_bound _ _ Hb).
    unfold re_S, alt2, alt1. rewrite Ha, Hb.
    destruct (x =? 6) eqn:E6.
    + apply Nat.eqb_eq in E6. lia.
    + destruct (x <=? 5) eqn:E1; [eexists; reflexivity|].
      apply Nat.leb_gt in E1. lia.
Qed.

(** *** [strptime] against the two formats *)

Lemma strptime_HMS_complete (s : string) (d : datetime) :
  reads_hms s d -> strptime s HMS = Ok d.
Proof.
  intros (hs & ms & ss & -> & Hh & Hm & Hs).
  unfold strptime, re_match.
  change (hs ++ ":" ++ ms ++ ":" ++ ss)%string
    with (hs ++ String ":" (ms ++ String ":" ss))%string.
  rewrite (re_H_then_colon hs _ _
    (fun h r2 => flat_map (fun mr3 =>
       flat_map (fun r4 => map (fun sr5 => (h, fst mr3, fst sr5, snd sr5)) (re_S r4))
         (re_colon (snd mr3))) (re_M r2)) Hh).
  rewrite (re_M_then_colon ms _ _
    (fun m r4 => map (fun sr5 => (hour d, m, fst sr5, snd sr5)) (re_S r4)) Hm).
  destruct (re_S_at_end _ _ Hs) as [l ->]. cbn [map fst snd].
  pose proof (number_le 59 _ _ ltac:(lia) Hs) as Hle.
  apply Nat.ltb_ge in Hle. cbn [String.eqb negb]. rewrite Hle.
  destruct d; reflexivity.
Qed.

Lemma strptime_HMS_sound (s : string) (d : datetime) :
  strptime s HMS = Ok d -> reads_hms s d.
Proof.
  unfold strptime. destruct (re_match HMS s) as [|[[[h m] sec] rest] l] eqn:E;
    [discriminate|].
  destruct (String.eqb_spec rest "") as [->|]; [|discriminate]. cbn [negb].
  destruct (59 <? sec) eqn:Hsec; [discriminate|]. apply Nat.ltb_ge in Hsec.
  intros H. injection H as <-.
  assert (Hin : In (h, m, sec, "") (re_match HMS s)) by (rewrite E; left; reflexivity).
  apply re_match_HMS_in in Hin as (hs & ms & ss & -> & Hh & Hm & Hs); [|exact Hsec].
  exists hs, ms, ss. cbn [hour minute second].
  repeat split; auto. f_equal. f_equal. f_equal. f_equal.
  clear. induction ss; cbn; [reflexivity | f_equal; assumption].
Qed.

Lemma strptime_HM_complete (s : string) (d : datetime) :
  reads_hm s d -> strptime s HM = Ok d.
Proof.
  intros (hs & ms & -> & Hh & Hm & Hs).
  unfold strptime, re_match.
  change (hs ++ ":" ++ ms)%string with (hs ++ String ":" ms)%string.
  rewrite (re_H_then_colon hs _ _
    (fun h r2 => flat_map (fun mr3 => [(h, fst mr3, 0, snd mr3)]) (re_M r2)) Hh).
  destruct (re_M_at_end _ _ Hm) as [l ->]. cbn.
  destruct d; cbn in *; subst; reflexivity.
Qed.

Lemma strptime_HM_sound (s : string) (d : datetime) :
  strptime s HM = Ok d -> reads_hm s d.
Proof.
  unfold strptime. destruct (re_match HM s) as [|[[[h m] sec] rest] l] eqn:E;
    [discriminate|].
  destruct (String.eqb_spec rest "") as [->|]; [|discriminate]. cbn [negb].
  destruct (59 <? sec) eqn:Hsec; [discriminate|].
  intros H. injection H as <-.
  assert (Hin : In (h, m, sec, "") (re_match HM s)) by (rewrite E; left; reflexivity).
  apply re_match_HM_in in Hin as (-> & hs & ms & -> & Hh & Hm).
  exists hs, ms. cbn [hour minute second].
  repeat split; auto. f_equal. f_equal.
  clear. induction ms; cbn; [reflexivity | f_equal; assumption].
Qed.

Lemma to_time_not_missing (v : scalar) :
  isna v = false ->
  to_time v = to_time_loop (digits_and_colons v) [HMS; HM].
Proof.
  intros H. unfold to_time, digits_and_colons. rewrite H. cbv zeta.
  rewrite (strip_no_space is_digit_or_colon digit_or_colon_not_space);
    [reflexivity | apply keep_chars_all].
Qed.

Lemma digits_and_colons_blank (s : string) :
  all_chars is_space s = true -> digits_and_colons (SStr s) = "".
Proof.
  unfold digits_and_colons. simpl py_str.
  induction s as [|c t IH]; simpl; [reflexivity|].
  intros H. apply andb_prop in H as [Hc Ht].
  rewrite (not_digit_or_colon_of_space _ Hc). exact (IH Ht).
Qed.

(** C8. [to_time] works on the text left of the stringified value once every
    character other than a digit or a colon is removed; it returns the
    reading of that text as hour:minute:second when there is one, otherwise
    its reading as hour:minute, and nothing in every other case (missing,
    blank or unparseable input).  Every exception raised by [strptime] is
    caught inside [to_time_loop], so [to_time] itself never raises: it is a
    total function into [option datetime].  The four examples of the
    specification hold. *)
Theorem to_time_spec :
  (forall v d, to_time v = Some d <->
     isna v = false
     /\ (reads_hms (digits_and_colons v) d
         \/ ((forall d', ~ reads_hms (digits_and_colons v) d')
             /\ reads_hm (digits_and_colons v) d)))
  /\ (forall v, isna v = true -> to_time v = None)
  /\ (forall s, all_chars is_space s = true -> to_time (SStr s) = None)
  /\ (forall v,
        (forall d, ~ reads_hms (digits_and_colons v) d) ->
        (forall d, ~ reads_hm (digits_and_colons v) d) ->
        to_time v = None)
  /\ to_time (SStr "23:04:00 - O") = Some (mk_dt 23 4 0)
  /\ to_time (SStr "07:16") = Some (mk_dt 7 16 0)
  /\ to_time (SStr "") = None
  /\ to_time (SStr "garbage") = None.
Proof.
  assert (Hiff : forall v d, to_time v = Some d <->
     isna v = false
     /\ (reads_hms (digits_and_colons v) d
         \/ ((forall d', ~ reads_hms (digits_and_colons v) d')
             /\ reads_hm (digits_and_colons v) d))).
  { intros v d. destruct (isna v) eqn:Hna.
    - unfold to_time. rewrite Hna. split; [discriminate|intros [? _]; discriminate].
    - rewrite (to_time_not_missing v Hna). cbn [to_time_loop].
      set (s := digits_and_colons v).
      destruct (strptime s HMS) as [d1|e1] eqn:E1.
      + apply strptime_HMS_sound in E1 as R1. split.
        * intros H. injection H as <-. auto.
        * intros [_ [R|[N _]]].
          -- apply strptime_HMS_complete in R. congruence.
          -- destruct (N d1 R1).
      + assert (N : forall d', ~ reads_hms s d').
        { intros d' R. apply strptime_HMS_complete in R. congruence. }
        destruct (strptime s HM) as [d2|e2] eqn:E2.
        * apply strptime_HM_sound in E2 as R2. split.
          -- intros H. injection H as <-. auto.
          -- intros [_ [R|[_ R]]]; [destruct (N d R)|].
             apply strptime_HM_complete in R. congruence.
        * split; [discriminate|].
          intros [_ [R|[_ R]]]; [destruct (N d R)|].
          apply strptime_HM_complete in R. congruence. }
  split; [exact Hiff|].
  split; [intros v H; unfold to_time; rewrite H; reflexivity|].
  split.
  { intros s H. destruct (to_time (SStr s)) as [d|] eqn:E; [|reflexivity].
    apply Hiff in E as [_ E]. rewrite (digits_and_colons_blank s H) in E.
    destruct E as [(hs & ms & ss & E & _)|[_ (hs & ms & E & _)]];
      destruct hs; discriminate. }
  split.
  { intros v N1 N2. destruct (to_time v) as [d|] eqn:E; [|reflexivity].
    apply Hiff in E as [_ [R|[_ R]]]; [destruct (N1 d R)|destruct (N2 d R)]. }
  repeat split.
Qed.

(* ================================================================== *)
(** * The column resolver *)
(* ================================================================== *)

(** *** Trimming a header does not change which phrases it contains *)

Lemma lower_char_space (c : ascii) : is_space (lower_char c) = is_space c.
Proof. by_cases_on_char c. Qed.

Lemma lower_lstrip (s : string) : lower (lstrip s) = lstrip (lower s).
Proof.
  unfold lower. induction s as [|c t IH]; simpl; [reflexivity|].
  rewrite lower_char_space. destruct (is_space c); [exact IH|reflexivity].
Qed.

Lemma lower_rstrip (s : string) : lower (rstrip s) = rstrip (lower s).
Proof.
  unfold lower. induction s as [|c t IH]; simpl; [reflexivity|].
  rewrite <- IH, lower_char_space.
  destruct (rstrip t); simpl; [destruct (is_space c)|]; reflexivity.
Qed.

Lemma lower_strip (s : string) : lower (strip s) = strip (lower s).
Proof. unfold strip. rewrite lower_rstrip, lower_lstrip. reflexivity. Qed.

Lemma prefix_cons (a c : ascii) (p t : string) :
  prefix (String a p) (String c t) = (a =? c)%char && prefix p t.
Proof.
  simpl. destruct (ascii_dec a c) as [->|N].
  - rewrite Ascii.eqb_refl. reflexivity.
  - apply Ascii.eqb_neq in N. rewrite N. reflexivity.
Qed.

Lemma prefix_nil_r (p : string) : prefix p "" = match p with "" => true | _ => false end.
Proof. destruct p; reflexivity. Qed.

Lemma prefix_nil_l (t : string) : prefix "" t = true.
Proof. destruct t; reflexivity. Qed.

Lemma contains_lstrip (p s : string) :
  starts_solid p = true -> contains p (lstrip s) = contains p s.
Proof.
  destruct p as [|a p']; [discriminate|]. intros Ha. simpl in Ha.
  induction s as [|c t IH]; [reflexivity|].
  cbn [lstrip]. destruct (is_space c) eqn:Hc; [|reflexivity].
  rewrite IH. cbn [contains]. rewrite prefix_cons.
  destruct (Ascii.eqb_spec a c) as [->|]; [|reflexivity].
  rewrite Hc in Ha. discriminate.
Qed.

Lemma ends_solid_cons (a : ascii) (p : string) :
  ends_solid (String a p) = true ->
  (p = "" /\ is_space a = false) \/ (p <> "" /\ ends_solid p = true).
Proof.
  destruct p as [|b p']; simpl.
  - intros H. left. split; [reflexivity|]. destruct (is_space a); [discriminate|reflexivity].
  - intros H. right. split; [discriminate|exact H].
Qed.

Lemma prefix_rstrip (s : string) :
  forall p, ends_solid p = true -> prefix p (rstrip s) = prefix p s.
Proof.
  induction s as [|c t IH]; intros p Hp; [reflexivity|].
  destruct p as [|a p']; [discriminate|].
  apply ends_solid_cons in Hp as [[-> Ha]|[Hne Hp']].
  - cbn [rstrip]. destruct (rstrip t) as [|x t'].
    + destruct (is_space c) eqn:Hc.
      * rewrite prefix_cons, prefix_nil_r.
        destruct (Ascii.eqb_spec a c) as [->|]; [congruence|reflexivity].
      * rewrite !prefix_cons, !prefix_nil_l. reflexivity.
    + rewrite !prefix_cons, !prefix_nil_l. reflexivity.
  - specialize (IH p' Hp').
    assert (Hnil : prefix p' "" = false) by (destruct p'; [congruence|reflexivity]).
    cbn [rstrip]. destruct (rstrip t) as [|x t'].
    + rewrite Hnil in IH.
      destruct (is_space c); rewrite ?prefix_cons, <- ?IH, ?Hnil, ?andb_false_r;
        reflexivity.
    + rewrite !prefix_cons, IH. reflexivity.
Qed.

Lemma contains_rstrip (p s : string) :
  ends_solid p = true -> contains p (rstrip s) = contains p s.
Proof.
  intros Hp. induction s as [|c t IH]; [reflexivity|].
  assert (Hnil : contains p "" = false) by (destruct p; [discriminate|reflexivity]).
  assert (E : contains p (rstrip (String c t))
              = prefix p (rstrip (String c t)) || contains p (rstrip t)).
  { cbn [rstrip]. destruct (rstrip t) as [|x t'] eqn:Et.
    - destruct (is_space c).
      + rewrite Hnil. destruct p; [discriminate|reflexivity].
      + cbn [contains]. reflexivity.
    - cbn [contains]. reflexivity. }
  rewrite E, IH, (prefix_rstrip _ _ Hp). reflexivity.
Qed.

Lemma header_matches_strip (p c : string) :
  starts_solid p = true -> ends_solid p = true ->
  contains p (lower (strip c)) = header_matches p c.
Proof.
  intros Hs He. unfold header_matches, strip.
  rewrite lower_rstrip, lower_lstrip, (contains_rstrip _ _ He).
  apply contains_lstrip, Hs.
Qed.

Lemma possible_solid (p : string) :
  In p possible -> starts_solid p = true /\ ends_solid p = true.
Proof.
  unfold possible. simpl.
  intros H; repeat (destruct H as [<-|H]; [split; reflexivity|]); destruct H.
Qed.

(** *** The two loops *)

Lemma scan_cols_none (name : string) (cols : list string) :
  (forall c, In c cols -> contains name (lower (strip c)) = false) ->
  scan_cols name cols = None.
Proof.
  unfold scan_cols. induction cols as [|c t IH]; simpl; [reflexivity|].
  intros H. rewrite (H c (or_introl eq_refl)). apply IH. intros; apply H; auto.
Qed.

Lemma scan_cols_first (name : string) (left right : list string) (c : string) :
  (forall c', In c' left -> contains name (lower (strip c')) = false) ->
  contains name (lower (strip c)) = true ->
  scan_cols name (left ++ c :: right) = Some c.
Proof.
  unfold scan_cols. induction left as [|x t IH]; simpl; intros Hl Hc.
  - rewrite Hc. reflexivity.
  - rewrite (Hl x (or_introl eq_refl)). apply IH; auto.
Qed.

Lemma scan_cols_in (name : string) (cols : list string) (c : string) :
  scan_cols name cols = Some c -> In c cols.
Proof. unfold scan_cols. intros H. apply find_some in H as [H _]. exact H. Qed.

Lemma find_emp_col_loop_skip (pre names cols : list string) :
  (forall q, In q pre -> scan_cols q cols = None) ->
  find_emp_col_loop (pre ++ names) cols = find_emp_col_loop names cols.
Proof.
  induction pre as [|q t IH]; simpl; intros H; [reflexivity|].
  rewrite (H q (or_introl eq_refl)). apply IH. intros; apply H; auto.
Qed.

Lemma find_emp_col_loop_in (names cols : list string) (c : string) :
  find_emp_col_loop names cols = Some c -> In c cols.
Proof.
  induction names as [|q t IH]; simpl; [discriminate|].
  destruct (scan_cols q cols) as [c'|] eqn:E; [|exact IH].
  intros H. injection H as <-. exact (scan_cols_in _ _ _ E).
Qed.

Lemma find_emp_col_in (cols : list string) :
  cols <> [] -> exists c, find_emp_col cols = Ok c /\ In c cols.
Proof.
  intros Hne. unfold find_emp_col.
  destruct (find_emp_col_loop possible cols) as [c|] eqn:E.
  - exists c. split; [reflexivity|]. exact (find_emp_col_loop_in _ _ _ E).
  - destruct cols as [|c t]; [congruence|].
    exists c. split; [reflexivity|left; reflexivity].
Qed.

(** C9. On a non-empty header list [find_emp_col] returns a header of the
    list.  The candidate phrases are tried in the order "pay code",
    "emp code", "employee code", "empid", "emp id", "code"; the result is
    the leftmost header matching, case-insensitively as a substring, the
    first phrase that any header matches; when no header matches any
    phrase the result is the first header. *)
Theorem find_emp_col_spec (cols : list string) :
  cols <> [] ->
  possible = ["pay code"; "emp code"; "employee code"; "empid"; "emp id"; "code"]
  /\ (exists c, find_emp_col cols = Ok c /\ In c cols)
  /\ (forall pre p post left c right,
        possible = pre ++ p :: post ->
        cols = left ++ c :: right ->
        (forall q c', In q pre -> In c' cols -> header_matches q c' = false) ->
        (forall c', In c' left -> header_matches p c' = false) ->
        header_matches p c = true ->
        find_emp_col cols = Ok c)
  /\ ((forall p c, In p possible -> In c cols -> header_matches p c = false) ->
      find_emp_col cols = Ok (hd "" cols)).
Proof.
  intros Hne. split; [reflexivity|]. split; [|split].
  - exact (find_emp_col_in cols Hne).
  - intros pre p post left c right Hposs Hcols Hpre Hleft Hc.
    assert (Hin : forall q, In q (pre ++ p :: post) -> In q possible)
      by (intros q; rewrite Hposs; auto).
    unfold find_emp_col. rewrite Hposs, find_emp_col_loop_skip.
    + cbn [find_emp_col_loop].
      destruct (possible_solid p) as [Hs He]; [apply Hin, in_elt|].
      rewrite Hcols, (scan_cols_first p left right c); [reflexivity| |].
      * intros c' Hc'. rewrite (header_matches_strip _ _ Hs He). auto.
      * rewrite (header_matches_strip _ _ Hs He). exact Hc.
    + intros q Hq. apply scan_cols_none. intros c' Hc'.
      destruct (possible_solid q) as [Hs He]; [apply Hin, in_or_app; auto|].
      rewrite (header_matches_strip _ _ Hs He). auto.
  - intros Hnone. unfold find_emp_col.
    rewrite <- (app_nil_r possible), find_emp_col_loop_skip.
    + destruct cols as [|c t]; [congruence|reflexivity].
    + intros q Hq. apply scan_cols_none. intros c' Hc'.
      destruct (possible_solid q) as [Hs He]; [exact Hq|].
      rewrite (header_matches_strip _ _ Hs He). auto.
Qed.

Lemma find_emp_col_spec_witness :
  find_emp_col ["Name"; "Employee Code"; " PAY CODE "] = Ok " PAY CODE "
  /\ find_emp_col ["Name"; "Dept"] = Ok "Name".
Proof.
  split.
  - assert (Hne : ["Name"; "Employee Code"; " PAY CODE "] <> []) by discriminate.
    apply (proj1 (proj2 (proj2 (find_emp_col_spec _ Hne)))
             [] "pay code"
             ["emp code"; "employee code"; "empid"; "emp id"; "code"]
             ["Name"; "Employee Code"] " PAY CODE " []).
    + reflexivity.
    + reflexivity.
    + intros q c' [].
    + intros c' [<-|[<-|[]]]; reflexivity.
    + reflexivity.
  - assert (Hne : ["Name"; "Dept"] <> []) by discriminate.
    apply (proj2 (proj2 (proj2 (find_emp_col_spec _ Hne)))).
    intros p c Hp Hc. unfold possible in Hp. simpl in Hp, Hc.
    repeat (destruct Hp as [<-|Hp];
            [destruct Hc as [<-|[<-|[]]]; reflexivity|]).
    destruct Hp.
Defined.

(* ================================================================== *)
(** * Sorting the punches *)
(* ================================================================== *)

Lemma dt_leb_iff (a b : datetime) :
  dt_leb a b = true <->
  hour a < hour b
  \/ (hour a = hour b
      /\ (minute a < minute b \/ (minute a = minute b /\ second a <= second b))).
Proof.
  unfold dt_leb.
  rewrite !orb_true_iff, !andb_true_iff, !orb_true_iff, !andb_true_iff,
    !Nat.ltb_lt, !Nat.eqb_eq, Nat.leb_le. reflexivity.
Qed.

Lemma dt_leb_total (a b : datetime) : dt_leb a b = false -> dt_leb b a = true.
Proof.
  intros H. apply not_true_iff_false in H. rewrite dt_leb_iff in H.
  apply dt_leb_iff. lia.
Qed.

Lemma dt_leb_refl (a : datetime) : dt_leb a a = true.
Proof. apply dt_leb_iff. lia. Qed.

Lemma dt_leb_trans (a b c : datetime) :
  dt_leb a b = true -> dt_leb b c = true -> dt_leb a c = true.
Proof. rewrite !dt_leb_iff. lia. Qed.

Lemma insert_sorted_perm (x : datetime) (l : list datetime) :
  Permutation (insert_sorted x l) (x :: l).
Proof.
  induction l as [|y t IH]; simpl; [reflexivity|].
  destruct (dt_leb x y); [reflexivity|].
  rewrite IH. apply perm_swap.
Qed.

Lemma sort_perm (l : list datetime) : Permutation (sort l) l.
Proof.
  induction l as [|x t IH]; simpl; [reflexivity|].
  rewrite insert_sorted_perm, IH. reflexivity.
Qed.

Lemma insert_sorted_ascending (x : datetime) (l : list datetime) :
  ascending l -> ascending (insert_sorted x l).
Proof.
  unfold ascending. induction l as [|y t IH]; simpl; intros H.
  - repeat constructor.
  - inversion H as [|? ? Ht Hy]; subst.
    destruct (dt_leb x y) eqn:E.
    + constructor; [exact H|]. constructor; [exact E|].
      eapply Forall_impl; [|exact Hy]. intros u Hu. exact (dt_leb_trans _ _ _ E Hu).
    + constructor; [apply IH, Ht|].
      apply (Permutation_Forall (Permutation_sym (insert_sorted_perm x t))).
      constructor; [exact (dt_leb_total _ _ E)|exact Hy].
Qed.

Lemma sort_ascending (l : list datetime) : ascending (sort l).
Proof.
  induction l as [|x t IH]; simpl; [constructor|].
  apply insert_sorted_ascending, IH.
Qed.

Lemma ascending_head (t : datetime) (l : list datetime) :
  ascending (t :: l) -> earliest t (t :: l).
Proof.
  intros H. inversion H as [|? ? _ Ht]; subst. split; [left; reflexivity|].
  intros u [<-|Hu]; [apply dt_leb_refl|].
  rewrite Forall_forall in Ht. auto.
Qed.

Lemma ascending_last (l : list datetime) (d : datetime) :
  ascending l -> l <> [] -> latest (last l d) l.
Proof.
  unfold ascending. induction l as [|x t IH]; intros H Hne; [congruence|].
  inversion H as [|? ? Ht Hx]; subst.
  destruct t as [|y t'].
  - split; [left; reflexivity|]. intros u [<-|[]]. apply dt_leb_refl.
  - destruct (IH Ht ltac:(discriminate)) as [Hin Hmax].
    change (last (x :: y :: t') d) with (last (y :: t') d).
    split; [right; exact Hin|].
    intros u [<-|Hu]; [|auto].
    rewrite Forall_forall in Hx. auto.
Qed.

Lemma get_punch_times_ascending (df : DataFrame) (emp : scalar) (id_col : string) :
  ascending (get_punch_times df emp id_col).
Proof.
  unfold get_punch_times. destruct (filter _ (rows df)); [constructor|].
  apply sort_ascending.
Qed.

(* ================================================================== *)
(** * The shift classifier *)
(* ================================================================== *)

Lemma status_of_row_present (cx : context) (row : list scalar) (emp : scalar) :
  cell (columns (manual_df cx)) row (m_emp cx) = Some emp ->
  emp_in emp (all_bio1_ids cx) = true ->
  status_of_row cx row
  = Ok (classify (shift_of cx row) (source1_punches cx emp) (source2_punches cx emp)).
Proof.
  intros Hc Hin. unfold status_of_row, row_status. rewrite Hc, Hin. reflexivity.
Qed.

Lemma status_of_row_absent (cx : context) (row : list scalar) (emp : scalar) :
  cell (columns (manual_df cx)) row (m_emp cx) = Some emp ->
  emp_in emp (all_bio1_ids cx) = false ->
  status_of_row cx row = Ok "No Punch".
Proof.
  intros Hc Hin. unfold status_of_row, row_status. rewrite Hc, Hin. reflexivity.
Qed.

Lemma classify_full (shift : string) (p1 p2 : list datetime) :
  contains "full" shift || contains "fn" shift = true ->
  classify shift p1 p2
  = match p1, p2 with
    | _ :: _, _ => "Match"
    | [], _ :: _ => "Single Out Punch"
    | [], [] => "No Punch"
    end.
Proof.
  intros H. unfold classify. rewrite H. destruct p1, p2; reflexivity.
Qed.

Lemma classify_day (shift : string) (p1 p2 : list datetime) :
  contains "full" shift || contains "fn" shift = false ->
  contains "day" shift || contains "morning" shift = true ->
  classify shift p1 p2
  = if List.length p1 <? 2 then "No Punch"
    else if negb (within in_start in_end (nth 0 p1 midnight)) then "No Punch"
    else if dt_ltb (last p1 midnight) out_start then "Early"
    else if within out_start out_end (last p1 midnight) then "Match"
    else "No Punch".
Proof. intros H1 H2. unfold classify. rewrite H1, H2. reflexivity. Qed.

Lemma ten_minute_rule_eq (a b : datetime) :
  (if Qle_bool (diff_mins a b) (10 # 1) then "Single In Punch" else "Match")
  = ten_minute_rule a b.
Proof.
  unfold Qle_bool, diff_mins, total_seconds, ten_minute_rule. cbn [Qnum Qden].
  replace (Z.abs (seconds_of b - seconds_of a) * 1)%Z
    with (Z.abs (seconds_of a - seconds_of b)) by lia.
  reflexivity.
Qed.

Lemma classify_other (shift : string) (p1 p2 : list datetime) :
  contains "full" shift || contains "fn" shift = false ->
  contains "day" shift || contains "morning" shift = false ->
  classify shift p1 p2 = other_rule p1.
Proof.
  intros H1 H2. unfold classify. rewrite H1, H2.
  destruct p1 as [|a [|b [|c [|d t]]]]; cbn -[Qle_bool diff_mins ten_minute_rule];
    try reflexivity; apply ten_minute_rule_eq.
Qed.

Lemma ten_minute_rule_cases (a b : datetime) :
  ten_minute_rule a b = "Single In Punch" \/ ten_minute_rule a b = "Match".
Proof. unfold ten_minute_rule. destruct (_ <=? _)%Z; auto. Qed.

Lemma other_rule_cases (p : list datetime) :
  other_rule p = "No Punch" \/ other_rule p = "Single In Punch" \/ other_rule p = "Match".
Proof.
  destruct p as [|a [|b [|c [|d t]]]]; cbn -[ten_minute_rule]; auto;
    right; apply ten_minute_rule_cases.
Qed.

Ltac in_list :=
  simpl; solve [ left; reflexivity
               | right; left; reflexivity
               | right; right; left; reflexivity
               | right; right; right; left; reflexivity
               | right; right; right; right; left; reflexivity
               | right; right; right; right; right; left; reflexivity ].

(** The classifier yields one of five labels. *)
Lemma classify_cases (shift : string) (p1 p2 : list datetime) :
  In (classify shift p1 p2)
    ["Match"; "No Punch"; "Early"; "Single In Punch"; "Single Out Punch"].
Proof.
  destruct (contains "full" shift || contains "fn" shift) eqn:H1.
  - rewrite (classify_full _ _ _ H1). destruct p1, p2; in_list.
  - destruct (contains "day" shift || contains "morning" shift) eqn:H2.
    + rewrite (classify_day _ _ _ H1 H2).
      repeat match goal with |- context [if ?b then _ else _] => destruct b end;
        in_list.
    + rewrite (classify_other _ _ _ H1 H2).
      destruct (other_rule_cases p1) as [->|[->| ->]]; in_list.
Qed.

Lemma row_status_cases (cx : context) (emp : scalar) (shift : string) :
  In (row_status cx emp shift)
    ["Match"; "No Punch"; "Early"; "Single In Punch"; "Single Out Punch"].
Proof.
  unfold row_status. destruct (emp_in emp (all_bio1_ids cx)); cbn [negb].
  - apply classify_cases.
  - in_list.
Qed.

(** C2. A row whose key is present in Source 1 and whose shift label
    contains "full" or "fn" gets "Match" as soon as a Source-1 punch exists,
    whatever Source 2 holds; "Single Out Punch" when only Source 2 has a
    punch; "No Punch" when neither has one. *)
Theorem full_night_status (cx : context) (row : list scalar) (emp : scalar) :
  wf_context cx = true ->
  cell (columns (manual_df cx)) row (m_emp cx) = Some emp ->
  emp_in emp (all_bio1_ids cx) = true ->
  contains "full" (shift_of cx row) || contains "fn" (shift_of cx row) = true ->
  (source1_punches cx emp <> [] -> status_of_row cx row = Ok "Match")
  /\ (source1_punches cx emp = [] -> source2_punches cx emp <> [] ->
      status_of_row cx row = Ok "Single Out Punch")
  /\ (source1_punches cx emp = [] -> source2_punches cx emp = [] ->
      status_of_row cx row = Ok "No Punch").
Proof.
  intros _ Hc Hin Hs.
  rewrite (status_of_row_present _ _ _ Hc Hin), (classify_full _ _ _ Hs).
  destruct (source1_punches cx emp), (source2_punches cx emp);
    repeat split; intros; congruence.
Qed.

(** C1. A row whose key is present in Source 1 and whose shift label
    contains "day" or "morning" but neither "full" nor "fn" gets "No Punch"
    with fewer than two Source-1 punches; otherwise, with [t_in] the
    earliest and [t_out] the latest Source-1 punch: "No Punch" when [t_in]
    is outside 06:45:00..07:30:00, else "Early" when [t_out] is before
    15:15:00, "Match" when it is within 15:15:00..15:20:00, and "No Punch"
    when it is after 15:20:00. *)
Theorem day_shift_status (cx : context) (row : list scalar) (emp : scalar) :
  wf_context cx = true ->
  cell (columns (manual_df cx)) row (m_emp cx) = Some emp ->
  emp_in emp (all_bio1_ids cx) = true ->
  contains "day" (shift_of cx row) || contains "morning" (shift_of cx row) = true ->
  contains "full" (shift_of cx row) = false ->
  contains "fn" (shift_of cx row) = false ->
  (List.length (source1_punches cx emp) < 2 -> status_of_row cx row = Ok "No Punch")
  /\ (2 <= List.length (source1_punches cx emp) ->
      exists t_in t_out,
        earliest t_in (source1_punches cx emp)
        /\ latest t_out (source1_punches cx emp)
        /\ (within (mk_dt 6 45 0) (mk_dt 7 30 0) t_in = false ->
            status_of_row cx row = Ok "No Punch")
        /\ (within (mk_dt 6 45 0) (mk_dt 7 30 0) t_in = true ->
            (dt_ltb t_out (mk_dt 15 15 0) = true ->
             status_of_row cx row = Ok "Early")
            /\ (within (mk_dt 15 15 0) (mk_dt 15 20 0) t_out = true ->
                status_of_row cx row = Ok "Match")
            /\ (dt_ltb (mk_dt 15 20 0) t_out = true ->
                status_of_row cx row = Ok "No Punch"))).
Proof.
  intros _ Hc Hin Hday Hfull Hfn.
  assert (Hcat : contains "full" (shift_of cx row) || contains "fn" (shift_of cx row) = false)
    by (rewrite Hfull, Hfn; reflexivity).
  rewrite (status_of_row_present _ _ _ Hc Hin), (classify_day _ _ _ Hcat Hday).
  pose proof (get_punch_times_ascending (bio1 cx) emp (b_emp1 cx)) as Hasc.
  fold (source1_punches cx emp) in Hasc.
  destruct (source1_punches cx emp) as [|a [|b t]] eqn:Ep.
  - split; [reflexivity|simpl; lia].
  - split; [reflexivity|simpl; lia].
  - split; [simpl; lia|]. intros _. rewrite <- Ep in *.
    assert (Hne : source1_punches cx emp <> []) by (rewrite Ep; discriminate).
    exists a, (last (source1_punches cx emp) midnight).
    split; [rewrite Ep in *; apply ascending_head, Hasc|].
    split; [apply ascending_last; assumption|].
    set (t_out := last (source1_punches cx emp) midnight).
    replace (List.length (source1_punches cx emp) <? 2) with false
      by (rewrite Ep; reflexivity).
    replace (nth 0 (source1_punches cx emp) midnight) with a
      by (rewrite Ep; reflexivity).
    change in_start with (mk_dt 6 45 0). change in_end with (mk_dt 7 30 0).
    change out_start with (mk_dt 15 15 0). change out_end with (mk_dt 15 20 0).
    split; [intros ->; reflexivity|]. intros ->. cbn [negb].
    split; [intros ->; reflexivity|]. split.
    + intros Hw. unfold dt_ltb. unfold within in Hw.
      apply andb_prop in Hw as [Hlo Hhi]. rewrite Hlo. cbn [negb].
      unfold within. rewrite Hlo, Hhi. reflexivity.
    + unfold dt_ltb, within. intros Hgt. apply negb_true_iff in Hgt.
      rewrite Hgt, andb_false_r.
      assert (Hlo : dt_leb (mk_dt 15 15 0) t_out = true).
      { apply dt_leb_total in Hgt.
        exact (dt_leb_trans (mk_dt 15 15 0) (mk_dt 15 20 0) t_out eq_refl Hgt). }
      rewrite Hlo. reflexivity.
Qed.

(** C3. A row whose key is present in Source 1 and whose shift label
    contains none of "full", "fn", "day", "morning" gets a status fixed by
    the ascending list of Source-1 punches alone: "No Punch" for none,
    "Single In Punch" for one, and for two, three, four or more punches the
    ten-minute rule on the first punch and, respectively, the second, the
    third, the fourth ("Single In Punch" when they are at most ten minutes
    apart, "Match" otherwise).  Replacing Source 2 by any other well-formed
    frame, read through one of its columns, changes nothing. *)
Theorem other_shift_status (cx : context) (row : list scalar) (emp : scalar) :
  wf_context cx = true ->
  cell (columns (manual_df cx)) row (m_emp cx) = Some emp ->
  emp_in emp (all_bio1_ids cx) = true ->
  contains "full" (shift_of cx row) = false ->
  contains "fn" (shift_of cx row) = false ->
  contains "day" (shift_of cx row) = false ->
  contains "morning" (shift_of cx row) = false ->
  ascending (source1_punches cx emp)
  /\ status_of_row cx row = Ok (other_rule (source1_punches cx emp))
  /\ (forall b2 e2,
        wf_table b2 = true -> In e2 (columns b2) ->
        wf_context (with_source2 cx b2 e2) = true
        /\ status_of_row (with_source2 cx b2 e2) row = status_of_row cx row).
Proof.
  intros Hwf Hc Hin Hfull Hfn Hday Hmor.
  assert (H1 : contains "full" (shift_of cx row) || contains "fn" (shift_of cx row) = false)
    by (rewrite Hfull, Hfn; reflexivity).
  assert (H2 : contains "day" (shift_of cx row) || contains "morning" (shift_of cx row) = false)
    by (rewrite Hday, Hmor; reflexivity).
  split; [apply get_punch_times_ascending|]. split.
  - rewrite (status_of_row_present _ _ _ Hc Hin). f_equal.
    apply classify_other; assumption.
  - intros b2 e2 Hb2 _. split.
    + unfold wf_context in *. cbn [with_source2 manual_df bio1 bio2].
      apply andb_prop in Hwf as [Hwf _]. rewrite Hwf, Hb2. reflexivity.
    + rewrite (status_of_row_present cx _ _ Hc Hin).
      rewrite (status_of_row_present (with_source2 cx b2 e2) row emp Hc Hin).
      change (shift_of (with_source2 cx b2 e2) row) with (shift_of cx row).
      rewrite !classify_other by assumption. reflexivity.
Qed.

(* ================================================================== *)
(** * Data-frame operations *)
(* ================================================================== *)

Lemma bind_ok {A B : Type} (m : exc A) (k : A -> exc B) (b : B) :
  bind m k = Ok b -> exists a, m = Ok a /\ k a = Ok b.
Proof. destruct m as [a|e]; simpl; [eauto|discriminate]. Qed.

Lemma map2_length {A B C : Type} (f : A -> B -> C) (l : list A) (m : list B) :
  List.length l = List.length m -> List.length (map2 f l m) = List.length l.
Proof.
  revert m. induction l as [|a l IH]; intros [|b m]; simpl; try discriminate;
    [reflexivity|]. intros H. f_equal. apply IH. lia.
Qed.

Lemma nth_error_map2 {A B C : Type} (f : A -> B -> C) (l : list A) (m : list B)
    (i : nat) (a : A) (b : B) :
  nth_error l i = Some a -> nth_error m i = Some b ->
  nth_error (map2 f l m) i = Some (f a b).
Proof.
  revert m i. induction l as [|x l IH]; intros [|y m] [|i]; simpl;
    try discriminate.
  - intros H1 H2. injection H1 as ->. injection H2 as ->. reflexivity.
  - apply IH.
Qed.

Lemma nth_error_same_length {A B : Type} (l : list A) (m : list B) (i : nat) (a : A) :
  List.length m = List.length l -> nth_error l i = Some a ->
  exists b, nth_error m i = Some b.
Proof.
  intros Hlen Ha.
  assert (Hi : i < List.length m).
  { rewrite Hlen. apply nth_error_Some. congruence. }
  destruct (nth_error m i) as [b|] eqn:E; [eauto|].
  apply nth_error_None in E. lia.
Qed.

Lemma set_nth_length {A : Type} (i : nat) (v : A) (l : list A) :
  List.length (set_nth i v l) = List.length l.
Proof.
  revert i. induction l as [|x l IH]; intros [|i]; simpl; auto.
Qed.

Lemma nth_error_set_nth_eq {A : Type} (i : nat) (v : A) (l : list A) :
  i < List.length l -> nth_error (set_nth i v l) i = Some v.
Proof.
  revert i. induction l as [|x l IH]; intros [|i]; simpl; try lia; auto.
  intros H. apply IH. lia.
Qed.

Lemma nth_error_set_nth_neq {A : Type} (i j : nat) (v : A) (l : list A) :
  j <> i -> nth_error (set_nth i v l) j = nth_error l j.
Proof.
  revert i j. induction l as [|x l IH]; intros [|i] [|j]; simpl; try congruence; auto.
Qed.

Lemma col_index_some (c : string) (cols : list string) (i : nat) :
  col_index c cols = Some i -> i < List.length cols /\ nth_error cols i = Some c.
Proof.
  revert i. induction cols as [|h t IH]; simpl; [discriminate|]. intros i.
  destruct (String.eqb_spec h c) as [->|].
  - intros H. injection H as <-. split; [lia|reflexivity].
  - destruct (col_index c t) as [j|]; simpl; [|discriminate].
    intros H. injection H as <-. destruct (IH j eq_refl). split; [lia|assumption].
Qed.

Lemma col_index_app (c c' : string) (cols : list string) :
  col_index c (cols ++ [c'])
  = match col_index c cols with
    | Some i => Some i
    | None => if (c' =? c)%string then Some (List.length cols) else None
    end.
Proof.
  induction cols as [|h t IH]; simpl.
  - destruct (c' =? c)%string; reflexivity.
  - destruct (h =? c)%string; [reflexivity|].
    rewrite IH. destruct (col_index c t); simpl; [reflexivity|].
    destruct (c' =? c)%string; reflexivity.
Qed.

Lemma col_index_none_existsb (c : string) (cols : list string) :
  existsb (String.eqb c) cols = match col_index c cols with Some _ => true | None => false end.
Proof.
  induction cols as [|h t IH]; simpl; [reflexivity|].
  rewrite (String.eqb_sym c h). destruct (h =? c)%string; simpl; [reflexivity|].
  rewrite IH. destruct (col_index c t); reflexivity.
Qed.

(** *** Assigning a column *)

Lemma set_column_inv (df : DataFrame) (c : string) (vals : list scalar) (df' : DataFrame) :
  set_column df c vals = Ok df' ->
  List.length vals = List.length (rows df)
  /\ df' = match col_index c (columns df) with
           | Some k => mk_df (columns df) (map2 (fun r v => set_nth k v r) (rows df) vals)
           | None => mk_df (columns df ++ [c]) (map2 (fun r v => r ++ [v]) (rows df) vals)
           end.
Proof.
  unfold set_column.
  destruct (Nat.eqb_spec (List.length vals) (List.length (rows df))) as [E|];
    [|discriminate]. cbn [negb].
  destruct (col_index c (columns df)); intros H; injection H as <-; auto.
Qed.

(** Reading a column and writing it back transformed, as lines 66 and 80-82
    do. *)
Lemma update_column_inv (df : DataFrame) (c : string)
    (g : list scalar -> list scalar) (df' : DataFrame) :
  (vals <- get_column df c ;; set_column df c (g vals)) = Ok df' ->
  exists k,
    col_index c (columns df) = Some k
    /\ List.length (g (map (fun r => nth k r SNaN) (rows df))) = List.length (rows df)
    /\ df' = mk_df (columns df)
               (map2 (fun r v => set_nth k v r) (rows df)
                  (g (map (fun r => nth k r SNaN) (rows df)))).
Proof.
  intros H. apply bind_ok in H as (vals & Hg & Hs).
  unfold get_column in Hg. destruct (col_index c (columns df)) as [k|] eqn:Ek;
    [|discriminate]. injection Hg as <-.
  apply set_column_inv in Hs as [Hlen ->]. rewrite Ek. exists k. auto.
Qed.

Lemma rectangular_spec (df : DataFrame) :
  rectangular df = true <->
  forall r, In r (rows df) -> List.length r = List.length (columns df).
Proof.
  unfold rectangular. rewrite forallb_forall. split; intros H r Hr.
  - apply Nat.eqb_eq, H, Hr.
  - apply Nat.eqb_eq, H, Hr.
Qed.

(** *** Cells of an updated row *)

Lemma cell_set_nth_other (cols : list string) (r : list scalar) (k : nat)
    (v : scalar) (c c0 : string) :
  col_index c0 cols = Some k -> c <> c0 ->
  cell cols (set_nth k v r) c = cell cols r c.
Proof.
  intros Hk Hne. unfold cell. destruct (col_index c cols) as [j|] eqn:Ej; [|reflexivity].
  apply nth_error_set_nth_neq. intros ->.
  apply col_index_some in Hk as [_ Hk]. apply col_index_some in Ej as [_ Ej].
  congruence.
Qed.

Lemma cell_set_nth_same (cols : list string) (r : list scalar) (k : nat)
    (v : scalar) (c : string) :
  col_index c cols = Some k -> List.length r = List.length cols ->
  cell cols (set_nth k v r) c = Some v.
Proof.
  intros Hk Hlen. unfold cell. rewrite Hk. apply nth_error_set_nth_eq.
  apply col_index_some in Hk as [Hk _]. lia.
Qed.

Lemma cell_app_other (cols : list string) (r : list scalar) (v : scalar) (c c0 : string) :
  c <> c0 -> List.length r = List.length cols ->
  cell (cols ++ [c0]) (r ++ [v]) c = cell cols r c.
Proof.
  intros Hne Hlen. unfold cell. rewrite col_index_app.
  destruct (col_index c cols) as [j|] eqn:Ej.
  - apply col_index_some in Ej as [Ej _]. apply nth_error_app1. lia.
  - destruct (String.eqb_spec c0 c); [congruence|reflexivity].
Qed.

Lemma cell_app_same (cols : list string) (r : list scalar) (v : scalar) (c : string) :
  col_index c cols = None -> List.length r = List.length cols ->
  cell (cols ++ [c]) (r ++ [v]) c = Some v.
Proof.
  intros Hc Hlen. unfold cell. rewrite col_index_app, Hc, String.eqb_refl.
  rewrite nth_error_app2 by lia. rewrite <- Hlen, Nat.sub_diag. reflexivity.
Qed.

Lemma cell_nth (cols : list string) (r : list scalar) (c : string) (k : nat) (x : scalar) :
  col_index c cols = Some k -> cell cols r c = Some x -> nth k r SNaN = x.
Proof.
  intros Hk. unfold cell. rewrite Hk. intros H. apply nth_error_nth. exact H.
Qed.

Lemma clean_id_astype_str (x : scalar) : clean_id (astype_str x) = clean_id x.
Proof. reflexivity. Qed.

Lemma col_index_in (c : string) (cols : list string) :
  In c cols -> exists k, col_index c cols = Some k.
Proof.
  induction cols as [|h t IH]; simpl; [intros []|].
  destruct (String.eqb_spec h c) as [->|N]; [eauto|].
  intros [E|H]; [congruence|]. destruct (IH H) as [k ->]. simpl. eauto.
Qed.



(** *** The loop over the roster *)



Lemma statuses_loop_inv (cx : context) (rs : list (list scalar)) (sts : list string) :
  statuses_loop cx rs = Ok sts ->
  List.length sts = List.length rs
  /\ forall i row, nth_error rs i = Some row ->
       exists st, nth_error sts i = Some st /\ status_of_row cx row = Ok st.
Proof.
  revert sts. induction rs as [|row rest IH]; simpl; intros sts H.
  - injection H as <-. split; [reflexivity|]. intros [|i] ?; discriminate.
  - apply bind_ok in H as (st & Hst & H). apply bind_ok in H as (sts' & Hrest & H).
    injection H as <-. destruct (IH _ Hrest) as [Hlen Hnth].
    split; [simpl; congruence|].
    intros [|i] r; simpl.
    + intros E. injection E as <-. eauto.
    + apply Hnth.
Qed.

Lemma status_of_row_cases (cx : context) (row : list scalar) (st : string) :
  status_of_row cx row = Ok st ->
  In st ["Match"; "No Punch"; "Early"; "Single In Punch"; "Single Out Punch"].
Proof.
  unfold status_of_row. destruct (cell _ row _); [|discriminate].
  intros H. injection H as <-. apply row_status_cases.
Qed.

(* ================================================================== *)
(** * The driver *)
(* ================================================================== *)

Lemma status_assigned (m out : DataFrame) (sts : list string) :
  set_column m "Status" (map SStr sts) = Ok out ->
  columns out = with_status_header (columns m)
  /\ List.length (rows out) = List.length (rows m)
  /\ forall i row st,
       nth_error (rows m) i = Some row -> nth_error sts i = Some st ->
       nth_error (rows out) i = Some (assign_status (columns m) row st).
Proof.
  intros H. apply set_column_inv in H as [Hlen ->].
  unfold with_status_header, assign_status.
  rewrite length_map in Hlen.
  destruct (col_index "Status" (columns m)) as [k|]; cbn [columns rows];
    (split; [reflexivity|]);
    (split; [apply map2_length; rewrite length_map; lia|]);
    intros i row st Hr Hs.
  - apply (nth_error_map2 (fun r v => set_nth k v r) _ _ _ row (SStr st));
      auto using map_nth_error.
  - apply (nth_error_map2 (fun r v => r ++ [v]) _ _ _ row (SStr st));
      auto using map_nth_error.
Qed.

Lemma assign_status_cell (cols : list string) (row : list scalar) (st : string) :
  List.length row = List.length cols ->
  cell (with_status_header cols) (assign_status cols row st) "Status" = Some (SStr st).
Proof.
  intros Hlen. unfold with_status_header, assign_status.
  destruct (col_index "Status" cols) as [k|] eqn:Ek.
  - apply cell_set_nth_same; assumption.
  - apply cell_app_same; assumption.
Qed.

Lemma assign_status_other (cols : list string) (row : list scalar) (st c : string) :
  List.length row = List.length cols -> c <> "Status" ->
  cell (with_status_header cols) (assign_status cols row st) c = cell cols row c.
Proof.
  intros Hlen Hne. unfold with_status_header, assign_status.
  destruct (col_index "Status" cols) as [k|] eqn:Ek.
  - apply (cell_set_nth_other _ _ _ _ _ "Status"); assumption.
  - apply cell_app_other; assumption.
Qed.

Section DriverFacts.

Variable to_datetime : list scalar -> list scalar.

Lemma prepare_inv (att b1 b2 : DataFrame) (cx : context) :
  prepare to_datetime att b1 b2 = Ok cx ->
  exists m0 s1 s2,
    coerce_dates to_datetime (strip_columns att) = Ok m0
    /\ normalize_ids m0 (m_emp cx) = Ok (manual_df cx)
    /\ m_emp cx = default "EMP ID" (find_col "emp id" (columns m0))
    /\ shift_col cx = default "SHIFT" (find_col "shift" (columns (manual_df cx)))
    /\ find_emp_col (columns (clean_source b1)) = Ok (b_emp1 cx)
    /\ normalize_ids (clean_source b1) (b_emp1 cx) = Ok s1
    /\ bio1 cx = replace_blanks s1
    /\ get_column (replace_blanks s1) (b_emp1 cx) = Ok (all_bio1_ids cx)
    /\ find_emp_col (columns (clean_source b2)) = Ok (b_emp2 cx)
    /\ normalize_ids (clean_source b2) (b_emp2 cx) = Ok s2
    /\ bio2 cx = replace_blanks s2.
Proof.
  unfold prepare. intros H.
  apply bind_ok in H as (m0 & Hm0 & H).
  apply bind_ok in H as (e1 & He1 & H).
  apply bind_ok in H as (e2 & He2 & H).
  apply bind_ok in H as (m1 & Hm1 & H).
  apply bind_ok in H as (s1 & Hs1 & H).
  apply bind_ok in H as (s2 & Hs2 & H).
  apply bind_ok in H as (ids & Hids & H).
  injection H as <-. cbn [manual_df bio1 bio2 m_emp b_emp1 b_emp2 shift_col all_bio1_ids].
  exists m0, s1, s2. repeat split; assumption.
Qed.

(** Source 2 has no part in the roster, in Source 1, or in the key set. *)
Lemma prepare_source2 (att b1 b2 b2' : DataFrame) (cx cx' : context) :
  prepare to_datetime att b1 b2 = Ok cx -> prepare to_datetime att b1 b2' = Ok cx' ->
  cx' = with_source2 cx (bio2 cx') (b_emp2 cx').
Proof.
  intros H H'.
  apply prepare_inv in H as (m0 & s1 & s2 & A1 & A2 & A3 & A4 & A5 & A6 & A7 & A8 & _).
  apply prepare_inv in H' as (m0' & s1' & s2' & B1 & B2 & B3 & B4 & B5 & B6 & B7 & B8 & _).
  assert (m0' = m0) by congruence. subst m0'.
  assert (Em : m_emp cx' = m_emp cx) by congruence.
  assert (Ed : manual_df cx' = manual_df cx) by congruence.
  assert (Ee : b_emp1 cx' = b_emp1 cx) by congruence.
  assert (Es : s1' = s1) by congruence. subst s1'.
  assert (Eb : bio1 cx' = bio1 cx) by congruence.
  assert (Ei : all_bio1_ids cx' = all_bio1_ids cx) by congruence.
  assert (Eh : shift_col cx' = shift_col cx) by congruence.
  unfold with_source2. destruct cx'; cbn in *. congruence.
Qed.

Lemma compare_files_inv (att b1 b2 out : DataFrame) :
  compare_files to_datetime att b1 b2 = Ok out ->
  exists cx sts,
    prepare to_datetime att b1 b2 = Ok cx
    /\ statuses_loop cx (rows (manual_df cx)) = Ok sts
    /\ set_column (manual_df cx) "Status" (map SStr sts) = Ok out.
Proof.
  unfold compare_files. intros H.
  apply bind_ok in H as (cx & Hcx & H). apply bind_ok in H as (sts & Hsts & H).
  exists cx, sts. auto.
Qed.

Lemma update_column_rows (df : DataFrame) (c : string)
    (g : list scalar -> list scalar) (df' : DataFrame) :
  (vals <- get_column df c ;; set_column df c (g vals)) = Ok df' ->
  columns df' = columns df
  /\ List.length (rows df') = List.length (rows df)
  /\ exists k,
       col_index c (columns df) = Some k
       /\ forall i r, nth_error (rows df) i = Some r ->
            exists v,
              nth_error (g (map (fun r => nth k r SNaN) (rows df))) i = Some v
              /\ nth_error (rows df') i = Some (set_nth k v r).
Proof.
  intros H. apply update_column_inv in H as (k & Hk & Hlen & ->). cbn [columns rows].
  split; [reflexivity|]. split; [apply map2_length; lia|].
  exists k. split; [exact Hk|]. intros i r Hr.
  destruct (nth_error_same_length _ _ _ _ Hlen Hr) as [v Hv].
  exists v. split; [exact Hv|].
  exact (nth_error_map2 (fun r v => set_nth k v r) _ _ _ r v Hr Hv).
Qed.

Lemma coerce_dates_rows (att m0 : DataFrame) :
  coerce_dates to_datetime (strip_columns att) = Ok m0 ->
  columns m0 = map strip (columns att)
  /\ List.length (rows m0) = List.length (rows att)
  /\ forall i r, nth_error (rows att) i = Some r ->
       exists r0,
         nth_error (rows m0) i = Some r0
         /\ List.length r0 = List.length r
         /\ forall c, find_col "date" (map strip (columns att)) <> Some c ->
              cell (map strip (columns att)) r0 c = cell (map strip (columns att)) r c.
Proof.
  unfold coerce_dates. cbn [strip_columns columns].
  destruct (find_col "date" (map strip (columns att))) as [dc|] eqn:Ed.
  - intros H. apply update_column_rows in H as (Hc & Hl & k & Hk & Hrows).
    cbn [columns rows strip_columns] in *.
    split; [exact Hc|]. split; [exact Hl|]. intros i r Hr.
    destruct (Hrows i r Hr) as (v & _ & Hr0).
    exists (set_nth k v r). split; [exact Hr0|]. split; [apply set_nth_length|].
    intros c Hne. apply (cell_set_nth_other _ _ _ _ _ dc); congruence.
  - intros H. injection H as <-. cbn [columns rows strip_columns].
    split; [reflexivity|]. split; [reflexivity|]. intros i r Hr.
    exists r. auto.
Qed.

Lemma normalize_ids_rows (df df' : DataFrame) (c : string) :
  normalize_ids df c = Ok df' ->
  columns df' = columns df
  /\ List.length (rows df') = List.length (rows df)
  /\ forall i r, nth_error (rows df) i = Some r ->
       exists r1,
         nth_error (rows df') i = Some r1
         /\ List.length r1 = List.length r
         /\ (forall c', c' <> c -> cell (columns df) r1 c' = cell (columns df) r c')
         /\ (forall x, List.length r = List.length (columns df) ->
               cell (columns df) r c = Some x ->
               cell (columns df) r1 c = Some (SStr (clean_id x))).
Proof.
  unfold normalize_ids. intros H.
  apply update_column_rows in H as (Hc & Hl & k & Hk & Hrows).
  split; [exact Hc|]. split; [exact Hl|]. intros i r Hr.
  destruct (Hrows i r Hr) as (v & Hv & Hr1).
  exists (set_nth k v r). split; [exact Hr1|]. split; [apply set_nth_length|]. split.
  - intros c' Hne. apply (cell_set_nth_other _ _ _ _ _ c); assumption.
  - intros x Hlen Hx. rewrite (cell_set_nth_same _ _ _ _ _ Hk Hlen).
    rewrite map_map in Hv.
    rewrite (map_nth_error _ _ _ Hr) in Hv. injection Hv as <-.
    rewrite (cell_nth _ _ _ _ _ Hk Hx), clean_id_astype_str. reflexivity.
Qed.

(** The roster as the loop sees it, against the roster as read. *)
Lemma roster_prepared (att b1 b2 : DataFrame) (cx : context) :
  rectangular att = true ->
  prepare to_datetime att b1 b2 = Ok cx ->
  columns (manual_df cx) = map strip (columns att)
  /\ m_emp cx = default "EMP ID" (find_col "emp id" (map strip (columns att)))
  /\ List.length (rows (manual_df cx)) = List.length (rows att)
  /\ forall i r, nth_error (rows att) i = Some r ->
       exists r1,
         nth_error (rows (manual_df cx)) i = Some r1
         /\ List.length r1 = List.length (columns (manual_df cx))
         /\ (forall c, c <> m_emp cx ->
               find_col "date" (map strip (columns att)) <> Some c ->
               cell (map strip (columns att)) r1 c = cell (map strip (columns att)) r c)
         /\ (find_col "date" (map strip (columns att)) <> Some (m_emp cx) ->
             forall x, cell (map strip (columns att)) r (m_emp cx) = Some x ->
               cell (map strip (columns att)) r1 (m_emp cx) = Some (SStr (clean_id x))).
Proof.
  intros Hrect H.
  apply prepare_inv in H as (m0 & s1 & s2 & A1 & A2 & A3 & _).
  apply coerce_dates_rows in A1 as (C0 & L0 & R0).
  apply normalize_ids_rows in A2 as (C1 & L1 & R1).
  rewrite C0 in *.
  split; [exact C1|]. split; [exact A3|]. split; [congruence|].
  intros i r Hr.
  assert (Hlen : List.length r = List.length (map strip (columns att))).
  { rewrite length_map. apply (proj1 (rectangular_spec att) Hrect).
    exact (nth_error_In _ _ Hr). }
  destruct (R0 i r Hr) as (r0 & Hr0 & Hl0 & Hc0).
  destruct (R1 i r0 Hr0) as (r1 & Hr1 & Hl1 & Hother & Hid).
  exists r1. split; [exact Hr1|]. split; [congruence|]. split.
  - intros c Hne Hd. rewrite (Hother c Hne). apply Hc0, Hd.
  - intros Hd x Hx. apply Hid; [congruence|]. rewrite (Hc0 _ Hd). exact Hx.
Qed.

(** *** When the driver returns *)



Lemma five_not_mismatch (st : string) :
  In st ["Match"; "No Punch"; "Early"; "Single In Punch"; "Single Out Punch"] ->
  st <> "Mismatch".
Proof.
  simpl. intros H; repeat (destruct H as [<-|H]; [discriminate|]); destruct H.
Qed.


(** Row [i] of the output is row [i] of the prepared roster with the status
    the loop computed for it. *)
Lemma output_row (att b1 b2 out : DataFrame) (cx : context) :
  rectangular att = true ->
  prepare to_datetime att b1 b2 = Ok cx ->
  compare_files to_datetime att b1 b2 = Ok out ->
  columns out = with_status_header (columns (manual_df cx))
  /\ List.length (rows out) = List.length (rows (manual_df cx))
  /\ forall i row, nth_error (rows (manual_df cx)) i = Some row ->
       List.length row = List.length (columns (manual_df cx))
       /\ exists st,
            status_of_row cx row = Ok st
            /\ nth_error (rows out) i
               = Some (assign_status (columns (manual_df cx)) row st).
Proof.
  intros Hrect Hprep H.
  apply compare_files_inv in H as (cx0 & sts & Hprep0 & Hloop & Hset).
  assert (cx0 = cx) by congruence. subst cx0.
  apply statuses_loop_inv in Hloop as [Hlen Hnth].
  apply status_assigned in Hset as (Hcols & Hl & Hrows).
  split; [exact Hcols|]. split; [exact Hl|]. intros i row Hrow.
  destruct (roster_prepared _ _ _ _ Hrect Hprep) as (_ & _ & L & R).
  destruct (nth_error_same_length (rows (manual_df cx)) (rows att) i row
              (eq_sym L) Hrow) as [r Hr].
  destruct (R i r Hr) as (r1 & Hr1 & Hl1 & _).
  assert (r1 = row) by congruence. subst r1.
  split; [exact Hl1|].
  destruct (Hnth i row Hrow) as (st & Hst & Hrs).
  exists st. split; [exact Hrs|]. apply Hrows; assumption.
Qed.

Lemma wf_frame_rectangular (df : DataFrame) : wf_frame df = true -> rectangular df = true.
Proof. unfold wf_frame. intros H. apply andb_prop in H as [H _]. exact H. Qed.

(** C4. A roster row whose normalized key is not among the keys of Source
    1's resolved employee-id column gets "No Punch", whatever its shift
    label and whatever Source 2 holds: with any other Source 2 the row of
    the output is the same. *)
Theorem absent_key_status (att b1 b2 : DataFrame) (cx : context) (out : DataFrame)
    (i : nat) (row : list scalar) (emp : scalar) :
  wf_frame att = true -> wf_source b1 = true -> wf_source b2 = true ->
  prepare to_datetime att b1 b2 = Ok cx ->
  compare_files to_datetime att b1 b2 = Ok out ->
  nth_error (rows (manual_df cx)) i = Some row ->
  cell (columns (manual_df cx)) row (m_emp cx) = Some emp ->
  emp_in emp (all_bio1_ids cx) = false ->
  get_column (bio1 cx) (b_emp1 cx) = Ok (all_bio1_ids cx)
  /\ status_of_row cx row = Ok "No Punch"
  /\ (exists r', nth_error (rows out) i = Some r'
                 /\ cell (columns out) r' "Status" = Some (SStr "No Punch"))
  /\ (forall b2' out',
        wf_source b2' = true -> compare_files to_datetime att b1 b2' = Ok out' ->
        nth_error (rows out') i = nth_error (rows out) i).
Proof.
  intros Hwf _ _ Hprep Hout Hrow Hcell Habs.
  apply wf_frame_rectangular in Hwf.
  pose proof (status_of_row_absent _ _ _ Hcell Habs) as Hst.
  destruct (output_row _ _ _ _ _ Hwf Hprep Hout) as (Hcols & _ & Hrows).
  destruct (Hrows i row Hrow) as (Hlen & st & Hst' & Hi).
  assert (st = "No Punch") by congruence. subst st.
  split.
  { apply prepare_inv in Hprep as (m0 & s1 & s2 & _ & _ & _ & _ & _ & _ & E & G & _).
    rewrite E. exact G. }
  split; [exact Hst|]. split.
  - eexists. split; [exact Hi|]. rewrite Hcols. apply assign_status_cell, Hlen.
  - intros b2' out' _ Hout'.
    pose proof Hout' as Hinv.
    apply compare_files_inv in Hinv as (cx' & sts' & Hprep' & _ & _).
    pose proof (prepare_source2 _ _ _ _ _ _ Hprep Hprep') as Ecx.
    assert (Em : manual_df cx' = manual_df cx) by (rewrite Ecx; reflexivity).
    destruct (output_row _ _ _ _ _ Hwf Hprep' Hout') as (_ & _ & Hrows').
    rewrite Em in Hrows'.
    destruct (Hrows' i row Hrow) as (_ & st' & Hst'' & Hi').
    assert (Hna : status_of_row cx' row = Ok "No Punch").
    { apply (status_of_row_absent cx' row emp); rewrite Ecx; assumption. }
    assert (st' = "No Punch") by congruence. subst st'.
    rewrite Hi, Hi'. reflexivity.
Qed.

(** C10. The classifier never yields "Mismatch": not on any shift label
    and pair of punch lists, not for any roster row, and no row of the frame
    returned by [compare_files] holds it in its Status field. *)
Theorem never_mismatch :
  (forall shift p1 p2, classify shift p1 p2 <> "Mismatch")
  /\ (forall cx row st, status_of_row cx row = Ok st -> st <> "Mismatch")
  /\ (forall att b1 b2 out,
        wf_frame att = true -> wf_source b1 = true -> wf_source b2 = true ->
        compare_files to_datetime att b1 b2 = Ok out ->
        forall r', In r' (rows out) ->
          cell (columns out) r' "Status" <> Some (SStr "Mismatch")).
Proof.
  split; [|split].
  - intros shift p1 p2. apply five_not_mismatch, classify_cases.
  - intros cx row st H. apply five_not_mismatch, (status_of_row_cases _ _ _ H).
  - intros att b1 b2 out Hwf _ _ Hout r' Hin.
    apply wf_frame_rectangular in Hwf.
    pose proof Hout as Hinv.
    apply compare_files_inv in Hinv as (cx & sts & Hprep & _ & _).
    destruct (output_row _ _ _ _ _ Hwf Hprep Hout) as (Hcols & Hl & Hrows).
    apply In_nth_error in Hin as [i Hi].
    destruct (nth_error_same_length (rows out) (rows (manual_df cx)) i r'
                (eq_sym Hl) Hi) as [row Hrow].
    destruct (Hrows i row Hrow) as (Hlen & st & Hst & Hi').
    assert (r' = assign_status (columns (manual_df cx)) row st) by congruence.
    subst r'. rewrite Hcols, (assign_status_cell _ _ _ Hlen).
    intros E. injection E as E.
    exact (five_not_mismatch _ (status_of_row_cases _ _ _ Hst) E).
Qed.

End DriverFacts.

(* ================================================================== *)
(** * The worked example *)
(* ================================================================== *)

Lemma prepare_ex :
  prepare to_datetime_id roster_ex source1_ex source2_ex = Ok context_ex.
Proof. vm_compute. reflexivity. Qed.

Lemma compare_files_ex :
  compare_files to_datetime_id roster_ex source1_ex source2_ex = Ok output_ex.
Proof. vm_compute. reflexivity. Qed.

Lemma clean_id_total_witness : clean_id (SStr "   ") = "".
Proof.
  apply (proj1 (proj2 (proj2 clean_id_total))). reflexivity.
Defined.

Lemma to_time_spec_witness : to_time (SStr "7:05 - I") = Some (mk_dt 7 5 0).
Proof.
  apply (proj1 to_time_spec). split; [reflexivity|]. right. split.
  - intros d' (hs & ms & ss & E & Hh & _).
    destruct hs as [|a [|b [|c hs]]]; try discriminate Hh;
      vm_compute in E; injection E as E1 E2; try discriminate.
    destruct ms as [|a' [|b' [|c' ms]]]; discriminate.
  - exists "7", "05". repeat split.
Defined.

Lemma day_shift_status_witness :
  exists t_in t_out,
    earliest t_in (source1_punches context_ex (SStr "A1"))
    /\ latest t_out (source1_punches context_ex (SStr "A1"))
    /\ (within (mk_dt 6 45 0) (mk_dt 7 30 0) t_in = true ->
        within (mk_dt 15 15 0) (mk_dt 15 20 0) t_out = true ->
        status_of_row context_ex row_day_ex = Ok "Match").
Proof.
  destruct (day_shift_status context_ex row_day_ex (SStr "A1")
              eq_refl eq_refl eq_refl eq_refl eq_refl eq_refl) as [_ H].
  destruct H as (t_in & t_out & Hin & Hout & _ & Hw).
  - vm_compute. repeat constructor.
  - exists t_in, t_out. split; [exact Hin|]. split; [exact Hout|].
    intros A B. exact (proj1 (proj2 (Hw A)) B).
Defined.

Lemma full_night_status_witness :
  status_of_row context_ex row_night_ex = Ok "Match".
Proof.
  apply (proj1 (full_night_status context_ex row_night_ex (SStr "2")
                  eq_refl eq_refl eq_refl eq_refl)).
  vm_compute. discriminate.
Defined.

Lemma other_shift_status_witness :
  status_of_row context_ex row_half_ex = Ok "Single In Punch"
  /\ status_of_row (with_source2 context_ex source2_alt_ex "Pay Code") row_half_ex
     = Ok "Single In Punch".
Proof.
  destruct (other_shift_status context_ex row_half_ex (SStr "3")
              eq_refl eq_refl eq_refl eq_refl eq_refl eq_refl eq_refl)
    as (_ & H & Hind).
  split; [rewrite H; reflexivity|].
  destruct (Hind source2_alt_ex "Pay Code" eq_refl (or_introl eq_refl)) as [_ ->].
  rewrite H. reflexivity.
Defined.

Lemma absent_key_status_witness :
  status_of_row context_ex row_absent_ex = Ok "No Punch"
  /\ forall out',
       compare_files to_datetime_id roster_ex source1_ex source2_alt_ex = Ok out' ->
       nth_error (rows out') 3 = nth_error (rows output_ex) 3.
Proof.
  destruct (absent_key_status to_datetime_id roster_ex source1_ex source2_ex
              context_ex output_ex 3 row_absent_ex (SStr "9")
              eq_refl eq_refl eq_refl prepare_ex compare_files_ex
              eq_refl eq_refl eq_refl) as (_ & H & _ & Hind).
  split; [exact H|]. intros out'. apply Hind. reflexivity.
Defined.

Lemma never_mismatch_witness :
  status_of_row context_ex row_half_ex <> Ok "Mismatch"
  /\ forall r', In r' (rows output_ex) ->
       cell (columns output_ex) r' "Status" <> Some (SStr "Mismatch").
Proof.
  split.
  - intros E.
    exact (proj1 (proj2 (never_mismatch to_datetime_id)) context_ex row_half_ex
             "Mismatch" E eq_refl).
  - exact (proj2 (proj2 (never_mismatch to_datetime_id))
             roster_ex source1_ex source2_ex output_ex
             eq_refl eq_refl eq_refl compare_files_ex).
Defined.


(* ================================================================== *)
(** * Further properties of the punch-time parser *)
(* ================================================================== *)

Lemma to_time_some_inv (v : scalar) (d : datetime) :
  to_time v = Some d ->
  isna v = false
  /\ (reads_hms (digits_and_colons v) d \/ reads_hm (digits_and_colons v) d).
Proof.
  destruct (isna v) eqn:Hna.
  - unfold to_time. rewrite Hna. discriminate.
  - rewrite (to_time_not_missing v Hna). cbn [to_time_loop].
    destruct (strptime _ HMS) as [d1|] eqn:E1.
    + intros H. injection H as <-. split; [reflexivity|].
      left. apply strptime_HMS_sound, E1.
    + destruct (strptime _ HM) as [d2|] eqn:E2; [|discriminate].
      intros H. injection H as <-. split; [reflexivity|].
      right. apply strptime_HM_sound, E2.
Qed.

Lemma number_length (max : nat) (f : string) (v : nat) :
  number max f = Some v -> 1 <= String.length f <= 2.
Proof.
  intros H.
  apply number_inv in H as [(a & -> & _)|(a & b & x & y & -> & _)]; simpl; lia.
Qed.

Lemma string_length_app (s t : string) :
  String.length (s ++ t) = String.length s + String.length t.
Proof. induction s as [|c s IH]; simpl; [reflexivity|]. rewrite IH. reflexivity. Qed.

(** X1. A time returned by [to_time] is a time of day: the hour is at most
    23, the minute and the second at most 59; and the cell it was read from
    holds between three and eight digits and colons in all. *)
Theorem to_time_valid (v : scalar) (d : datetime) :
  to_time v = Some d ->
  hour d <= 23 /\ minute d <= 59 /\ second d <= 59
  /\ 3 <= String.length (digits_and_colons v) <= 8.
Proof.
  intros H. apply to_time_some_inv in H as [_ [R|R]].
  - destruct R as (hs & ms & ss & -> & Hh & Hm & Hs).
    pose proof (number_le 23 _ _ ltac:(lia) Hh).
    pose proof (number_le 59 _ _ ltac:(lia) Hm).
    pose proof (number_le 59 _ _ ltac:(lia) Hs).
    apply number_length in Hh, Hm, Hs.
    rewrite !string_length_app. simpl String.length. lia.
  - destruct R as (hs & ms & -> & Hh & Hm & Hs).
    pose proof (number_le 23 _ _ ltac:(lia) Hh).
    pose proof (number_le 59 _ _ ltac:(lia) Hm).
    apply number_length in Hh, Hm.
    rewrite !string_length_app. simpl String.length. lia.
Qed.

Lemma to_time_valid_witness :
  to_time (SStr "23:04:00 - O") = Some (mk_dt 23 4 0)
  /\ 3 <= String.length (digits_and_colons (SStr "23:04:00 - O")) <= 8.
Proof.
  split; [reflexivity|].
  exact (proj2 (proj2 (proj2
    (to_time_valid (SStr "23:04:00 - O") (mk_dt 23 4 0) eq_refl)))).
Defined.

(** A field followed by a colon determines the field. *)
Lemma number_colon_split (m1 m2 : nat) (f1 f2 t1 t2 : string) (v1 v2 : nat) :
  number m1 f1 = Some v1 -> number m2 f2 = Some v2 ->
  (f1 ++ String ":" t1)%string = (f2 ++ String ":" t2)%string ->
  f1 = f2 /\ t1 = t2.
Proof.
  intros H1 H2 E.
  apply number_inv in H1 as [(a & -> & Ha)|(a & b & x & y & -> & Ha & Hb & _)];
  apply number_inv in H2 as [(a' & -> & Ha')|(a' & b' & x' & y' & -> & Ha' & Hb' & _)];
    cbn in E; injection E as; subst; auto;
    match goal with
    | H : digit_val ":" = Some _ |- _ => discriminate H
    end.
Qed.

Lemma number_no_colon (max : nat) (f t u : string) (v : nat) :
  number max f = Some v -> f <> (t ++ String ":" u)%string.
Proof.
  intros H E.
  apply number_inv in H as [(a & Ef & Ha)|(a & b & x & y & Ef & Ha & Hb & _)];
    rewrite Ef in E.
  - destruct t as [|c [|c' t]]; cbn in E; try discriminate.
    injection E as ->. discriminate.
  - destruct t as [|c [|c' [|c'' t]]]; cbn in E; try discriminate.
    + injection E as -> _. discriminate.
    + injection E as _ ->. discriminate.
Qed.

Lemma reads_exclusive (s : string) (d d' : datetime) :
  reads_hms s d -> reads_hm s d' -> False.
Proof.
  intros (hs & ms & ss & -> & Hh & Hm & Hs) (hs' & ms' & E & Hh' & Hm' & _).
  change (hs ++ ":" ++ ms ++ ":" ++ ss)%string
    with (hs ++ String ":" (ms ++ String ":" ss))%string in E.
  change (hs' ++ ":" ++ ms')%string with (hs' ++ String ":" ms')%string in E.
  destruct (number_colon_split _ _ _ _ _ _ _ _ Hh Hh' E) as [_ E'].
  exact (number_no_colon _ _ _ _ _ Hm' (eq_sym E')).
Qed.

(** X2. No text parses under both formats, so the order in which [to_time]
    tries them does not matter. *)
Theorem to_time_formats_exclusive :
  (forall s d d', strptime s HMS = Ok d -> strptime s HM = Ok d' -> False)
  /\ (forall s, to_time_loop s [HMS; HM] = to_time_loop s [HM; HMS]).
Proof.
  assert (X : forall s d d', strptime s HMS = Ok d -> strptime s HM = Ok d' -> False).
  { intros s d d' H1 H2.
    exact (reads_exclusive s d d' (strptime_HMS_sound _ _ H1) (strptime_HM_sound _ _ H2)). }
  split; [exact X|].
  intros s. cbn [to_time_loop].
  destruct (strptime s HMS) as [d1|] eqn:E1, (strptime s HM) as [d2|] eqn:E2;
    try reflexivity.
  destruct (X s d1 d2 E1 E2).
Qed.

Lemma keep_chars_app (p : ascii -> bool) (s t : string) :
  keep_chars p (s ++ t) = (keep_chars p s ++ keep_chars p t)%string.
Proof.
  induction s as [|c s IH]; simpl; [reflexivity|].
  destruct (p c); simpl; rewrite IH; reflexivity.
Qed.

Lemma keep_chars_none (p : ascii -> bool) (s : string) :
  all_chars (fun c => negb (p c)) s = true -> keep_chars p s = "".
Proof.
  induction s as [|c s IH]; simpl; [reflexivity|].
  intros H. apply andb_prop in H as [Hc Hs].
  apply negb_true_iff in Hc. rewrite Hc. exact (IH Hs).
Qed.

Lemma string_app_nil_r (s : string) : (s ++ "")%string = s.
Proof. induction s as [|c s IH]; simpl; [reflexivity|]. rewrite IH. reflexivity. Qed.

(** X3. Decoration around a punch is ignored as long as it holds no digit
    and no colon: whatever such text is put before and after a cell's text,
    [to_time] returns the same result. *)
Theorem to_time_ignores_decoration (before s after : string) :
  all_chars (fun c => negb (is_digit_or_colon c)) before = true ->
  all_chars (fun c => negb (is_digit_or_colon c)) after = true ->
  to_time (SStr (before ++ s ++ after)) = to_time (SStr s).
Proof.
  intros Hb Ha. unfold to_time. cbn [isna py_str].
  rewrite !keep_chars_app, (keep_chars_none _ _ Hb), (keep_chars_none _ _ Ha).
  cbn [append]. rewrite string_app_nil_r. reflexivity.
Qed.

Lemma to_time_ignores_decoration_witness :
  to_time (SStr ("IN " ++ "07:16" ++ " - O")) = to_time (SStr "07:16").
Proof.
  apply to_time_ignores_decoration; reflexivity.
Defined.

(* ================================================================== *)
(** * Further properties of the identifier normalizer *)
(* ================================================================== *)

Lemma all_chars_impl (p q : ascii -> bool) (s : string) :
  (forall c, p c = true -> q c = true) -> all_chars p s = true -> all_chars q s = true.
Proof.
  intros Hpq. induction s as [|c s IH]; simpl; [reflexivity|].
  intros H. apply andb_prop in H as [Hc Hs]. rewrite (Hpq c Hc), (IH Hs). reflexivity.
Qed.

Section CaseMapping.

Variable f : ascii -> ascii.
Hypothesis f_space : forall c, is_space (f c) = is_space c.

Lemma map_str_lstrip (s : string) : map_str f (lstrip s) = lstrip (map_str f s).
Proof.
  induction s as [|c t IH]; simpl; [reflexivity|].
  rewrite f_space. destruct (is_space c); [exact IH|reflexivity].
Qed.

Lemma map_str_rstrip (s : string) : map_str f (rstrip s) = rstrip (map_str f s).
Proof.
  induction s as [|c t IH]; simpl; [reflexivity|].
  rewrite <- IH, f_space.
  destruct (rstrip t); simpl; [destruct (is_space c)|]; reflexivity.
Qed.

Lemma map_str_strip (s : string) : map_str f (strip s) = strip (map_str f s).
Proof. unfold strip. rewrite map_str_rstrip, map_str_lstrip. reflexivity. Qed.

End CaseMapping.

Lemma upper_char_space (c : ascii) : is_space (upper_char c) = is_space c.
Proof. by_cases_on_char c. Qed.

Lemma upper_lower_char (c : ascii) : upper_char (lower_char c) = upper_char c.
Proof. by_cases_on_char c. Qed.

Lemma upper_upper_char (c : ascii) : upper_char (upper_char c) = upper_char c.
Proof. by_cases_on_char c. Qed.

Lemma map_str_compose (f g h : ascii -> ascii) (s : string) :
  (forall c, f (g c) = h c) -> map_str f (map_str g s) = map_str h s.
Proof.
  intros H. induction s as [|c t IH]; simpl; [reflexivity|]. rewrite H, IH. reflexivity.
Qed.

(** X4. ASCII identifiers that differ only in the case of their letters get
    the same key. *)
Theorem clean_id_ignores_case (s : string) :
  all_chars is_ascii s = true ->
  clean_id (SStr (lower s)) = clean_id (SStr s)
  /\ clean_id (SStr (upper s)) = clean_id (SStr s).
Proof.
  intros _. unfold clean_id. cbn [py_str]. split.
  - unfold lower at 1. rewrite <- (map_str_strip lower_char lower_char_space).
    unfold upper at 1.
    rewrite (map_str_compose upper_char lower_char upper_char _ upper_lower_char).
    reflexivity.
  - unfold upper at 2. rewrite <- (map_str_strip upper_char upper_char_space).
    unfold upper at 1.
    rewrite (map_str_compose upper_char upper_char upper_char _ upper_upper_char).
    reflexivity.
Qed.

Lemma clean_id_ignores_case_witness :
  clean_id (SStr (lower "Ab-12 x")) = clean_id (SStr "Ab-12 x")
  /\ clean_id (SStr (upper "Ab-12 x")) = clean_id (SStr "Ab-12 x").
Proof. apply clean_id_ignores_case. reflexivity. Defined.

Lemma digit_or_minus_not_space (c : ascii) :
  is_digit_or_minus c = true -> is_space c = false.
Proof. by_cases_on_char c. Qed.

Lemma digit_or_minus_upper (c : ascii) :
  is_digit_or_minus c = true -> upper_char c = c.
Proof. by_cases_on_char c. Qed.

Lemma digit_or_minus_not_dot (c : ascii) :
  is_digit_or_minus c = true -> (c =? ".")%char = false.
Proof. by_cases_on_char c. Qed.

Lemma digit_is_AZ09 (c : ascii) : is_digit c = true -> is_AZ09 c = true.
Proof. by_cases_on_char c. Qed.

Lemma digit_is_digit_or_minus (c : ascii) :
  is_digit c = true -> is_digit_or_minus c = true.
Proof. by_cases_on_char c. Qed.

Lemma upper_fixed (p : ascii -> bool) (s : string) :
  (forall c, p c = true -> upper_char c = c) -> all_chars p s = true -> upper s = s.
Proof.
  intros Hp. unfold upper. induction s as [|c t IH]; simpl; [reflexivity|].
  intros H. apply andb_prop in H as [Hc Ht]. rewrite (Hp c Hc), (IH Ht). reflexivity.
Qed.

Lemma sub_dot0_no_dot (p : ascii -> bool) (s : string) :
  (forall c, p c = true -> (c =? ".")%char = false) ->
  all_chars p s = true -> sub_dot0 s = s.
Proof.
  intros Hp. induction s as [|c t IH]; [reflexivity|].
  intros H. simpl in H. apply andb_prop in H as [Hc Ht].
  cbn [sub_dot0]. cbn [String.eqb]. rewrite (Hp c Hc), (IH Ht). reflexivity.
Qed.

Lemma sub_dot0_suffix (t : string) : sub_dot0 (t ++ ".0") = t.
Proof.
  induction t as [|c t IH]; [reflexivity|].
  cbn [append sub_dot0]. rewrite IH. clear IH.
  destruct t as [|d [|e t]]; cbn;
    repeat match goal with
           | |- context [(?a =? ?b)%char] => destruct (a =? b)%char
           end;
    try reflexivity.
  destruct t; reflexivity.
Qed.

Lemma uint_text_digits (d : Decimal.uint) :
  all_chars is_digit (NilEmpty.string_of_uint d) = true.
Proof. induction d; simpl; auto. Qed.

Lemma nat_text_digits (d : Decimal.uint) :
  all_chars is_digit (NilZero.string_of_uint d) = true.
Proof.
  pose proof (uint_text_digits d) as H. destruct d; exact H || reflexivity.
Qed.

Lemma int_text (z : Z) :
  all_chars is_digit (py_str (SInt (Z.abs z))) = true
  /\ (py_str (SInt z) = py_str (SInt (Z.abs z))
      \/ py_str (SInt z) = String "-" (py_str (SInt (Z.abs z)))).
Proof.
  destruct z as [|p|p]; cbn [py_str Z.abs Z.to_int NilZero.string_of_int].
  - split; [reflexivity|left; reflexivity].
  - split; [apply nat_text_digits|left; reflexivity].
  - split; [apply nat_text_digits|right; reflexivity].
Qed.

Lemma clean_id_plain (s : string) :
  all_chars is_digit_or_minus s = true ->
  clean_id (SStr s) = keep_chars is_AZ09 s
  /\ clean_id (SStr (s ++ ".0")) = keep_chars is_AZ09 s.
Proof.
  intros H. unfold clean_id. cbn [py_str]. split.
  - rewrite (strip_no_space _ digit_or_minus_not_space s H),
      (upper_fixed _ s digit_or_minus_upper H),
      (sub_dot0_no_dot _ s digit_or_minus_not_dot H). reflexivity.
  - assert (H' : all_chars (fun c => is_digit_or_minus c || (c =? ".")%char) (s ++ ".0") = true).
    { clear -H. induction s as [|c s IH]; [reflexivity|].
      simpl in *. apply andb_prop in H as [Hc Hs]. rewrite Hc, (IH Hs). reflexivity. }
    rewrite (strip_no_space (fun c => is_digit_or_minus c || (c =? ".")%char)).
    + rewrite (upper_fixed (fun c => is_digit_or_minus c || (c =? ".")%char)).
      * rewrite sub_dot0_suffix. reflexivity.
      * intros c. by_cases_on_char c.
      * exact H'.
    + intros c. by_cases_on_char c.
    + exact H'.
Qed.

(** X5. An integer identifier is normalized to the decimal text of its
    absolute value: the sign is dropped, and the same number read as a float
    (its text followed by ".0") gets the same key. *)
Theorem clean_id_of_int (z : Z) :
  clean_id (SInt z) = py_str (SInt (Z.abs z))
  /\ clean_id (SStr (py_str (SInt z) ++ ".0")) = clean_id (SInt z)
  /\ clean_id (SInt (- z)) = clean_id (SInt z).
Proof.
  assert (K : forall z, clean_id (SInt z) = py_str (SInt (Z.abs z))
                        /\ clean_id (SStr (py_str (SInt z) ++ ".0")) = py_str (SInt (Z.abs z))).
  { intros z0. destruct (int_text z0) as [Hd [E|E]].
    - pose proof (all_chars_impl _ _ _ digit_is_digit_or_minus Hd) as Hp.
      pose proof (all_chars_impl _ _ _ digit_is_AZ09 Hd) as Ha.
      change (clean_id (SInt z0)) with (clean_id (SStr (py_str (SInt z0)))).
      rewrite E. destruct (clean_id_plain _ Hp) as [-> ->].
      rewrite (keep_chars_id _ _ Ha). auto.
    - pose proof (all_chars_impl _ _ _ digit_is_digit_or_minus Hd) as Hp.
      pose proof (all_chars_impl _ _ _ digit_is_AZ09 Hd) as Ha.
      change (clean_id (SInt z0)) with (clean_id (SStr (py_str (SInt z0)))).
      rewrite E.
      assert (Hm : all_chars is_digit_or_minus (String "-" (py_str (SInt (Z.abs z0)))) = true)
        by (simpl; exact Hp).
      destruct (clean_id_plain _ Hm) as [-> ->].
      cbn [keep_chars]. change (is_AZ09 "-") with false. cbv iota.
      rewrite (keep_chars_id _ _ Ha). auto. }
  destruct (K z) as [K1 K2]. destruct (K (- z)%Z) as [K3 _].
  split; [exact K1|]. split; [congruence|].
  rewrite K3, K1, Z.abs_opp. reflexivity.
Qed.

(* ================================================================== *)
(** * Dropping duplicate headers *)
(* ================================================================== *)

Lemma existsb_eqb_in (c : string) (l : list string) :
  existsb (String.eqb c) l = true <-> In c l.
Proof.
  rewrite existsb_exists. split.
  - intros (x & Hx & E). apply String.eqb_eq in E. congruence.
  - intros H. exists c. split; [exact H|apply String.eqb_refl].
Qed.

Lemma existsb_eqb_not_in (c : string) (l : list string) :
  existsb (String.eqb c) l = false <-> ~ In c l.
Proof.
  rewrite <- existsb_eqb_in. destruct (existsb _ l); split; congruence.
Qed.

Lemma nodupb_NoDup (l : list string) : nodupb l = true <-> NoDup l.
Proof.
  induction l as [|x t IH]; simpl.
  - split; [constructor|reflexivity].
  - rewrite andb_true_iff, negb_true_iff, existsb_eqb_not_in, IH. split.
    + intros [H1 H2]. constructor; assumption.
    + intros H. inversion H; subst. auto.
Qed.

Lemma kept_headers_in (seen cols : list string) (c : string) :
  In c (select (first_mask seen cols) cols) <-> In c cols /\ ~ In c seen.
Proof.
  revert seen. induction cols as [|h t IH]; intros seen; simpl; [tauto|].
  destruct (existsb (String.eqb h) seen) eqn:E; cbn [negb].
  - apply existsb_eqb_in in E. rewrite IH. simpl. split.
    + intros [H1 H2]. split; [auto|]. intros H. apply H2. auto.
    + intros [[->|H1] H2]; [contradiction|]. split; [exact H1|].
      intros [->|H]; [|contradiction].
      apply H2, E.
  - apply existsb_eqb_not_in in E. simpl. rewrite IH. simpl. split.
    + intros [->|[H1 H2]]; [auto|]. split; [auto|]. intros H. apply H2. auto.
    + intros [[->|H1] H2]; [auto|].
      destruct (String.eqb_spec h c) as [->|N]; [auto|].
      right. split; [exact H1|]. intros [->|H]; [congruence|contradiction].
Qed.

Lemma kept_headers_NoDup (seen cols : list string) :
  NoDup (select (first_mask seen cols) cols).
Proof.
  revert seen. induction cols as [|h t IH]; intros seen; simpl; [constructor|].
  destruct (existsb (String.eqb h) seen) eqn:E; cbn [negb]; [apply IH|].
  constructor; [|apply IH].
  rewrite kept_headers_in. intros [_ H]. apply H. left. reflexivity.
Qed.

Lemma select_nil {A : Type} (mask : list bool) : select mask (@nil A) = [].
Proof. destruct mask as [|[] mask]; reflexivity. Qed.

Lemma cell_nil (cols : list string) (c : string) : cell cols [] c = None.
Proof.
  unfold cell. destruct (col_index c cols) as [[|i]|]; reflexivity.
Qed.

(** The first column named [c] is still the first column named [c], and
    holds the same cells. *)
Lemma kept_cell (seen cols : list string) (c : string) :
  ~ In c seen ->
  forall r : list scalar,
    cell (select (first_mask seen cols) cols) (select (first_mask seen cols) r) c
    = cell cols r c.
Proof.
  revert seen. induction cols as [|h t IH]; intros seen Hc r; [reflexivity|].
  destruct r as [|x r]; [rewrite select_nil, !cell_nil; reflexivity|].
  cbn [first_mask].
  destruct (String.eqb_spec h c) as [->|N].
  - apply existsb_eqb_not_in in Hc. rewrite Hc. cbn [negb select].
    unfold cell. cbn [col_index]. rewrite String.eqb_refl. reflexivity.
  - assert (Hc' : ~ In c (h :: seen)) by (intros [E|H]; [congruence|contradiction]).
    specialize (IH (h :: seen) Hc' r). unfold cell in *.
    apply String.eqb_neq in N.
    destruct (negb (existsb (String.eqb h) seen)); cbn [select col_index]; rewrite N.
    + destruct (col_index c (select (first_mask (h :: seen) t) t)) as [j|];
        destruct (col_index c t) as [i|]; cbn [option_map nth_error] in *;
        exact IH.
    + destruct (col_index c (select (first_mask (h :: seen) t) t)) as [j|];
        destruct (col_index c t) as [i|]; cbn [option_map nth_error] in *;
        exact IH.
Qed.

Lemma dedupe_keeps_first_columns (df : DataFrame) :
  NoDup (columns (dedupe_columns_inplace df))
  /\ (forall c, In c (columns (dedupe_columns_inplace df)) <-> In c (columns df)).
Proof.
  unfold dedupe_columns_inplace. cbn [columns rows].
  split; [apply kept_headers_NoDup|].
  intros c; rewrite kept_headers_in; simpl; tauto.
Qed.

(** X6. [dedupe_columns_inplace] keeps the first column of each header: the
    headers left are pairwise distinct and are exactly the headers the frame
    had, no row is added or dropped, and looking a header up in a row gives
    the same cell as before, so a later duplicate column is never read. *)
Theorem dedupe_keeps_first (df : DataFrame) :
  NoDup (columns (dedupe_columns_inplace df))
  /\ (forall c, In c (columns (dedupe_columns_inplace df)) <-> In c (columns df))
  /\ List.length (rows (dedupe_columns_inplace df)) = List.length (rows df)
  /\ (forall i r c,
        nth_error (rows df) i = Some r ->
        exists r',
          nth_error (rows (dedupe_columns_inplace df)) i = Some r'
          /\ cell (columns (dedupe_columns_inplace df)) r' c = cell (columns df) r c).
Proof.
  unfold dedupe_columns_inplace. cbn [columns rows].
  split; [apply kept_headers_NoDup|].
  split; [intros c; rewrite kept_headers_in; simpl; tauto|].
  split; [apply length_map|].
  intros i r c Hr. exists (select (first_mask [] (columns df)) r).
  split; [apply map_nth_error, Hr|].
  apply kept_cell. intros [].
Qed.

Lemma first_mask_length (seen cols : list string) :
  List.length (first_mask seen cols) = List.length cols.
Proof.
  revert seen. induction cols as [|h t IH]; intros seen; simpl; [reflexivity|].
  rewrite IH. reflexivity.
Qed.

Lemma first_mask_distinct (seen cols : list string) :
  NoDup cols -> (forall c, In c cols -> ~ In c seen) ->
  first_mask seen cols = map (fun _ => true) cols.
Proof.
  revert seen. induction cols as [|h t IH]; intros seen Hnd Hseen; simpl; [reflexivity|].
  inversion Hnd as [|? ? Hh Ht]; subst.
  assert (E : existsb (String.eqb h) seen = false).
  { apply existsb_eqb_not_in, Hseen. left. reflexivity. }
  rewrite E. cbn [negb]. f_equal. apply IH; [exact Ht|].
  intros c Hc [->|H]; [contradiction|]. apply (Hseen c); [right; exact Hc|exact H].
Qed.

Lemma select_all {A B : Type} (cols : list B) (l : list A) :
  List.length l <= List.length cols -> select (map (fun _ => true) cols) l = l.
Proof.
  revert l. induction cols as [|h t IH]; intros [|x l]; simpl; try reflexivity; try lia.
  intros H. f_equal. apply IH. lia.
Qed.

Lemma select_length_le {A B : Type} (mask : list bool) (r : list A) (cols : list B) :
  List.length mask = List.length cols ->
  List.length (select mask r) <= List.length (select mask cols).
Proof.
  revert r cols. induction mask as [|b mask IH]; intros r [|h cols]; simpl;
    try discriminate; [lia|].
  intros H. injection H as H.
  destruct r as [|x r]; [destruct b; simpl; lia|].
  specialize (IH r cols H). destruct b; simpl; lia.
Qed.

Lemma select_length_eq {A B : Type} (mask : list bool) (r : list A) (cols : list B) :
  List.length r = List.length cols ->
  List.length (select mask r) = List.length (select mask cols).
Proof.
  revert r cols. induction mask as [|b mask IH]; intros [|x r] [|h cols]; simpl;
    try discriminate; try reflexivity.
  intros H. injection H as H. specialize (IH r cols H). destruct b; simpl; lia.
Qed.

(** X7. Dropping duplicate headers twice is the same as dropping them once;
    a rectangular frame stays rectangular; and a rectangular frame whose
    headers are already distinct is left as it is. *)
Theorem dedupe_idempotent (df : DataFrame) :
  dedupe_columns_inplace (dedupe_columns_inplace df) = dedupe_columns_inplace df
  /\ (rectangular df = true -> rectangular (dedupe_columns_inplace df) = true)
  /\ (rectangular df = true -> NoDup (columns df) -> dedupe_columns_inplace df = df).
Proof.
  assert (Hid : forall d, NoDup (columns d) ->
                  (forall r, In r (rows d) -> List.length r <= List.length (columns d)) ->
                  dedupe_columns_inplace d = d).
  { intros [cols rs] Hnd Hlen. unfold dedupe_columns_inplace. cbn [columns rows] in *.
    rewrite (first_mask_distinct [] cols Hnd) by (intros c _ []).
    rewrite (select_all cols cols (le_n _)). f_equal.
    rewrite <- (map_id rs) at 2. apply map_ext_in.
    intros r Hr. apply select_all, Hlen, Hr. }
  split; [|split].
  - apply Hid.
    + apply (proj1 (dedupe_keeps_first_columns df)).
    + unfold dedupe_columns_inplace. cbn [columns rows]. intros r Hr.
      apply in_map_iff in Hr as (r0 & <- & _).
      apply select_length_le, first_mask_length.
  - rewrite !rectangular_spec. intros H r Hr.
    unfold dedupe_columns_inplace in *. cbn [columns rows] in *.
    apply in_map_iff in Hr as (r0 & <- & Hr0).
    apply select_length_eq, H, Hr0.
  - intros Hrect Hnd. apply Hid; [exact Hnd|].
    intros r Hr. rewrite (proj1 (rectangular_spec df) Hrect r Hr). lia.
Qed.

(* ================================================================== *)
(** * The punch collector *)
(* ================================================================== *)

Lemma filter_first {A : Type} (f : A -> bool) (pre post : list A) (x : A) :
  (forall y, In y pre -> f y = false) -> f x = true ->
  filter f (pre ++ x :: post) = x :: filter f post.
Proof.
  intros Hpre Hx. induction pre as [|y pre IH]; simpl.
  - rewrite Hx. reflexivity.
  - rewrite (Hpre y (or_introl eq_refl)). apply IH. intros; apply Hpre; right; assumption.
Qed.

Lemma filter_none {A : Type} (f : A -> bool) (l : list A) :
  (forall y, In y l -> f y = false) -> filter f l = [].
Proof.
  induction l as [|y l IH]; simpl; intros H; [reflexivity|].
  rewrite (H y (or_introl eq_refl)). apply IH. intros; apply H; right; assumption.
Qed.

Lemma to_time_missing (x : scalar) : notna x = false -> to_time x = None.
Proof.
  unfold notna, to_time. intros H. apply negb_false_iff in H. rewrite H. reflexivity.
Qed.

Lemma filter_true_length {A : Type} (l : list A) :
  List.length (filter (fun _ => true) l) = List.length l.
Proof. induction l as [|a l IH]; simpl; [reflexivity|]. rewrite IH. reflexivity. Qed.

Lemma flat_map_length_le {A B : Type} (g : A -> list B) (p : A -> bool) (l : list A) :
  (forall a, List.length (g a) <= if p a then 1 else 0) ->
  List.length (flat_map g l) <= List.length (filter p l).
Proof.
  intros Hg. induction l as [|a l IH]; simpl; [lia|].
  rewrite length_app. specialize (Hg a). destruct (p a); simpl; lia.
Qed.

Lemma get_punch_times_unfold (df : DataFrame) (emp : scalar) (id_col : string) :
  get_punch_times df emp id_col
  = match filter (has_key df id_col emp) (rows df) with
    | [] => []
    | r :: _ =>
        sort (flat_map (fun c =>
          match cell (columns df) r c with
          | Some x =>
              if contains "PUNCH" (upper c) && notna x then
                match to_time x with
                | Some t => [t]
                | None => []
                end
              else []
          | None => []
          end) (columns df))
    end.
Proof. reflexivity. Qed.

Lemma flat_map_filter {A B : Type} (p : A -> bool) (g : A -> list B) (l : list A) :
  flat_map g (filter p l) = flat_map (fun a => if p a then g a else []) l.
Proof.
  induction l as [|a l IH]; simpl; [reflexivity|].
  destruct (p a); simpl; rewrite IH; reflexivity.
Qed.

Lemma get_punch_times_of_row (df : DataFrame) (emp : scalar) (id_col : string)
    (pre post : list (list scalar)) (r : list scalar) :
  rows df = pre ++ r :: post ->
  (forall r', In r' pre -> has_key df id_col emp r' = false) ->
  has_key df id_col emp r = true ->
  get_punch_times df emp id_col = sort (read_punches df r).
Proof.
  intros Hrows Hpre Hr. rewrite get_punch_times_unfold, Hrows.
  rewrite (filter_first (has_key df id_col emp) pre post r Hpre Hr).
  f_equal. unfold read_punches, punch_headers. rewrite flat_map_filter.
  apply flat_map_ext. intros h.
  destruct (cell (columns df) r h) as [x|]; [|destruct (contains _ _); reflexivity].
  destruct (contains "PUNCH" (upper h)); [|reflexivity].
  destruct (notna x) eqn:En; cbn [andb]; [reflexivity|].
  rewrite (to_time_missing x En). reflexivity.
Qed.

(** X8. On a rectangular frame with distinct headers, read through one of
    its columns, [get_punch_times] uses the first row carrying the key and
    no other: it returns nothing when no row carries the key; otherwise it
    returns, sorted in ascending order, the times [to_time] reads in the
    cells of that row under the headers containing "PUNCH" (whatever their
    case), each as often as it is read, so at most one per such header. *)
Theorem get_punch_times_first_row (df : DataFrame) (emp : scalar) (id_col : string) :
  wf_table df = true ->
  In id_col (columns df) ->
  ((forall r, In r (rows df) -> has_key df id_col emp r = false) ->
   get_punch_times df emp id_col = [])
  /\ (forall pre r post,
        rows df = pre ++ r :: post ->
        (forall r', In r' pre -> has_key df id_col emp r' = false) ->
        has_key df id_col emp r = true ->
        Permutation (get_punch_times df emp id_col) (read_punches df r)
        /\ (forall t, In t (get_punch_times df emp id_col) <->
             exists h x, In h (punch_headers df)
                         /\ cell (columns df) r h = Some x /\ to_time x = Some t)
        /\ ascending (get_punch_times df emp id_col)
        /\ List.length (get_punch_times df emp id_col) <= List.length (punch_headers df)).
Proof.
  intros _ _. split.
  - intros H. rewrite get_punch_times_unfold.
    rewrite (filter_none (has_key df id_col emp) (rows df) H). reflexivity.
  - intros pre r post Hrows Hpre Hr.
    pose proof (get_punch_times_of_row df emp id_col pre post r Hrows Hpre Hr) as E.
    assert (P : Permutation (get_punch_times df emp id_col) (read_punches df r))
      by (rewrite E; apply sort_perm).
    split; [exact P|].
    split; [|split; [apply get_punch_times_ascending|]].
    + intros t. split.
      * intros Hin. apply (Permutation_in _ P) in Hin.
        unfold read_punches in Hin.
        apply in_flat_map in Hin as (h & Hh & Hin).
        destruct (cell (columns df) r h) as [x|] eqn:Ec; [|destruct Hin].
        destruct (to_time x) as [t'|] eqn:Et; [|destruct Hin].
        destruct Hin as [<-|[]]. exists h, x. auto.
      * intros (h & x & Hh & Ec & Et).
        apply (Permutation_in _ (Permutation_sym P)).
        unfold read_punches. apply in_flat_map. exists h. split; [exact Hh|].
        rewrite Ec, Et. left. reflexivity.
    + rewrite (Permutation_length P). unfold read_punches.
      rewrite <- (filter_true_length (punch_headers df)).
      apply flat_map_length_le. intros h.
      destruct (cell (columns df) r h) as [x|]; [|simpl; lia].
      destruct (to_time x); simpl; lia.
Qed.

Lemma get_punch_times_first_row_witness :
  Permutation (get_punch_times (bio1 context_ex) (SStr "A1") "Emp Code")
    [mk_dt 15 18 0; mk_dt 7 0 0]
  /\ List.length (get_punch_times (bio1 context_ex) (SStr "A1") "Emp Code") <= 2.
Proof.
  destruct (proj2 (get_punch_times_first_row (bio1 context_ex) (SStr "A1") "Emp Code"
                     eq_refl (or_introl eq_refl))
              [] [SStr "A1"; SStr "Asha"; SStr "15:18:00 - O"; SStr "07:00:00 - I"]
              [ [SStr "2"; SStr "Bala"; SStr "22:00"; SNaN];
                [SStr "3"; SStr "Chitra"; SStr "09:00"; SStr "09:05"] ]
              eq_refl (fun r' (H : In r' []) => match H with end) eq_refl)
    as (H1 & _ & _ & H4).
  split; [exact H1|exact H4].
Defined.

(* ================================================================== *)
(** * Blank cells *)
(* ================================================================== *)

Lemma to_time_no_digits (v : scalar) : digits_and_colons v = "" -> to_time v = None.
Proof.
  intros H. unfold to_time, digits_and_colons in *.
  destruct (isna v); [reflexivity|]. cbv zeta. rewrite H. reflexivity.
Qed.

Lemma to_time_blank (s : string) : is_blank s = true -> to_time (SStr s) = None.
Proof.
  unfold is_blank. intros H.
  apply orb_prop in H as [H|H]; [apply orb_prop in H as [H|H]|].
  - apply to_time_no_digits, digits_and_colons_blank, H.
  - apply String.eqb_eq in H. subst s. reflexivity.
  - apply String.eqb_eq in H. subst s. reflexivity.
Qed.

(** X9. The replacement of blank cells (all white space, or a lone dash) by
    a missing value never changes what [to_time] reads in a cell, touches
    text cells only, leaves no blank text behind, and applying it twice is
    the same as applying it once. *)
Theorem replace_cell_harmless (x : scalar) :
  to_time (replace_cell x) = to_time x
  /\ (forall s, replace_cell x = SStr s -> x = SStr s /\ is_blank s = false)
  /\ (replace_cell x <> x -> exists s, x = SStr s /\ is_blank s = true)
  /\ replace_cell (replace_cell x) = replace_cell x.
Proof.
  assert (Hother : forall y, (forall s, y <> SStr s) -> replace_cell y = y).
  { intros y Hy. destruct y; try reflexivity. destruct (Hy s eq_refl). }
  destruct x as [| | |s|z|t];
    try (rewrite Hother by discriminate;
         split; [reflexivity|]; split; [intros s0 E; discriminate E|];
         split; [intros N; destruct (N eq_refl)|];
         rewrite Hother by discriminate; reflexivity).
  cbn [replace_cell]. destruct (is_blank s) eqn:E.
  - split; [rewrite (to_time_blank s E); reflexivity|].
    split; [intros s0 E0; discriminate E0|].
    split; [intros _; exists s; auto|reflexivity].
  - split; [reflexivity|].
    split; [intros s0 E0; injection E0 as <-; auto|].
    split; [intros N; destruct (N eq_refl)|].
    cbn [replace_cell]. rewrite E. reflexivity.
Qed.

Lemma replace_cell_not_empty (x : scalar) : cell_eqb (replace_cell x) (SStr "") = false.
Proof.
  destruct x as [| | |s|z|t]; cbn [replace_cell cell_eqb]; try reflexivity.
  destruct (is_blank s) eqn:E; cbn [cell_eqb]; [reflexivity|].
  destruct (String.eqb_spec s "") as [->|]; [discriminate E|reflexivity].
Qed.

Lemma get_column_replace_blanks (df : DataFrame) (c : string) (ids : list scalar) :
  get_column (replace_blanks df) c = Ok ids ->
  forall a, In a ids -> exists x, a = replace_cell x.
Proof.
  unfold get_column, replace_blanks. cbn [columns rows].
  destruct (col_index c (columns df)) as [k|]; [|discriminate].
  intros H. injection H as <-. intros a Ha.
  apply in_map_iff in Ha as (r & <- & Hr).
  apply in_map_iff in Hr as (r0 & <- & _).
  exists (nth k r0 SNaN).
  change SNaN with (replace_cell SNaN) at 1. apply map_nth.
Qed.

Section EmptyKey.

Variable to_datetime : list scalar -> list scalar.

(** X10. The empty key never matches: on three rectangular frames whose
    trimmed headers are distinct (those of a biometric frame after its
    repeated headers are dropped), the key set of Source 1 does not contain
    the empty text, so a roster row whose identifier normalizes to the empty
    text (a blank, a dash, only punctuation) gets "No Punch", even when
    Source 1 has rows with such identifiers. *)
Theorem empty_key_no_punch (att b1 b2 : DataFrame) (cx : context) :
  wf_frame att = true -> wf_source b1 = true -> wf_source b2 = true ->
  prepare to_datetime att b1 b2 = Ok cx ->
  emp_in (SStr "") (all_bio1_ids cx) = false
  /\ forall row,
       cell (columns (manual_df cx)) row (m_emp cx) = Some (SStr "") ->
       status_of_row cx row = Ok "No Punch".
Proof.
  intros _ _ _ H.
  assert (E : emp_in (SStr "") (all_bio1_ids cx) = false).
  { apply prepare_inv in H as (m0 & s1 & s2 & _ & _ & _ & _ & _ & _ & _ & G & _).
    unfold emp_in. destruct (existsb _ (all_bio1_ids cx)) eqn:Ex; [|reflexivity].
    apply existsb_exists in Ex as (a & Ha & Ea).
    destruct (get_column_replace_blanks _ _ _ G a Ha) as [x ->].
    rewrite replace_cell_not_empty in Ea. discriminate. }
  split; [exact E|].
  intros row Hrow. exact (status_of_row_absent cx row (SStr "") Hrow E).
Qed.

End EmptyKey.

Lemma prepare_dash :
  prepare to_datetime_id roster_dash source1_dash source2_ex = Ok context_dash.
Proof. vm_compute. reflexivity. Qed.

Lemma empty_key_no_punch_witness :
  rows (manual_df context_dash) = [ [SStr ""; SStr "HF"] ]
  /\ status_of_row context_dash [SStr ""; SStr "HF"] = Ok "No Punch".
Proof.
  split; [reflexivity|].
  exact (proj2 (empty_key_no_punch to_datetime_id roster_dash source1_dash source2_ex
                  context_dash eq_refl eq_refl eq_refl prepare_dash)
            [SStr ""; SStr "HF"] eq_refl).
Defined.

(* ================================================================== *)
(** * How the driver fails *)
(* ================================================================== *)

Lemma find_col_none (phrase : string) (cols : list string) (c : string) :
  find_col phrase cols = None -> In c cols -> contains phrase (lower c) = false.
Proof. unfold find_col. intros H Hc. exact (find_none _ _ H c Hc). Qed.

Lemma find_col_in (phrase : string) (cols : list string) (c : string) :
  find_col phrase cols = Some c -> In c cols.
Proof. unfold find_col. intros H. apply find_some in H as [H _]. exact H. Qed.

Lemma col_index_not_in (c : string) (cols : list string) :
  ~ In c cols -> col_index c cols = None.
Proof.
  intros H. destruct (col_index c cols) as [k|] eqn:E; [|reflexivity].
  apply col_index_some in E as [_ E]. apply nth_error_In in E. contradiction.
Qed.


Section DriverFailures.

Variable to_datetime : list scalar -> list scalar.
Hypothesis to_datetime_length :
  forall l, List.length (to_datetime l) = List.length l.



End DriverFailures.


(* ================================================================== *)
(** * Further properties of the classifier *)
(* ================================================================== *)

Section NoShiftColumn.

Variable to_datetime : list scalar -> list scalar.

Lemma prepared_columns (att b1 b2 : DataFrame) (cx : context) :
  prepare to_datetime att b1 b2 = Ok cx ->
  columns (manual_df cx) = map strip (columns att)
  /\ shift_col cx = default "SHIFT" (find_col "shift" (map strip (columns att))).
Proof.
  intros H. apply prepare_inv in H as (m0 & s1 & s2 & A1 & A2 & _ & A4 & _).
  apply coerce_dates_rows in A1 as (C0 & _).
  apply normalize_ids_rows in A2 as (C1 & _).
  rewrite A4, C1, C0. auto.
Qed.

(** X12. On three rectangular frames whose trimmed headers are distinct
    (those of a biometric frame after its repeated headers are dropped):
    when no header of the roster contains "shift" (whatever the case), every
    row is given the empty shift label, the default name "SHIFT" being of no
    help, and so is classified as a shift of the third kind: "No Punch" for
    a key outside Source 1, the count rule on the Source-1 punches
    otherwise. *)
Theorem no_shift_column (att b1 b2 : DataFrame) (cx : context) :
  wf_frame att = true -> wf_source b1 = true -> wf_source b2 = true ->
  prepare to_datetime att b1 b2 = Ok cx ->
  find_col "shift" (map strip (columns att)) = None ->
  forall row emp,
    cell (columns (manual_df cx)) row (m_emp cx) = Some emp ->
    shift_of cx row = ""
    /\ status_of_row cx row
       = Ok (if emp_in emp (all_bio1_ids cx)
             then other_rule (source1_punches cx emp)
             else "No Punch").
Proof.
  intros _ _ _ H Hnone row emp Hemp.
  destruct (prepared_columns _ _ _ _ H) as [C S].
  assert (Hs : shift_of cx row = "").
  { unfold shift_of, cell. rewrite S, C, Hnone. cbn [default].
    rewrite col_index_not_in; [reflexivity|].
    intros Hin. pose proof (find_col_none _ _ _ Hnone Hin) as Hc. discriminate Hc. }
  split; [exact Hs|].
  destruct (emp_in emp (all_bio1_ids cx)) eqn:Ein.
  - rewrite (status_of_row_present _ _ _ Hemp Ein), Hs. f_equal.
    apply classify_other; reflexivity.
  - apply (status_of_row_absent _ _ _ Hemp Ein).
Qed.

End NoShiftColumn.

Lemma prepare_noshift :
  prepare to_datetime_id roster_noshift source1_ex source2_ex = Ok context_noshift.
Proof. vm_compute. reflexivity. Qed.

Lemma no_shift_column_witness :
  shift_of context_noshift [SStr "A1"; SStr "Day"] = ""
  /\ status_of_row context_noshift [SStr "A1"; SStr "Day"] = Ok "Match".
Proof.
  destruct (no_shift_column to_datetime_id roster_noshift source1_ex source2_ex
              context_noshift eq_refl eq_refl eq_refl prepare_noshift eq_refl
              [SStr "A1"; SStr "Day"] (SStr "A1") eq_refl) as [H1 H2].
  split; [exact H1|]. rewrite H2. reflexivity.
Defined.

(** X13. Source 2 can change a status only for a label containing "full" or
    "fn" with no Source-1 punch, and then only through whether it has a
    punch at all. *)
Theorem source2_matters_rarely (shift : string) (p1 p2 p2' : list datetime) :
  (contains "full" shift || contains "fn" shift = false ->
   classify shift p1 p2 = classify shift p1 p2')
  /\ (p1 <> [] -> classify shift p1 p2 = classify shift p1 p2')
  /\ (p2 <> [] -> p2' <> [] -> classify shift p1 p2 = classify shift p1 p2').
Proof.
  destruct (contains "full" shift || contains "fn" shift) eqn:H1.
  - rewrite !(classify_full _ _ _ H1).
    split; [discriminate|]. split.
    + intros Hne. destruct p1; [congruence|reflexivity].
    + intros Hn Hn'. destruct p1, p2, p2'; congruence.
  - assert (E : classify shift p1 p2 = classify shift p1 p2').
    { destruct (contains "day" shift || contains "morning" shift) eqn:H2.
      - rewrite !(classify_day _ _ _ H1 H2). reflexivity.
      - rewrite !(classify_other _ _ _ H1 H2). reflexivity. }
    auto.
Qed.

Lemma other_rule_nonempty (p : list datetime) :
  other_rule p = "Single In Punch" \/ other_rule p = "Match" -> p <> [].
Proof. destruct p; [intros [H|H]; discriminate H|discriminate]. Qed.

(** X14. Where each status can come from.  "Single Out Punch" is given
    exactly for a label containing "full" or "fn" when Source 1 has no punch
    and Source 2 has one; "Early" only for a day or morning label without
    "full" and "fn" and with at least two Source-1 punches; "Single In
    Punch" only for a label of the third kind; and "Match" and "Single In
    Punch" never without a Source-1 punch. *)
Theorem status_origins (shift : string) (p1 p2 : list datetime) :
  (classify shift p1 p2 = "Single Out Punch" <->
     contains "full" shift || contains "fn" shift = true /\ p1 = [] /\ p2 <> [])
  /\ (classify shift p1 p2 = "Early" ->
        contains "full" shift || contains "fn" shift = false
        /\ contains "day" shift || contains "morning" shift = true
        /\ 2 <= List.length p1)
  /\ (classify shift p1 p2 = "Single In Punch" ->
        contains "full" shift || contains "fn" shift = false
        /\ contains "day" shift || contains "morning" shift = false)
  /\ (classify shift p1 p2 = "Match" \/ classify shift p1 p2 = "Single In Punch" ->
        p1 <> []).
Proof.
  destruct (contains "full" shift || contains "fn" shift) eqn:H1.
  - rewrite (classify_full _ _ _ H1).
    destruct p1 as [|a p1], p2 as [|b p2].
    + split; [split; [discriminate|intros (_ & _ & N); congruence]|].
      split; [discriminate|]. split; [discriminate|].
      intros [H|H]; discriminate H.
    + split; [split; [intros _; repeat split; discriminate|reflexivity]|].
      split; [discriminate|]. split; [discriminate|].
      intros [H|H]; discriminate H.
    + split; [split; [discriminate|intros (_ & N & _); discriminate N]|].
      split; [discriminate|]. split; [discriminate|]. discriminate.
    + split; [split; [discriminate|intros (_ & N & _); discriminate N]|].
      split; [discriminate|]. split; [discriminate|]. discriminate.
  - destruct (contains "day" shift || contains "morning" shift) eqn:H2.
    + rewrite (classify_day _ _ _ H1 H2).
      destruct (List.length p1 <? 2) eqn:L.
      * split; [split; [discriminate|intros (N & _); discriminate N]|].
        split; [discriminate|]. split; [discriminate|].
        intros [H|H]; discriminate H.
      * apply Nat.ltb_ge in L.
        assert (Hne : p1 <> []) by (destruct p1; [simpl in L; lia|discriminate]).
        split; [split; [|intros (N & _); discriminate N]|].
        { repeat match goal with
                 | |- context [if ?b then _ else _] => destruct b
                 end; discriminate. }
        split; [intros _; auto|].
        split; [|intros _; exact Hne].
        repeat match goal with
               | |- context [if ?b then _ else _] => destruct b
               end; discriminate.
    + rewrite (classify_other _ _ _ H1 H2).
      split; [split; [|intros (N & _); discriminate N]|].
      { destruct (other_rule_cases p1) as [E|[E|E]]; rewrite E; discriminate. }
      split.
      { destruct (other_rule_cases p1) as [E|[E|E]]; rewrite E; discriminate. }
      split; [auto|].
      intros H. apply other_rule_nonempty. tauto.
Qed.

(** X15. "Single Out Punch" is only given to an employee who is present in
    Source 1: the row's key is in the key set of Source 1, its label
    contains "full" or "fn", no punch was read for it in Source 1 and one
    was read in Source 2. *)
Theorem single_out_punch_origin (cx : context) (row : list scalar) :
  status_of_row cx row = Ok "Single Out Punch" ->
  exists emp,
    cell (columns (manual_df cx)) row (m_emp cx) = Some emp
    /\ emp_in emp (all_bio1_ids cx) = true
    /\ contains "full" (shift_of cx row) || contains "fn" (shift_of cx row) = true
    /\ source1_punches cx emp = []
    /\ source2_punches cx emp <> [].
Proof.
  unfold status_of_row.
  destruct (cell (columns (manual_df cx)) row (m_emp cx)) as [emp|] eqn:Ec;
    [|discriminate].
  intros H. injection H as H. exists emp. split; [reflexivity|].
  unfold row_status in H. destruct (emp_in emp (all_bio1_ids cx)); [|discriminate H].
  cbn [negb] in H. split; [reflexivity|].
  fold (source1_punches cx emp) in H. fold (source2_punches cx emp) in H.
  destruct (contains "full" (shift_of cx row) || contains "fn" (shift_of cx row)) eqn:H1.
  - split; [reflexivity|]. rewrite (classify_full _ _ _ H1) in H.
    destruct (source1_punches cx emp); [|discriminate H].
    destruct (source2_punches cx emp); [discriminate H|].
    split; [reflexivity|discriminate].
  - exfalso.
    destruct (contains "day" (shift_of cx row) || contains "morning" (shift_of cx row)) eqn:H2.
    + rewrite (classify_day _ _ _ H1 H2) in H.
      repeat match type of H with
             | context [if ?b then _ else _] => destruct b
             end; discriminate H.
    + rewrite (classify_other _ _ _ H1 H2) in H.
      destruct (other_rule_cases (source1_punches cx emp)) as [E|[E|E]];
        rewrite E in H; discriminate H.
Qed.

Lemma single_out_punch_origin_witness :
  status_of_row context_out [SStr "2"; SStr "Full Night"; SOther "2024-01-05 00:00:00"]
  = Ok "Single Out Punch"
  /\ exists emp,
       emp_in emp (all_bio1_ids context_out) = true
       /\ source1_punches context_out emp = [].
Proof.
  split; [reflexivity|].
  destruct (single_out_punch_origin context_out
              [SStr "2"; SStr "Full Night"; SOther "2024-01-05 00:00:00"] eq_refl)
    as (emp & _ & H1 & _ & H2 & _).
  exists emp. split; assumption.
Defined.

(* ================================================================== *)
(** * The join keys *)
(* ================================================================== *)

Lemma nth_set_nth {A : Type} (k : nat) (v d : A) (l : list A) :
  nth k (set_nth k v l) d = v \/ nth k (set_nth k v l) d = d.
Proof.
  revert k. induction l as [|x l IH]; intros [|k]; simpl; auto.
Qed.

Lemma replace_cell_key (y : scalar) :
  replace_cell (SStr (clean_id y)) = SNaN
  \/ exists k, replace_cell (SStr (clean_id y)) = SStr k
               /\ k <> "" /\ all_chars is_AZ09 k = true.
Proof.
  cbn [replace_cell]. destruct (is_blank (clean_id y)) eqn:E; [left; reflexivity|].
  right. exists (clean_id y). split; [reflexivity|]. split; [|apply clean_id_alnum].
  intros E0. rewrite E0 in E. discriminate E.
Qed.

Section JoinKeys.

Variable to_datetime : list scalar -> list scalar.

(** X16. On three rectangular frames whose trimmed headers are distinct
    (those of a biometric frame after its repeated headers are dropped),
    both sides of the join are normalized before the loop starts: every key
    of Source 1 is missing or a non-empty text over A-Z and 0-9, and every
    row of the roster holds a text over A-Z and 0-9 in its employee-id
    column. *)
Theorem keys_normalized (att b1 b2 : DataFrame) (cx : context) :
  wf_frame att = true -> wf_source b1 = true -> wf_source b2 = true ->
  prepare to_datetime att b1 b2 = Ok cx ->
  (forall a, In a (all_bio1_ids cx) ->
     a = SNaN \/ exists k, a = SStr k /\ k <> "" /\ all_chars is_AZ09 k = true)
  /\ (forall row, In row (rows (manual_df cx)) ->
        exists k, cell (columns (manual_df cx)) row (m_emp cx) = Some (SStr k)
                  /\ all_chars is_AZ09 k = true).
Proof.
  intros Hwf _ _ H. pose proof H as Hinv.
  pose proof (wf_frame_rectangular att Hwf) as Hrect.
  apply prepare_inv in Hinv
    as (m0 & s1 & s2 & A1 & A2 & A3 & _ & _ & B1 & _ & G & _).
  split.
  - intros a Ha. unfold normalize_ids in B1.
    apply update_column_rows in B1 as (C1 & L1 & k & Hk & Hrows).
    unfold get_column, replace_blanks in G. cbn [columns rows] in G.
    rewrite C1, Hk in G. injection G as G. rewrite <- G in Ha.
    apply in_map_iff in Ha as (r & <- & Hr).
    apply in_map_iff in Hr as (r1 & <- & Hr1).
    assert (En : nth k (map replace_cell r1) SNaN = replace_cell (nth k r1 SNaN))
      by (change SNaN with (replace_cell SNaN) at 1; apply map_nth).
    rewrite En. clear En.
    apply In_nth_error in Hr1 as [i Hi].
    destruct (nth_error_same_length (rows s1) (rows (clean_source b1)) i r1
                (eq_sym L1) Hi) as [r0 Hr0].
    destruct (Hrows i r0 Hr0) as (v & Hv & Hr1').
    assert (r1 = set_nth k v r0) by congruence. subst r1.
    rewrite map_map in Hv. rewrite (map_nth_error _ _ _ Hr0) in Hv.
    injection Hv as <-.
    destruct (nth_set_nth k (SStr (clean_id (astype_str (nth k r0 SNaN)))) SNaN r0)
      as [-> | ->].
    + apply replace_cell_key.
    + left. reflexivity.
  - intros row Hrow.
    destruct (roster_prepared _ _ _ _ _ Hrect H) as (C & Em & L & R).
    apply In_nth_error in Hrow as [i Hi].
    destruct (nth_error_same_length (rows (manual_df cx)) (rows att) i row
                (eq_sym L) Hi) as [r Hr].
    apply coerce_dates_rows in A1 as (C0 & L0 & R0).
    destruct (R0 i r Hr) as (r0 & Hr0 & Hl0 & _).
    pose proof A2 as A2'. unfold normalize_ids in A2'.
    apply update_column_rows in A2' as (_ & _ & k & Hk & _).
    apply normalize_ids_rows in A2 as (C1 & _ & R1).
    destruct (R1 i r0 Hr0) as (r1 & Hr1 & _ & _ & Hid).
    assert (r1 = row) by congruence. subst r1.
    assert (Hlen : List.length r0 = List.length (columns m0)).
    { rewrite Hl0, C0, length_map.
      apply (proj1 (rectangular_spec att) Hrect). exact (nth_error_In _ _ Hr). }
    destruct (nth_error r0 k) as [x|] eqn:Ex.
    + exists (clean_id x). split; [|apply clean_id_alnum].
      rewrite C1. apply Hid; [exact Hlen|]. unfold cell. rewrite Hk. exact Ex.
    + apply nth_error_None in Ex. apply col_index_some in Hk as [Hk _]. lia.
Qed.

End JoinKeys.

Lemma keys_normalized_witness :
  exists k,
    cell (columns (manual_df context_ex)) row_day_ex (m_emp context_ex) = Some (SStr k)
    /\ all_chars is_AZ09 k = true.
Proof.
  apply (proj2 (keys_normalized to_datetime_id roster_ex source1_ex source2_ex
                  context_ex eq_refl eq_refl eq_refl prepare_ex)).
  left. reflexivity.
Defined.

(* ================================================================== *)
(** * Running the driver on its own output *)
(* ================================================================== *)

Lemma lstrip_solid (s : string) :
  match lstrip s with
  | EmptyString => True
  | String c _ => is_space c = false
  end.
Proof.
  induction s as [|c t IH]; simpl; [exact I|].
  destruct (is_space c) eqn:E; [exact IH|exact E].
Qed.

Lemma rstrip_cons (c : ascii) (t : string) :
  rstrip (String c t)
  = match rstrip t with
    | EmptyString => if is_space c then EmptyString else String c EmptyString
    | t' => String c t'
    end.
Proof. reflexivity. Qed.

Lemma rstrip_idem (s : string) : rstrip (rstrip s) = rstrip s.
Proof.
  induction s as [|c t IH]; [reflexivity|].
  rewrite (rstrip_cons c t).
  destruct (rstrip t) as [|x t'] eqn:E.
  - destruct (is_space c) eqn:Ec; [reflexivity|].
    rewrite rstrip_cons. cbn [rstrip]. rewrite Ec. reflexivity.
  - rewrite rstrip_cons, IH. reflexivity.
Qed.

Lemma lstrip_rstrip_solid (s : string) :
  match s with
  | EmptyString => True
  | String c _ => is_space c = false
  end ->
  lstrip (rstrip s) = rstrip s.
Proof.
  destruct s as [|c t]; [reflexivity|]. intros Hc. rewrite rstrip_cons.
  destruct (rstrip t); [rewrite Hc|]; cbn [lstrip]; rewrite Hc; reflexivity.
Qed.

Lemma strip_idem (s : string) : strip (strip s) = strip s.
Proof.
  unfold strip. rewrite (lstrip_rstrip_solid _ (lstrip_solid s)). apply rstrip_idem.
Qed.

Lemma set_nth_self {A : Type} (k : nat) (d : A) (r : list A) :
  set_nth k (nth k r d) r = r.
Proof.
  revert k. induction r as [|x r IH]; intros [|k]; simpl; try reflexivity.
  rewrite IH. reflexivity.
Qed.

Lemma map2_set_self (k : nat) (rs : list (list scalar)) :
  map2 (fun r v => set_nth k v r) rs (map (fun r => nth k r SNaN) rs) = rs.
Proof.
  induction rs as [|r rs IH]; simpl; [reflexivity|].
  rewrite set_nth_self, IH. reflexivity.
Qed.

(** Writing back to a column the values it holds leaves the frame as it
    is. *)
Lemma update_column_fixed (df : DataFrame) (c : string)
    (g : list scalar -> list scalar) (k : nat) :
  col_index c (columns df) = Some k ->
  g (map (fun r => nth k r SNaN) (rows df)) = map (fun r => nth k r SNaN) (rows df) ->
  (vals <- get_column df c ;; set_column df c (g vals)) = Ok df.
Proof.
  intros Hk Hg. unfold get_column, set_column. rewrite Hk. cbn [bind].
  rewrite Hg, length_map, Nat.eqb_refl. cbn [negb].
  rewrite map2_set_self. destruct df; reflexivity.
Qed.

Lemma nth_set_nth_same {A : Type} (k : nat) (v d : A) (l : list A) :
  k < List.length l -> nth k (set_nth k v l) d = v.
Proof.
  revert k. induction l as [|x l IH]; intros [|k]; simpl; try lia; auto.
  intros H. apply IH. lia.
Qed.

Lemma nth_set_nth_other {A : Type} (k k' : nat) (v d : A) (l : list A) :
  k <> k' -> nth k (set_nth k' v l) d = nth k l d.
Proof.
  revert k k'. induction l as [|x l IH]; intros [|k] [|k']; simpl;
    try congruence; auto.
Qed.

Lemma column_after_set_same (k : nat) (rs : list (list scalar)) (vs : list scalar) :
  List.length vs = List.length rs ->
  (forall r, In r rs -> k < List.length r) ->
  map (fun r => nth k r SNaN) (map2 (fun r v => set_nth k v r) rs vs) = vs.
Proof.
  revert vs. induction rs as [|r rs IH]; intros [|v vs]; simpl; try discriminate;
    [reflexivity|].
  intros Hlen Hk. rewrite nth_set_nth_same by (apply Hk; left; reflexivity).
  f_equal. apply IH; [lia|]. intros; apply Hk; right; assumption.
Qed.

Lemma column_after_set_other (k k' : nat) (rs : list (list scalar)) (vs : list scalar) :
  k <> k' -> List.length vs = List.length rs ->
  map (fun r => nth k r SNaN) (map2 (fun r v => set_nth k' v r) rs vs)
  = map (fun r => nth k r SNaN) rs.
Proof.
  intros Hne. revert vs. induction rs as [|r rs IH]; intros [|v vs]; simpl;
    try discriminate; [reflexivity|].
  intros Hlen. rewrite (nth_set_nth_other _ _ _ _ _ Hne). f_equal. apply IH. lia.
Qed.

Lemma map2_set_length (k : nat) (rs : list (list scalar)) (vs : list scalar) (n : nat) :
  (forall r, In r rs -> List.length r = n) ->
  forall r, In r (map2 (fun r v => set_nth k v r) rs vs) -> List.length r = n.
Proof.
  revert vs. induction rs as [|r0 rs IH]; intros [|v vs] H r; simpl;
    try contradiction.
  intros [<-|Hr].
  - rewrite set_nth_length. apply H. left. reflexivity.
  - apply (IH vs); [intros; apply H; right; assumption|exact Hr].
Qed.

Lemma col_index_inj (cols : list string) (c c' : string) (k : nat) :
  col_index c cols = Some k -> col_index c' cols = Some k -> c = c'.
Proof.
  intros H H'. apply col_index_some in H as [_ H]. apply col_index_some in H' as [_ H'].
  congruence.
Qed.

(** *** The headers of the output *)

Lemma col_index_with_status (cols : list string) (c : string) :
  c <> "Status" -> col_index c (with_status_header cols) = col_index c cols.
Proof.
  intros Hne. unfold with_status_header.
  destruct (col_index "Status" cols); [reflexivity|].
  rewrite col_index_app. destruct (col_index c cols); [reflexivity|].
  destruct (String.eqb_spec "Status" c); [congruence|reflexivity].
Qed.

Lemma find_col_with_status (phrase : string) (cols : list string) :
  contains phrase "status" = false ->
  find_col phrase (with_status_header cols) = find_col phrase cols.
Proof.
  intros Hp. unfold with_status_header.
  destruct (col_index "Status" cols); [reflexivity|].
  unfold find_col. induction cols as [|h t IH]; cbn [app find].
  - change (lower "Status") with "status". rewrite Hp. reflexivity.
  - destruct (contains phrase (lower h)); [reflexivity|exact IH].
Qed.

Lemma with_status_header_stripped (cols : list string) :
  map strip (with_status_header (map strip cols)) = with_status_header (map strip cols).
Proof.
  unfold with_status_header.
  assert (E : map strip (map strip cols) = map strip cols).
  { rewrite map_map. apply map_ext. intros; apply strip_idem. }
  destruct (col_index "Status" (map strip cols)); [exact E|].
  rewrite map_app, E. reflexivity.
Qed.

Lemma found_not_status (phrase d : string) (cols : list string) :
  contains phrase "status" = false -> d <> "Status" ->
  default d (find_col phrase cols) <> "Status".
Proof.
  intros Hp Hd. destruct (find_col phrase cols) as [c|] eqn:E; cbn [default]; [|exact Hd].
  unfold find_col in E. apply find_some in E as [_ E]. intros ->.
  change (lower "Status") with "status" in E. congruence.
Qed.

Lemma map2_map_r {A B B' C : Type} (f : A -> B -> C) (g : B' -> B)
    (l : list A) (m : list B') :
  map2 f l (map g m) = map2 (fun a b => f a (g b)) l m.
Proof.
  revert m. induction l as [|a l IH]; intros [|b m]; simpl; try reflexivity.
  rewrite IH. reflexivity.
Qed.

Lemma status_column_written (m out : DataFrame) (sts : list string) :
  set_column m "Status" (map SStr sts) = Ok out ->
  List.length sts = List.length (rows m)
  /\ out = mk_df (with_status_header (columns m))
             (map2 (assign_status (columns m)) (rows m) sts).
Proof.
  intros H. apply set_column_inv in H as [Hlen ->]. rewrite length_map in Hlen.
  split; [exact Hlen|].
  unfold with_status_header, assign_status.
  destruct (col_index "Status" (columns m)); rewrite map2_map_r; reflexivity.
Qed.

Section Rerun.

Variable to_datetime : list scalar -> list scalar.

(** The roster after lines 62-66. *)
Lemma coerce_dates_form (att m0 : DataFrame) :
  rectangular att = true ->
  coerce_dates to_datetime (strip_columns att) = Ok m0 ->
  exists rows0,
    m0 = mk_df (map strip (columns att)) rows0
    /\ (forall r, In r rows0 -> List.length r = List.length (map strip (columns att)))
    /\ (forall dc kd,
          find_col "date" (map strip (columns att)) = Some dc ->
          col_index dc (map strip (columns att)) = Some kd ->
          exists vs0, map (fun r => nth kd r SNaN) rows0 = to_datetime vs0).
Proof.
  intros Hrect. rewrite rectangular_spec in Hrect.
  assert (Hlen : forall r, In r (rows att) ->
                   List.length r = List.length (map strip (columns att)))
    by (intros r Hr; rewrite length_map; apply Hrect, Hr).
  unfold coerce_dates. cbn [strip_columns columns].
  destruct (find_col "date" (map strip (columns att))) as [dc|] eqn:Ed.
  - intros H. apply update_column_inv in H as (k & Hk & Hl & ->).
    unfold strip_columns in *. cbn [columns rows] in *.
    eexists. split; [reflexivity|]. split.
    + apply map2_set_length, Hlen.
    + intros dc' kd E Hkd. injection E as <-.
      assert (kd = k) by congruence. subst kd.
      eexists. apply column_after_set_same; [exact Hl|].
      intros r Hr. rewrite (Hlen r Hr). apply col_index_some in Hk as [Hk _]. exact Hk.
  - intros H. injection H as <-. exists (rows att).
    split; [reflexivity|]. split; [exact Hlen|]. discriminate.
Qed.

(** The roster when the loop starts, and the frame returned. *)
Lemma first_run_form (att b1 b2 out : DataFrame) :
  rectangular att = true ->
  compare_files to_datetime att b1 b2 = Ok out ->
  exists cx sts rows1 ke,
    prepare to_datetime att b1 b2 = Ok cx
    /\ manual_df cx = mk_df (map strip (columns att)) rows1
    /\ statuses_loop cx rows1 = Ok sts
    /\ List.length sts = List.length rows1
    /\ out = mk_df (with_status_header (map strip (columns att)))
               (map2 (assign_status (map strip (columns att))) rows1 sts)
    /\ (forall r, In r rows1 -> List.length r = List.length (map strip (columns att)))
    /\ col_index (m_emp cx) (map strip (columns att)) = Some ke
    /\ (forall r, In r rows1 -> exists y, nth ke r SNaN = SStr (clean_id y))
    /\ (forall dc kd,
          find_col "date" (map strip (columns att)) = Some dc ->
          dc <> m_emp cx ->
          col_index dc (map strip (columns att)) = Some kd ->
          exists vs0, map (fun r => nth kd r SNaN) rows1 = to_datetime vs0).
Proof.
  intros Hrect H.
  apply compare_files_inv in H as (cx & sts & Hprep & Hloop & Hset).
  pose proof Hprep as Hinv.
  apply prepare_inv in Hinv as (m0 & s1 & s2 & A1 & A2 & _).
  destruct (coerce_dates_form _ _ Hrect A1) as (rows0 & -> & Hlen0 & Hdate0).
  unfold normalize_ids in A2.
  apply update_column_inv in A2 as (ke & Hke & Hl & E1). cbn [columns rows] in *.
  set (ws := map (fun x => SStr (clean_id (astype_str x)))
               (map (fun r => nth ke r SNaN) rows0)) in *.
  set (rows1 := map2 (fun r v => set_nth ke v r) rows0 ws) in *.
  assert (Hcol : map (fun r => nth ke r SNaN) rows1 = ws).
  { apply column_after_set_same; [exact Hl|].
    intros r Hr. rewrite (Hlen0 r Hr). apply col_index_some in Hke as [Hke _]. exact Hke. }
  rewrite E1 in Hloop, Hset. cbn [rows] in Hloop.
  apply status_column_written in Hset as [Hls Hout]. cbn [columns rows] in Hls, Hout.
  exists cx, sts, rows1, ke.
  split; [exact Hprep|]. split; [exact E1|]. split; [exact Hloop|].
  split; [exact Hls|]. split; [exact Hout|].
  split; [apply map2_set_length, Hlen0|]. split; [exact Hke|]. split.
  - intros r Hr.
    assert (Hin : In (nth ke r SNaN) ws).
    { rewrite <- Hcol. apply in_map_iff. exists r. auto. }
    unfold ws in Hin. apply in_map_iff in Hin as (x & <- & _). eauto.
  - intros dc kd Hd Hne Hkd.
    destruct (Hdate0 dc kd Hd Hkd) as [vs0 Hvs]. exists vs0. rewrite <- Hvs.
    apply column_after_set_other; [|exact Hl].
    intros ->. apply Hne. exact (col_index_inj _ _ _ _ Hkd Hke).
Qed.

Lemma set_nth_twice {A : Type} (k : nat) (v : A) (l : list A) :
  set_nth k v (set_nth k v l) = set_nth k v l.
Proof.
  revert k. induction l as [|x l IH]; intros [|k]; simpl; try reflexivity.
  rewrite IH. reflexivity.
Qed.

Lemma set_nth_last {A : Type} (v v' : A) (l : list A) :
  set_nth (List.length l) v (l ++ [v']) = l ++ [v].
Proof. induction l as [|x l IH]; simpl; [reflexivity|]. rewrite IH. reflexivity. Qed.

Lemma status_index (cols : list string) :
  exists ks, col_index "Status" (with_status_header cols) = Some ks
    /\ forall r st, List.length r = List.length cols ->
         set_nth ks (SStr st) (assign_status cols r st) = assign_status cols r st.
Proof.
  unfold with_status_header, assign_status.
  destruct (col_index "Status" cols) as [k|] eqn:E.
  - exists k. split; [exact E|]. intros; apply set_nth_twice.
  - exists (List.length cols). split.
    + rewrite col_index_app, E, String.eqb_refl. reflexivity.
    + intros r st <-. apply set_nth_last.
Qed.

Lemma assign_status_nth (cols : list string) (r : list scalar) (st c : string) (k : nat) :
  col_index c cols = Some k -> c <> "Status" ->
  List.length r = List.length cols ->
  nth k (assign_status cols r st) SNaN = nth k r SNaN.
Proof.
  intros Hk Hne Hlen. unfold assign_status.
  destruct (col_index "Status" cols) as [ks|] eqn:E.
  - apply nth_set_nth_other. intros ->. apply Hne. exact (col_index_inj _ _ _ _ Hk E).
  - apply app_nth1. apply col_index_some in Hk as [Hk _]. lia.
Qed.

Lemma column_after_status (cols : list string) (c : string) (k : nat)
    (rs : list (list scalar)) (sts : list string) :
  col_index c cols = Some k -> c <> "Status" ->
  List.length sts = List.length rs ->
  (forall r, In r rs -> List.length r = List.length cols) ->
  map (fun r => nth k r SNaN) (map2 (assign_status cols) rs sts)
  = map (fun r => nth k r SNaN) rs.
Proof.
  intros Hk Hne. revert sts. induction rs as [|r rs IH]; intros [|st sts]; simpl;
    try discriminate; [reflexivity|].
  intros Hlen Hrect.
  rewrite (assign_status_nth _ _ _ _ _ Hk Hne (Hrect r (or_introl eq_refl))).
  f_equal. apply IH; [lia|]. intros; apply Hrect; right; assumption.
Qed.

Lemma rewrite_status_column (cols : list string) (rs : list (list scalar))
    (sts : list string) (ks : nat) :
  (forall r st, List.length r = List.length cols ->
     set_nth ks (SStr st) (assign_status cols r st) = assign_status cols r st) ->
  (forall r, In r rs -> List.length r = List.length cols) ->
  map2 (fun r v => set_nth ks v r) (map2 (assign_status cols) rs sts) (map SStr sts)
  = map2 (assign_status cols) rs sts.
Proof.
  intros Hks. revert sts. induction rs as [|r rs IH]; intros [|st sts] Hrect; simpl;
    try reflexivity.
  rewrite (Hks r st (Hrect r (or_introl eq_refl))). f_equal.
  apply IH. intros; apply Hrect; right; assumption.
Qed.

(** A row of the output is classified as the row of the roster it comes
    from. *)
Lemma status_of_output_row (cx : context) (cols : list string)
    (rs : list (list scalar)) (out : DataFrame) (r : list scalar) (st : string) :
  columns (manual_df cx) = cols ->
  columns out = with_status_header cols ->
  m_emp cx <> "Status" -> shift_col cx <> "Status" ->
  List.length r = List.length cols ->
  status_of_row (with_roster cx out) (assign_status cols r st) = status_of_row cx r.
Proof.
  intros Hc Ho Hm Hs Hlen. unfold status_of_row, shift_of, with_roster.
  cbn [manual_df m_emp shift_col]. rewrite Ho, Hc.
  rewrite (assign_status_other _ _ _ _ Hlen Hm), (assign_status_other _ _ _ _ Hlen Hs).
  reflexivity.
Qed.

Lemma statuses_of_output (cx : context) (cols : list string) (out : DataFrame)
    (rs : list (list scalar)) (sts : list string) :
  columns (manual_df cx) = cols ->
  columns out = with_status_header cols ->
  m_emp cx <> "Status" -> shift_col cx <> "Status" ->
  (forall r, In r rs -> List.length r = List.length cols) ->
  statuses_loop cx rs = Ok sts ->
  statuses_loop (with_roster cx out) (map2 (assign_status cols) rs sts) = Ok sts.
Proof.
  intros Hc Ho Hm Hs. revert sts. induction rs as [|r rs IH]; intros sts Hrect; simpl.
  - intros H. injection H as <-. reflexivity.
  - intros H. apply bind_ok in H as (st & Hst & H).
    apply bind_ok in H as (sts' & Hrest & H). injection H as <-.
    cbn [map2 statuses_loop].
    rewrite (status_of_output_row cx cols rs out r st Hc Ho Hm Hs
               (Hrect r (or_introl eq_refl))), Hst.
    cbn [bind]. rewrite (IH sts'); [reflexivity| |exact Hrest].
    intros; apply Hrect; right; assumption.
Qed.

Hypothesis to_datetime_idem : forall l, to_datetime (to_datetime l) = to_datetime l.

Lemma key_fixed (y : scalar) :
  SStr (clean_id (astype_str (SStr (clean_id y)))) = SStr (clean_id y).
Proof.
  rewrite clean_id_astype_str, (clean_id_fixes_alnum _ (clean_id_alnum y)). reflexivity.
Qed.

(** X17. Running the driver on its own output changes nothing: when
    [compare_files] returns a frame for a rectangular roster whose date
    column is not its employee-id column, [compare_files] on that frame and
    the same two sources returns that very frame ([pd.to_datetime] leaving
    alone a column it has already converted). *)
Theorem compare_files_rerun (att b1 b2 out : DataFrame) :
  rectangular att = true ->
  find_col "date" (map strip (columns att))
    <> Some (default "EMP ID" (find_col "emp id" (map strip (columns att)))) ->
  compare_files to_datetime att b1 b2 = Ok out ->
  compare_files to_datetime out b1 b2 = Ok out.
Proof.
  intros Hrect Hdate H.
  destruct (first_run_form _ _ _ _ Hrect H)
    as (cx & sts & rows1 & ke & Hprep & Hman & Hloop & Hls & Hout & Hlen & Hke & Hkey & Hdcol).
  set (cols := map strip (columns att)) in *.
  pose proof Hprep as Hinv.
  apply prepare_inv in Hinv
    as (m0 & s1 & s2 & A1 & A2 & A3 & A4 & E1 & B1 & F1 & G & E2 & B2 & F2).
  assert (C0 : columns m0 = cols)
    by (destruct (coerce_dates_rows _ _ _ A1) as [C0 _]; exact C0).
  assert (Cm : columns (manual_df cx) = cols) by (rewrite Hman; reflexivity).
  rewrite C0 in A3. rewrite Cm in A4.
  assert (Hm : m_emp cx <> "Status")
    by (rewrite A3; apply found_not_status; [reflexivity|discriminate]).
  assert (Hs : shift_col cx <> "Status")
    by (rewrite A4; apply found_not_status; [reflexivity|discriminate]).
  assert (Co : columns out = with_status_header cols) by (rewrite Hout; reflexivity).
  assert (Ro : rows out = map2 (assign_status cols) rows1 sts)
    by (rewrite Hout; reflexivity).
  (* the roster part of the second run returns [out] itself *)
  assert (S1 : strip_columns out = out).
  { rewrite Hout. unfold strip_columns. cbn [columns rows]. f_equal.
    apply with_status_header_stripped. }
  assert (S2 : coerce_dates to_datetime out = Ok out).
  { unfold coerce_dates. rewrite Co, find_col_with_status by reflexivity.
    destruct (find_col "date" cols) as [dc|] eqn:Ed; [|reflexivity].
    assert (Hd : dc <> "Status").
    { pose proof (found_not_status "date" "x" cols eq_refl) as N.
      rewrite Ed in N. apply N. discriminate. }
    destruct (col_index_in _ _ (find_col_in _ _ _ Ed)) as [kd Hkd].
    apply (update_column_fixed out dc to_datetime kd).
    - rewrite Co, (col_index_with_status _ _ Hd). exact Hkd.
    - rewrite Ro, (column_after_status _ _ _ _ _ Hkd Hd Hls Hlen).
      destruct (Hdcol dc kd eq_refl) as [vs0 ->]; [|exact Hkd|apply to_datetime_idem].
      intros ->. apply Hdate. rewrite <- A3. reflexivity. }
  assert (S3 : default "EMP ID" (find_col "emp id" (columns out)) = m_emp cx)
    by (rewrite Co, find_col_with_status by reflexivity; symmetry; exact A3).
  assert (S4 : normalize_ids out (m_emp cx) = Ok out).
  { unfold normalize_ids.
    apply (update_column_fixed out (m_emp cx) _ ke).
    - rewrite Co, (col_index_with_status _ _ Hm). exact Hke.
    - rewrite Ro, (column_after_status _ _ _ _ _ Hke Hm Hls Hlen).
      rewrite map_map. apply map_ext_in. intros r Hr.
      destruct (Hkey r Hr) as [y ->]. apply key_fixed. }
  assert (S5 : default "SHIFT" (find_col "shift" (columns out)) = shift_col cx)
    by (rewrite Co, find_col_with_status by reflexivity; symmetry; exact A4).
  assert (P : prepare to_datetime out b1 b2 = Ok (with_roster cx out)).
  { unfold prepare. cbv zeta. rewrite S1, S2. cbn [bind].
    unfold clean_source in *. rewrite E1. cbn [bind]. rewrite E2. cbn [bind].
    rewrite S3, S4. cbn [bind]. rewrite B1. cbn [bind]. rewrite B2. cbn [bind].
    rewrite G. cbn [bind]. rewrite S5. unfold with_roster.
    rewrite F1, F2. reflexivity. }
  assert (F : set_column out "Status" (map SStr sts) = Ok out).
  { destruct (status_index cols) as (ks & Hks & Hfix).
    unfold set_column. rewrite Co, Hks, length_map, Ro.
    rewrite (map2_length (assign_status cols) rows1 sts (eq_sym Hls)), Hls, Nat.eqb_refl.
    cbn [negb]. rewrite (rewrite_status_column cols rows1 sts ks Hfix Hlen).
    rewrite Hout. reflexivity. }
  unfold compare_files. rewrite P. cbn [bind].
  change (manual_df (with_roster cx out)) with out. rewrite Ro.
  rewrite (statuses_of_output cx cols out rows1 sts Cm Co Hm Hs Hlen Hloop).
  cbn [bind]. exact F.
Qed.

End Rerun.

Lemma compare_files_rerun_witness :
  compare_files to_datetime_id output_ex source1_ex source2_ex = Ok output_ex.
Proof.
  apply (compare_files_rerun to_datetime_id (fun l => eq_refl)
           roster_ex source1_ex source2_ex output_ex eq_refl).
  - intros E. vm_compute in E. discriminate E.
  - exact compare_files_ex.
Defined.

(* ================================================================== *)
(** * Rows without an identifier *)
(* ================================================================== *)

Section MissingIds.

Variable to_datetime : list scalar -> list scalar.

(** X18. On three rectangular frames whose trimmed headers are distinct
    (those of a biometric frame after its repeated headers are dropped),
    rows without an identifier are joined to one another: a missing
    identifier becomes the key "NAN" on both sides, so a roster row whose
    employee-id cell is [NaN], in a column that is not the date column, is
    present in Source 1 as soon as Source 1 has a row whose identifier cell
    is [NaN], and is classified on the punches collected for the key
    "NAN". *)
Theorem missing_ids_match (att b1 b2 : DataFrame) (cx : context)
    (i : nat) (r r0 : list scalar) :
  wf_frame att = true -> wf_source b1 = true -> wf_source b2 = true ->
  prepare to_datetime att b1 b2 = Ok cx ->
  find_col "date" (map strip (columns att)) <> Some (m_emp cx) ->
  nth_error (rows att) i = Some r ->
  cell (map strip (columns att)) r (m_emp cx) = Some SNaN ->
  In r0 (rows (clean_source b1)) ->
  cell (columns (clean_source b1)) r0 (b_emp1 cx) = Some SNaN ->
  exists row,
    nth_error (rows (manual_df cx)) i = Some row
    /\ cell (columns (manual_df cx)) row (m_emp cx) = Some (SStr "NAN")
    /\ emp_in (SStr "NAN") (all_bio1_ids cx) = true
    /\ status_of_row cx row
       = Ok (classify (shift_of cx row) (source1_punches cx (SStr "NAN"))
               (source2_punches cx (SStr "NAN"))).
Proof.
  intros Hwf _ _ H Hdate Hr Hcell Hr0 Hcell0.
  pose proof (wf_frame_rectangular att Hwf) as Hrect.
  destruct (roster_prepared _ _ _ _ _ Hrect H) as (C & _ & _ & R).
  destruct (R i r Hr) as (row & Hrow & _ & _ & Hid).
  specialize (Hid Hdate SNaN Hcell). change (clean_id SNaN) with "NAN" in Hid.
  rewrite <- C in Hid.
  assert (Hin : emp_in (SStr "NAN") (all_bio1_ids cx) = true).
  { apply prepare_inv in H as (m0 & s1 & s2 & _ & _ & _ & _ & _ & B1 & _ & G & _).
    unfold normalize_ids in B1.
    apply update_column_rows in B1 as (C1 & L1 & k & Hk & Hrows).
    unfold get_column, replace_blanks in G. cbn [columns rows] in G.
    rewrite C1, Hk in G. injection G as G. rewrite <- G.
    apply In_nth_error in Hr0 as [j Hj].
    destruct (Hrows j r0 Hj) as (v & Hv & Hs1).
    rewrite map_map in Hv. rewrite (map_nth_error _ _ _ Hj) in Hv.
    injection Hv as <-.
    unfold cell in Hcell0. rewrite Hk in Hcell0.
    rewrite (nth_error_nth _ _ SNaN Hcell0) in Hs1.
    change (clean_id (astype_str SNaN)) with "NAN" in Hs1.
    unfold emp_in. apply existsb_exists.
    exists (SStr "NAN"). split; [|reflexivity].
    apply in_map_iff. exists (map replace_cell (set_nth k (SStr "NAN") r0)). split.
    - change SNaN with (replace_cell SNaN) at 1. rewrite map_nth.
      rewrite nth_set_nth_same; [reflexivity|].
      apply nth_error_Some. congruence.
    - apply in_map. exact (nth_error_In _ _ Hs1). }
  exists row. split; [exact Hrow|]. split; [exact Hid|]. split; [exact Hin|].
  exact (status_of_row_present cx row (SStr "NAN") Hid Hin).
Qed.

End MissingIds.

Lemma prepare_noid :
  prepare to_datetime_id roster_noid source1_noid source2_ex = Ok context_noid.
Proof. vm_compute. reflexivity. Qed.

Lemma missing_ids_match_witness :
  exists row,
    nth_error (rows (manual_df context_noid)) 0 = Some row
    /\ emp_in (SStr "NAN") (all_bio1_ids context_noid) = true
    /\ status_of_row context_noid row = Ok "Match".
Proof.
  destruct (missing_ids_match to_datetime_id roster_noid source1_noid source2_ex
              context_noid 0 [SNaN; SStr "HF"] [SNaN; SStr "09:00"; SStr "17:00"]
              eq_refl eq_refl eq_refl prepare_noid)
    as (row & H1 & H2 & H3 & H4).
  - intros E. vm_compute in E. discriminate E.
  - reflexivity.
  - reflexivity.
  - left. reflexivity.
  - reflexivity.
  - exists row. split; [exact H1|]. split; [exact H3|].
    rewrite H4. vm_compute in H1. injection H1 as <-. reflexivity.
Defined.

(* ================================================================== *)
(** * The frame returned *)
(* ================================================================== *)

Section Output.

Variable to_datetime : list scalar -> list scalar.




End Output.

